(** * spl-token-metadata, js-legacy client: the instruction builders

    A shallow embedding of [clients/js-legacy/src/instruction.ts].  The file
    builds five [TransactionInstruction]s (Initialize, UpdateField, RemoveKey,
    UpdateAuthority, Emit); each carries an account list and a data buffer
    made of an 8-byte discriminator followed by a struct encoding.

    Conventions of the embedding:
    - a byte is a [Z] in [0, 256); a [Uint8Array] / [Buffer] is a [list Z];
    - a JavaScript string is its sequence of UTF-16 code units, a [list Z];
    - a JavaScript [number] or [bigint] is a [Z]: the embedding covers the
      integers only, and every statement about a number is about an integer.
      [NaN] and fractions have no [Z] and are left out (see [numberEncoder]
      for what the library does with them);
    - a call that may throw returns a [Result]. *)

From Stdlib Require Import String Ascii ZArith List Lia Bool.
Import ListNotations.
Local Open Scope Z_scope.

Set Implicit Arguments.

(** ** Bytes, strings, thrown errors *)

Definition bytes := list Z.

(** A JavaScript string: UTF-16 code units. *)
Definition JsString := list Z.

(** A string literal made of Latin-1 characters, as code units. *)
Definition js (s : string) : JsString :=
  map (fun a => Z.of_nat (nat_of_ascii a)) (list_ascii_of_string s).

(** The errors the codec library throws while encoding. *)
Inductive CodecError : Type :=
| NumberOutOfRange (codecDescription : string) (min max value : Z)
| InvalidDiscriminatedUnionVariant (variant : string).

Inductive Result (A : Type) : Type :=
| Ok (a : A)
| Throw (e : CodecError).

Arguments Ok {A} a.
Arguments Throw {A} e.

Definition bind {A B : Type} (r : Result A) (k : A -> Result B) : Result B :=
  match r with
  | Ok a => k a
  | Throw e => Throw e
  end.

Notation "x <- r ;; k" := (bind r (fun x => k))
  (at level 61, r at next level, right associativity).

(** Run a fallible function over a list, left to right, stopping at the
    first throw. *)
Fixpoint mapM {A B : Type} (f : A -> Result B) (l : list A) : Result (list B) :=
  match l with
  | [] => Ok []
  | a :: rest =>
      b <- f a ;;
      bs <- mapM f rest ;;
      Ok (b :: bs)
  end.

(** ** The codec library ([@solana/codecs]), encoders only

    An encoder is taken at its [encode] method: value in, fresh byte array
    out, or a throw. *)

Module Codecs.

Definition Encoder (T : Type) : Type := T -> Result bytes.

(** [new Uint8Array([...])]: every element is reduced modulo 256. *)
Definition Uint8Array (l : list Z) : bytes := map (fun z => z mod 256) l.

(** [size] little-endian bytes of [v]. *)
Fixpoint le_bytes (size : nat) (v : Z) : bytes :=
  match size with
  | O => []
  | S k => v mod 256 :: le_bytes k (v / 256)
  end.

(** [numberEncoderFactory]: the range assertion, then the little-endian
    [DataView] write, for a value that is an integer.  On the other numbers
    the library does something else, which a [Z] cannot say: [NaN] passes the
    assertion and is written as 0, a fraction in range is written without
    its fractional part by [setUint8] and [setUint16], and for u64
    [BigInt(value)] throws a [RangeError] of its own. *)
Definition numberEncoder (name : string) (size : nat) (lo hi : Z) : Encoder Z :=
  fun value =>
    if (value <? lo) || (hi <? value)
    then Throw (NumberOutOfRange name lo hi value)
    else Ok (le_bytes size value).

Definition getU8Encoder : Encoder Z := numberEncoder "u8" 1 0 255.
Definition getU16Encoder : Encoder Z := numberEncoder "u16" 2 0 65535.
Definition getU32Encoder : Encoder Z := numberEncoder "u32" 4 0 4294967295.
Definition getU64Encoder : Encoder Z :=
  numberEncoder "u64" 8 0 18446744073709551615.

Definition transformEncoder {A B : Type} (encoder : Encoder A) (unmap : B -> A)
  : Encoder B :=
  fun value => encoder (unmap value).

Definition getUnitEncoder : Encoder unit := fun _ => Ok [].

Definition getBooleanEncoder : Encoder bool :=
  transformEncoder getU8Encoder (fun value : bool => if value then 1 else 0).

Definition getBytesEncoder : Encoder bytes := fun value => Ok value.

(** [fixEncoderSize]: the inner encoding is cut to [fixedBytes] when longer
    and written into a zeroed window of [fixedBytes] bytes otherwise. *)
Definition fixEncoderSize {T : Type} (encoder : Encoder T) (fixedBytes : nat)
  : Encoder T :=
  fun value =>
    variableByteArray <- encoder value ;;
    Ok (if (fixedBytes <? length variableByteArray)%nat
        then firstn fixedBytes variableByteArray
        else variableByteArray
               ++ repeat 0 (fixedBytes - length variableByteArray)).

(** UTF-8 bytes of one Unicode scalar value. *)
Definition utf8_of_code_point (cp : Z) : bytes :=
  if cp <? 128 then [cp]
  else if cp <? 2048 then [192 + cp / 64; 128 + cp mod 64]
  else if cp <? 65536 then
    [224 + cp / 4096; 128 + (cp / 64) mod 64; 128 + cp mod 64]
  else
    [240 + cp / 262144; 128 + (cp / 4096) mod 64;
     128 + (cp / 64) mod 64; 128 + cp mod 64].

Definition is_high_surrogate (c : Z) : bool := (55296 <=? c) && (c <? 56320).
Definition is_low_surrogate (c : Z) : bool := (56320 <=? c) && (c <? 57344).

(** [TextEncoder.encode]: a surrogate pair is one supplementary code point,
    a lone surrogate becomes U+FFFD. *)
Fixpoint TextEncoder_encode (s : JsString) : bytes :=
  match s with
  | [] => []
  | c :: rest =>
      if is_high_surrogate c then
        match rest with
        | d :: rest' =>
            if is_low_surrogate d
            then utf8_of_code_point
                   (65536 + (c - 55296) * 1024 + (d - 56320))
                   ++ TextEncoder_encode rest'
            else utf8_of_code_point 65533 ++ TextEncoder_encode rest
        | [] => utf8_of_code_point 65533
        end
      else if is_low_surrogate c
      then utf8_of_code_point 65533 ++ TextEncoder_encode rest
      else utf8_of_code_point c ++ TextEncoder_encode rest
  end.

Definition getUtf8Encoder : Encoder JsString :=
  fun value => Ok (TextEncoder_encode value).

(** [addEncoderSizePrefix]: the prefix encoder writes the byte length of the
    inner encoding, the inner bytes follow. *)
Definition addEncoderSizePrefix {T : Type} (encoder : Encoder T)
  (prefix : Encoder Z) : Encoder T :=
  fun value =>
    encoderBytes <- encoder value ;;
    p <- prefix (Z.of_nat (length encoderBytes)) ;;
    Ok (p ++ encoderBytes).

(** [getTupleEncoder] at two items. *)
Definition getTupleEncoder {A B : Type} (first : Encoder A) (second : Encoder B)
  : Encoder (A * B) :=
  fun value =>
    a <- first (fst value) ;;
    b <- second (snd value) ;;
    Ok (a ++ b).

(** [getStructEncoder]: the fields are written in the order of the list.  A
    field is its name with the encoder applied to that property of the
    struct. *)
Definition StructField (T : Type) : Type := (string * Encoder T)%type.

Definition field {T A : Type} (name : string) (get : T -> A)
  (encoder : Encoder A) : StructField T :=
  (name, fun struct => encoder (get struct)).

Fixpoint getStructEncoder {T : Type} (fields : list (StructField T))
  : Encoder T :=
  fun struct =>
    match fields with
    | [] => Ok []
    | (_, encoder) :: rest =>
        b <- encoder struct ;;
        bs <- getStructEncoder rest struct ;;
        Ok (b ++ bs)
    end.

(** [getArrayEncoder] with its default size: a u32 count, then the items. *)
Definition getArrayEncoder {T : Type} (item : Encoder T) : Encoder (list T) :=
  fun value =>
    p <- getU32Encoder (Z.of_nat (length value)) ;;
    items <- mapM item value ;;
    Ok (p ++ concat items).

(** [getOptionEncoder] with its defaults (u8 boolean prefix, no none value):
    [null] is the union's variant 0, a value its variant 1. *)
Definition getOptionEncoder {T : Type} (item : Encoder T) : Encoder (option T) :=
  fun value =>
    match value with
    | None =>
        transformEncoder (getTupleEncoder getBooleanEncoder getUnitEncoder)
          (fun _ : unit => (false, tt)) tt
    | Some v =>
        transformEncoder (getTupleEncoder getBooleanEncoder item)
          (fun v : T => (true, v)) v
    end.

(** [variants.findIndex] on the [__kind], with the entry found there. *)
Fixpoint findVariant {V : Type} (k : string) (variants : list (string * V))
  : option (nat * V) :=
  match variants with
  | [] => None
  | (name, v) :: rest =>
      if String.eqb name k then Some (O, v)
      else match findVariant k rest with
           | Some (i, v') => Some (S i, v')
           | None => None
           end
  end.

(** [getDataEnumCodec(variants).encode] with its default u8 prefix: the index
    of the variant's [__kind] in the table, then that entry's encoder
    applied to the variant. *)
Definition getDataEnumCodec {T : Type} (kind : T -> string)
  (variants : list (string * Encoder T)) : Encoder T :=
  fun variant =>
    match findVariant (kind variant) variants with
    | None => Throw (InvalidDiscriminatedUnionVariant (kind variant))
    | Some (discriminator, variantEncoder) =>
        p <- getU8Encoder (Z.of_nat discriminator) ;;
        b <- variantEncoder variant ;;
        Ok (p ++ b)
    end.

End Codecs.

Import Codecs.

(** ** [@solana/web3.js]: keys, account metas, instructions *)

(** A public key is used through [toBytes()] only.  The library's own keys
    always answer 32 bytes ([PublicKey_new] below); the record keeps the
    byte array as it comes, so that the fixed-size encoder is defined at
    every length, and what is said of real keys carries the 32 bytes as a
    hypothesis. *)
Record PublicKey : Type := { toBytes : bytes }.

Module SystemProgram.
(** The system program's id, [11111111111111111111111111111111] in base 58:
    thirty-two zero bytes. *)
Definition programId : PublicKey := {| toBytes := repeat 0 32 |}.
End SystemProgram.

Record AccountMeta : Type := {
  isSigner : bool;
  isWritable : bool;
  pubkey : PublicKey
}.

Module TransactionInstruction.
Record t : Type := {
  programId : PublicKey;
  keys : list AccountMeta;
  data : bytes
}.
End TransactionInstruction.

(** ** [@solana/web3.js]: how a key comes to be

    [new PublicKey(value)] on a byte array reads the bytes as one big-endian
    number and throws (['Invalid public key input']) when that number needs
    more than 32 bytes; [toBytes()] answers the number as exactly 32
    big-endian bytes, zeros first.  The builders only receive keys made this
    way, so the [toBytes()] they see has 32 bytes. *)




(** ** [instruction.ts]: the three local encoders *)

Definition getInstructionEncoder {T : Type} (discriminator : bytes)
  (dataEncoder : Encoder T) : Encoder T :=
  transformEncoder (getTupleEncoder getBytesEncoder dataEncoder)
    (fun data : T => (discriminator, data)).

Definition getPublicKeyEncoder : Encoder PublicKey :=
  transformEncoder (fixEncoderSize getBytesEncoder 32)
    (fun publicKey : PublicKey => toBytes publicKey).

Definition getStringEncoder : Encoder JsString :=
  addEncoderSizePrefix getUtf8Encoder getU32Encoder.

(** ** [instruction.ts]: the interfaces *)

Module Creator.
Record t : Type := {
  address : PublicKey;
  verified : bool;
  share : Z
}.
End Creator.

Module Collection.
Record t : Type := {
  key : PublicKey;
  verified : bool
}.
End Collection.

Module Uses.
Record t : Type := {
  use_method : Z;
  remaining : Z;
  total : Z
}.
End Uses.

(** An optional property [p?: T] is [None] when the caller leaves it out
    ([undefined]); [p?: T | null] is [Some None] when the caller passes
    [null]. *)
Module InitializeInstructionArgs.
Record t : Type := {
  metadata : PublicKey;
  mint : PublicKey;
  mintAuthority : PublicKey;
  name : JsString;
  programId : PublicKey;
  symbol : JsString;
  updateAuthority : PublicKey;
  uri : JsString;
  creators : option (list Creator.t);
  sellerFeeBasisPoints : option Z;
  collection : option (option Collection.t);
  uses : option (option Uses.t)
}.
End InitializeInstructionArgs.

(** The object handed to the Initialize struct encoder. *)
Module InitializeData.
Record t : Type := {
  name : JsString;
  symbol : JsString;
  uri : JsString;
  seller_fee_basis_points : Z;
  creators : option (list Creator.t);
  collection : option Collection.t;
  uses : option Uses.t
}.
End InitializeData.

Module UpdateFieldInstruction.
Record t (Field : Type) : Type := {
  programId : PublicKey;
  metadata : PublicKey;
  updateAuthority : PublicKey;
  field : Field + JsString;
  value : JsString
}.
End UpdateFieldInstruction.

Module UpdateFieldData.
Record t (FieldLayout : Type) : Type := {
  field : FieldLayout;
  value : JsString
}.
End UpdateFieldData.

Module RemoveKeyInstructionArgs.
Record t : Type := {
  programId : PublicKey;
  metadata : PublicKey;
  updateAuthority : PublicKey;
  key : JsString;
  idempotent : bool
}.
End RemoveKeyInstructionArgs.

Module RemoveKeyData.
Record t : Type := {
  idempotent : bool;
  key : JsString
}.
End RemoveKeyData.

Module UpdateAuthorityInstructionArgs.
Record t : Type := {
  programId : PublicKey;
  metadata : PublicKey;
  oldAuthority : PublicKey;
  newAuthority : option PublicKey
}.
End UpdateAuthorityInstructionArgs.

Module UpdateAuthorityData.
Record t : Type := {
  newAuthority : PublicKey
}.
End UpdateAuthorityData.

(** [end] is reserved in Rocq: the property is [end_] here. *)
Module EmitInstructionArgs.
Record t : Type := {
  programId : PublicKey;
  metadata : PublicKey;
  start : option Z;
  end_ : option Z
}.
End EmitInstructionArgs.

Module EmitData.
Record t : Type := {
  start : option Z;
  end_ : option Z
}.
End EmitData.

(** A destructuring default, [{ p = d } = args]: [d] when [p] is left out. *)
Definition orDefault {A : Type} (p : option A) (d : A) : A :=
  match p with
  | Some v => v
  | None => d
  end.

(** Nullish coalescing, [p ?? d]: [d] when [p] is [null] or [undefined]. *)
Definition nullish {A : Type} (p : option A) (d : A) : A :=
  match p with
  | Some v => v
  | None => d
  end.

(** [p ?? null] on an optional property: [null] and [undefined] are both
    the absent value of the option encoder. *)
Definition nullable {A : Type} (p : option A) : option A :=
  match p with
  | Some v => Some v
  | None => None
  end.

(** ** [instruction.ts]: the builders *)

Definition createInitializeInstruction (args : InitializeInstructionArgs.t)
  : Result TransactionInstruction.t :=
  let programId := InitializeInstructionArgs.programId args in
  let metadata := InitializeInstructionArgs.metadata args in
  let updateAuthority := InitializeInstructionArgs.updateAuthority args in
  let mint := InitializeInstructionArgs.mint args in
  let mintAuthority := InitializeInstructionArgs.mintAuthority args in
  let name := InitializeInstructionArgs.name args in
  let symbol := InitializeInstructionArgs.symbol args in
  let uri := InitializeInstructionArgs.uri args in
  let creators := orDefault (InitializeInstructionArgs.creators args) [] in
  let sellerFeeBasisPoints :=
    orDefault (InitializeInstructionArgs.sellerFeeBasisPoints args) 0 in
  let collection := orDefault (InitializeInstructionArgs.collection args) None in
  let uses := orDefault (InitializeInstructionArgs.uses args) None in
  let creatorSigners :=
    map (fun creator =>
           {| isSigner := true; isWritable := false;
              pubkey := Creator.address creator |})
        (filter (fun c => Creator.verified c) creators) in
  let collectionSigners :=
    match collection with
    | Some c =>
        if Collection.verified c
        then [{| isSigner := true; isWritable := false;
                 pubkey := Collection.key c |}]
        else []
    | None => []
    end in
  let keys :=
    [ {| isSigner := false; isWritable := true; pubkey := metadata |};
      {| isSigner := false; isWritable := false; pubkey := updateAuthority |};
      {| isSigner := false; isWritable := false; pubkey := mint |};
      {| isSigner := true; isWritable := false; pubkey := mintAuthority |} ]
    ++ creatorSigners ++ collectionSigners in
  data <-
    getInstructionEncoder
      (Uint8Array [210; 225; 30; 162; 88; 184; 77; 141])
      (getStructEncoder
         [ field "name" InitializeData.name getStringEncoder;
           field "symbol" InitializeData.symbol getStringEncoder;
           field "uri" InitializeData.uri getStringEncoder;
           field "seller_fee_basis_points"
             InitializeData.seller_fee_basis_points getU16Encoder;
           field "creators" InitializeData.creators
             (getOptionEncoder (getArrayEncoder (getStructEncoder
                [ field "address" Creator.address getPublicKeyEncoder;
                  field "verified" Creator.verified getBooleanEncoder;
                  field "share" Creator.share getU8Encoder ])));
           field "collection" InitializeData.collection
             (getOptionEncoder (getStructEncoder
                [ field "key" Collection.key getPublicKeyEncoder;
                  field "verified" Collection.verified getBooleanEncoder ]));
           field "uses" InitializeData.uses
             (getOptionEncoder (getStructEncoder
                [ field "use_method" Uses.use_method getU8Encoder;
                  field "remaining" Uses.remaining getU64Encoder;
                  field "total" Uses.total getU64Encoder ])) ])
      {| InitializeData.name := name;
         InitializeData.symbol := symbol;
         InitializeData.uri := uri;
         InitializeData.seller_fee_basis_points := sellerFeeBasisPoints;
         InitializeData.creators :=
           if (0 <? length creators)%nat then Some creators else None;
         InitializeData.collection := collection;
         InitializeData.uses := uses |} ;;
  Ok {| TransactionInstruction.programId := programId;
        TransactionInstruction.keys := keys;
        TransactionInstruction.data := data |}.

(** [field.ts] is not among the sources: the builder is taken over what it
    imports from there, the [Field] enum, the variant objects with their
    [__kind], the variant table [getFieldCodec()] and [getFieldConfig]. *)
Section UpdateField.

Variable Field : Type.
Variable FieldLayout : Type.
Variable kind : FieldLayout -> string.
Variable getFieldCodec : list (string * Encoder FieldLayout).
Variable getFieldConfig : Field + JsString -> FieldLayout.

Definition createUpdateFieldInstruction (args : UpdateFieldInstruction.t Field)
  : Result TransactionInstruction.t :=
  let programId := UpdateFieldInstruction.programId args in
  let metadata := UpdateFieldInstruction.metadata args in
  let updateAuthority := UpdateFieldInstruction.updateAuthority args in
  let field_ := UpdateFieldInstruction.field args in
  let value := UpdateFieldInstruction.value args in
  let keys :=
    [ {| isSigner := false; isWritable := true; pubkey := metadata |};
      {| isSigner := true; isWritable := false; pubkey := updateAuthority |} ] in
  data <-
    getInstructionEncoder
      (Uint8Array [221; 233; 49; 45; 181; 202; 220; 200])
      (getStructEncoder
         [ field "field" (@UpdateFieldData.field FieldLayout)
             (getDataEnumCodec kind getFieldCodec);
           field "value" (@UpdateFieldData.value FieldLayout)
             getStringEncoder ])
      {| UpdateFieldData.field := getFieldConfig field_;
         UpdateFieldData.value := value |} ;;
  Ok {| TransactionInstruction.programId := programId;
        TransactionInstruction.keys := keys;
        TransactionInstruction.data := data |}.

End UpdateField.

Definition createRemoveKeyInstruction (args : RemoveKeyInstructionArgs.t)
  : Result TransactionInstruction.t :=
  let programId := RemoveKeyInstructionArgs.programId args in
  let metadata := RemoveKeyInstructionArgs.metadata args in
  let updateAuthority := RemoveKeyInstructionArgs.updateAuthority args in
  let key := RemoveKeyInstructionArgs.key args in
  let idempotent := RemoveKeyInstructionArgs.idempotent args in
  let keys :=
    [ {| isSigner := false; isWritable := true; pubkey := metadata |};
      {| isSigner := true; isWritable := false; pubkey := updateAuthority |} ] in
  data <-
    getInstructionEncoder
      (Uint8Array [234; 18; 32; 56; 89; 141; 37; 181])
      (getStructEncoder
         [ field "idempotent" RemoveKeyData.idempotent getBooleanEncoder;
           field "key" RemoveKeyData.key getStringEncoder ])
      {| RemoveKeyData.idempotent := idempotent;
         RemoveKeyData.key := key |} ;;
  Ok {| TransactionInstruction.programId := programId;
        TransactionInstruction.keys := keys;
        TransactionInstruction.data := data |}.

Definition createUpdateAuthorityInstruction
  (args : UpdateAuthorityInstructionArgs.t) : Result TransactionInstruction.t :=
  let programId := UpdateAuthorityInstructionArgs.programId args in
  let metadata := UpdateAuthorityInstructionArgs.metadata args in
  let oldAuthority := UpdateAuthorityInstructionArgs.oldAuthority args in
  let newAuthority := UpdateAuthorityInstructionArgs.newAuthority args in
  let keys :=
    [ {| isSigner := false; isWritable := true; pubkey := metadata |};
      {| isSigner := true; isWritable := false; pubkey := oldAuthority |} ] in
  data <-
    getInstructionEncoder
      (Uint8Array [215; 228; 166; 228; 84; 100; 86; 123])
      (getStructEncoder
         [ field "newAuthority" UpdateAuthorityData.newAuthority
             getPublicKeyEncoder ])
      {| UpdateAuthorityData.newAuthority :=
           nullish newAuthority SystemProgram.programId |} ;;
  Ok {| TransactionInstruction.programId := programId;
        TransactionInstruction.keys := keys;
        TransactionInstruction.data := data |}.

Definition createEmitInstruction (args : EmitInstructionArgs.t)
  : Result TransactionInstruction.t :=
  let programId := EmitInstructionArgs.programId args in
  let metadata := EmitInstructionArgs.metadata args in
  let start := EmitInstructionArgs.start args in
  let end_ := EmitInstructionArgs.end_ args in
  let keys :=
    [ {| isSigner := false; isWritable := false; pubkey := metadata |} ] in
  data <-
    getInstructionEncoder
      (Uint8Array [250; 166; 180; 250; 13; 12; 184; 70])
      (getStructEncoder
         [ field "start" EmitData.start (getOptionEncoder getU64Encoder);
           field "end" EmitData.end_ (getOptionEncoder getU64Encoder) ])
      {| EmitData.start := nullable start;
         EmitData.end_ := nullable end_ |} ;;
  Ok {| TransactionInstruction.programId := programId;
        TransactionInstruction.keys := keys;
        TransactionInstruction.data := data |}.

(** ** The wire contract, written out

    The byte layout as the specification words it: little-endian unsigned
    integers, strings as a u32 byte length and the UTF-8 bytes, an optional
    value as one presence byte and the value when present, a public key as 32
    raw bytes, a struct as its fields in the declared order.  These are total
    functions of the value; the encoders above are compared with them. *)

Module Wire.

(** Byte [i] of the little-endian form of [v] is [(v / 256^i) mod 256]. *)
Definition le (size : nat) (v : Z) : bytes :=
  map (fun i => (v / 256 ^ Z.of_nat i) mod 256) (seq 0 size).

Definition u8 : Z -> bytes := le 1.
Definition u16 : Z -> bytes := le 2.
Definition u32 : Z -> bytes := le 4.
Definition u64 : Z -> bytes := le 8.

Definition bool (b : Datatypes.bool) : bytes := if b then [1] else [0].

(** The first 32 bytes of the key's bytes, zero-filled on the right when
    there are fewer: the key's bytes themselves when there are 32. *)
Definition publicKey (k : PublicKey) : bytes :=
  firstn 32 (toBytes k ++ repeat 0 32).

Definition utf8 (s : JsString) : bytes := TextEncoder_encode s.

Definition string (s : JsString) : bytes :=
  u32 (Z.of_nat (length (utf8 s))) ++ utf8 s.

Definition option {T : Type} (item : T -> bytes) (o : Datatypes.option T)
  : bytes :=
  match o with
  | None => [0]
  | Some v => 1 :: item v
  end.

Definition array {T : Type} (item : T -> bytes) (l : list T) : bytes :=
  u32 (Z.of_nat (length l)) ++ concat (map item l).

Definition creator (c : Creator.t) : bytes :=
  publicKey (Creator.address c)
    ++ bool (Creator.verified c)
    ++ u8 (Creator.share c).

Definition collection (c : Collection.t) : bytes :=
  publicKey (Collection.key c) ++ bool (Collection.verified c).

Definition uses (u : Uses.t) : bytes :=
  u8 (Uses.use_method u) ++ u64 (Uses.remaining u) ++ u64 (Uses.total u).

Definition initialize (d : InitializeData.t) : bytes :=
  string (InitializeData.name d)
    ++ string (InitializeData.symbol d)
    ++ string (InitializeData.uri d)
    ++ u16 (InitializeData.seller_fee_basis_points d)
    ++ option (array creator) (InitializeData.creators d)
    ++ option collection (InitializeData.collection d)
    ++ option uses (InitializeData.uses d).

Definition removeKey (d : RemoveKeyData.t) : bytes :=
  bool (RemoveKeyData.idempotent d) ++ string (RemoveKeyData.key d).

Definition updateAuthority (d : UpdateAuthorityData.t) : bytes :=
  publicKey (UpdateAuthorityData.newAuthority d).

Definition emit (d : EmitData.t) : bytes :=
  option u64 (EmitData.start d) ++ option u64 (EmitData.end_ d).

End Wire.

(** ** When the encoders accept a value

    The only throws of the encoders used here are the range assertions of
    the number encoders (and an unknown [__kind] in the Field union). *)

Module Accepts.

Definition range (lo hi v : Z) : bool := (lo <=? v) && (v <=? hi).

Definition u8 : Z -> bool := range 0 255.
Definition u16 : Z -> bool := range 0 65535.
Definition u32 : Z -> bool := range 0 4294967295.
Definition u64 : Z -> bool := range 0 18446744073709551615.

Definition string (s : JsString) : bool :=
  u32 (Z.of_nat (length (Wire.utf8 s))).

Definition option {T : Type} (item : T -> bool) (o : Datatypes.option T)
  : bool :=
  match o with
  | None => true
  | Some v => item v
  end.

Definition creator (c : Creator.t) : bool := u8 (Creator.share c).

Definition array {T : Type} (item : T -> bool) (l : list T) : bool :=
  u32 (Z.of_nat (length l)) && forallb item l.

Definition uses (u : Uses.t) : bool :=
  u8 (Uses.use_method u) && u64 (Uses.remaining u) && u64 (Uses.total u).

Definition initialize (d : InitializeData.t) : bool :=
  string (InitializeData.name d)
    && string (InitializeData.symbol d)
    && string (InitializeData.uri d)
    && u16 (InitializeData.seller_fee_basis_points d)
    && option (array creator) (InitializeData.creators d)
    && option uses (InitializeData.uses d).

Definition emit (d : EmitData.t) : bool :=
  option u64 (EmitData.start d) && option u64 (EmitData.end_ d).

End Accepts.

(** ** What each builder hands to its encoder

    The object literal of each [encode] call, as a function of the
    arguments. *)

Definition initializeData (args : InitializeInstructionArgs.t)
  : InitializeData.t :=
  {| InitializeData.name := InitializeInstructionArgs.name args;
     InitializeData.symbol := InitializeInstructionArgs.symbol args;
     InitializeData.uri := InitializeInstructionArgs.uri args;
     InitializeData.seller_fee_basis_points :=
       match InitializeInstructionArgs.sellerFeeBasisPoints args with
       | Some fee => fee
       | None => 0
       end;
     InitializeData.creators :=
       match InitializeInstructionArgs.creators args with
       | Some (c :: l) => Some (c :: l)
       | Some [] => None
       | None => None
       end;
     InitializeData.collection :=
       match InitializeInstructionArgs.collection args with
       | Some (Some c) => Some c
       | _ => None
       end;
     InitializeData.uses :=
       match InitializeInstructionArgs.uses args with
       | Some (Some u) => Some u
       | _ => None
       end |}.

Definition removeKeyData (args : RemoveKeyInstructionArgs.t) : RemoveKeyData.t :=
  {| RemoveKeyData.idempotent := RemoveKeyInstructionArgs.idempotent args;
     RemoveKeyData.key := RemoveKeyInstructionArgs.key args |}.

Definition updateAuthorityData (args : UpdateAuthorityInstructionArgs.t)
  : UpdateAuthorityData.t :=
  {| UpdateAuthorityData.newAuthority :=
       match UpdateAuthorityInstructionArgs.newAuthority args with
       | Some k => k
       | None => SystemProgram.programId
       end |}.

Definition emitData (args : EmitInstructionArgs.t) : EmitData.t :=
  {| EmitData.start := EmitInstructionArgs.start args;
     EmitData.end_ := EmitInstructionArgs.end_ args |}.

(** ** The inverse layout: decoders

    A decoder reads a value off the front of a byte sequence and returns it
    with the bytes that follow, or [None] when the bytes do not have the
    layout.  Each one reads back the layout of [Wire] field by field, and
    refuses what the encoders never write; they serve to show that the data
    determine the payload.  The codec library's own decoders are in
    [Decoders] below. *)

Module Decode.

Definition Decoder (T : Type) : Type := bytes -> Datatypes.option (T * bytes).

Definition ret {T : Type} (v : T) : Decoder T := fun bs => Some (v, bs).

Definition fail {T : Type} : Decoder T := fun _ => None.

Definition andThen {A B : Type} (d : Decoder A) (k : A -> Decoder B)
  : Decoder B :=
  fun bs =>
    match d bs with
    | Some (a, rest) => k a rest
    | None => None
    end.

Notation "x <~ d ;; k" := (andThen d (fun x => k))
  (at level 61, d at next level, right associativity).

Definition take (n : nat) : Decoder bytes :=
  fun bs =>
    if (length bs <? n)%nat then None else Some (firstn n bs, skipn n bs).

Fixpoint le_value (bs : bytes) : Z :=
  match bs with
  | [] => 0
  | b :: rest => b + 256 * le_value rest
  end.

Definition le (size : nat) : Decoder Z :=
  bs <~ take size ;; ret (le_value bs).

Definition u8 : Decoder Z := le 1.
Definition u16 : Decoder Z := le 2.
Definition u32 : Decoder Z := le 4.
Definition u64 : Decoder Z := le 8.

Definition bool : Decoder Datatypes.bool :=
  b <~ u8 ;;
  if b =? 0 then ret false else if b =? 1 then ret true else fail.

Definition publicKey : Decoder PublicKey :=
  bs <~ take 32 ;; ret {| toBytes := bs |}.

Definition is_continuation (b : Z) : Datatypes.bool :=
  (128 <=? b) && (b <? 192).

(** UTF-16 code units of one code point. *)
Definition utf16_of_code_point (cp : Z) : JsString :=
  if cp <? 65536 then [cp]
  else [55296 + (cp - 65536) / 1024; 56320 + (cp - 65536) mod 1024].

(** Strict UTF-8 to UTF-16: shortest forms only, no encoded surrogates,
    nothing above U+10FFFF. *)
Fixpoint utf8_decode (bs : bytes) : Datatypes.option JsString :=
  match bs with
  | [] => Some []
  | b0 :: r0 =>
      if (0 <=? b0) && (b0 <? 128)
      then option_map (cons b0) (utf8_decode r0)
      else
        match r0 with
        | [] => None
        | b1 :: r1 =>
            if negb (is_continuation b1) then None
            else if (194 <=? b0) && (b0 <? 224)
            then option_map (cons ((b0 - 192) * 64 + (b1 - 128)))
                   (utf8_decode r1)
            else
              match r1 with
              | [] => None
              | b2 :: r2 =>
                  if negb (is_continuation b2) then None
                  else if (224 <=? b0) && (b0 <? 240)
                  then
                    let cp :=
                      (b0 - 224) * 4096 + (b1 - 128) * 64 + (b2 - 128) in
                    if (cp <? 2048) || ((55296 <=? cp) && (cp <? 57344))
                    then None
                    else option_map (cons cp) (utf8_decode r2)
                  else
                    match r2 with
                    | [] => None
                    | b3 :: r3 =>
                        if negb (is_continuation b3) then None
                        else if (240 <=? b0) && (b0 <? 245)
                        then
                          let cp :=
                            (b0 - 240) * 262144 + (b1 - 128) * 4096
                            + (b2 - 128) * 64 + (b3 - 128) in
                          if (cp <? 65536) || (1114111 <? cp) then None
                          else option_map (app (utf16_of_code_point cp))
                                 (utf8_decode r3)
                        else None
                    end
              end
        end
  end.

Definition string : Decoder JsString :=
  n <~ u32 ;;
  bs <~ take (Z.to_nat n) ;;
  match utf8_decode bs with
  | Some s => ret s
  | None => fail
  end.

Definition option {T : Type} (item : Decoder T) : Decoder (Datatypes.option T) :=
  flag <~ u8 ;;
  if flag =? 0 then ret None
  else if flag =? 1 then (v <~ item ;; ret (Some v))
  else fail.

Fixpoint times {T : Type} (n : nat) (item : Decoder T) : Decoder (list T) :=
  match n with
  | O => ret []
  | S k => v <~ item ;; l <~ times k item ;; ret (v :: l)
  end.

Definition array {T : Type} (item : Decoder T) : Decoder (list T) :=
  n <~ u32 ;; times (Z.to_nat n) item.

Definition creator : Decoder Creator.t :=
  address <~ publicKey ;;
  verified <~ bool ;;
  share <~ u8 ;;
  ret {| Creator.address := address;
         Creator.verified := verified;
         Creator.share := share |}.

Definition collection : Decoder Collection.t :=
  key <~ publicKey ;;
  verified <~ bool ;;
  ret {| Collection.key := key; Collection.verified := verified |}.

Definition uses : Decoder Uses.t :=
  use_method <~ u8 ;;
  remaining <~ u64 ;;
  total <~ u64 ;;
  ret {| Uses.use_method := use_method;
         Uses.remaining := remaining;
         Uses.total := total |}.

Definition initialize : Decoder InitializeData.t :=
  name <~ string ;;
  symbol <~ string ;;
  uri <~ string ;;
  seller_fee_basis_points <~ u16 ;;
  creators <~ option (array creator) ;;
  collection <~ option collection ;;
  uses <~ option uses ;;
  ret {| InitializeData.name := name;
         InitializeData.symbol := symbol;
         InitializeData.uri := uri;
         InitializeData.seller_fee_basis_points := seller_fee_basis_points;
         InitializeData.creators := creators;
         InitializeData.collection := collection;
         InitializeData.uses := uses |}.

Definition removeKey : Decoder RemoveKeyData.t :=
  idempotent <~ bool ;;
  key <~ string ;;
  ret {| RemoveKeyData.idempotent := idempotent; RemoveKeyData.key := key |}.

Definition updateAuthority : Decoder UpdateAuthorityData.t :=
  newAuthority <~ publicKey ;;
  ret {| UpdateAuthorityData.newAuthority := newAuthority |}.

Definition emit : Decoder EmitData.t :=
  start <~ option u64 ;;
  end_ <~ option u64 ;;
  ret {| EmitData.start := start; EmitData.end_ := end_ |}.

End Decode.

(** [String.prototype.isWellFormed]: code units in range and no lone
    surrogate.  [TextEncoder] replaces a lone surrogate, so only these
    strings can be read back from their UTF-8 bytes. *)
Fixpoint isWellFormed (s : JsString) : bool :=
  match s with
  | [] => true
  | c :: rest =>
      if is_high_surrogate c then
        match rest with
        | d :: rest' => is_low_surrogate d && isWellFormed rest'
        | [] => false
        end
      else
        (0 <=? c) && (c <? 65536) && negb (is_low_surrogate c)
        && isWellFormed rest
  end.


(** ** The instruction table of the specification

    The discriminator of each instruction kind, its fixed accounts and the
    instruction each builder is expected to return when its encoder accepts
    the payload. *)

Module Discriminator.
Definition initialize : bytes := [210; 225; 30; 162; 88; 184; 77; 141].
Definition updateField : bytes := [221; 233; 49; 45; 181; 202; 220; 200].
Definition removeKey : bytes := [234; 18; 32; 56; 89; 141; 37; 181].
Definition updateAuthority : bytes := [215; 228; 166; 228; 84; 100; 86; 123].
Definition emit : bytes := [250; 166; 180; 250; 13; 12; 184; 70].
End Discriminator.

Definition writable (k : PublicKey) : AccountMeta :=
  {| isSigner := false; isWritable := true; pubkey := k |}.
Definition readonly (k : PublicKey) : AccountMeta :=
  {| isSigner := false; isWritable := false; pubkey := k |}.
Definition signer (k : PublicKey) : AccountMeta :=
  {| isSigner := true; isWritable := false; pubkey := k |}.

Module Expected.

(** The creators handed in, none when the property is left out. *)
Definition creators (args : InitializeInstructionArgs.t) : list Creator.t :=
  match InitializeInstructionArgs.creators args with
  | Some l => l
  | None => []
  end.

Definition verifiedCreators (args : InitializeInstructionArgs.t)
  : list PublicKey :=
  map Creator.address (filter Creator.verified (creators args)).

Definition verifiedCollection (args : InitializeInstructionArgs.t)
  : list PublicKey :=
  match InitializeInstructionArgs.collection args with
  | Some (Some c) => if Collection.verified c then [Collection.key c] else []
  | _ => []
  end.

Definition initializeKeys (args : InitializeInstructionArgs.t)
  : list AccountMeta :=
  [ writable (InitializeInstructionArgs.metadata args);
    readonly (InitializeInstructionArgs.updateAuthority args);
    readonly (InitializeInstructionArgs.mint args);
    signer (InitializeInstructionArgs.mintAuthority args) ]
  ++ map signer (verifiedCreators args)
  ++ map signer (verifiedCollection args).

Definition initialize (args : InitializeInstructionArgs.t)
  : TransactionInstruction.t :=
  {| TransactionInstruction.programId := InitializeInstructionArgs.programId args;
     TransactionInstruction.keys := initializeKeys args;
     TransactionInstruction.data :=
       Discriminator.initialize ++ Wire.initialize (initializeData args) |}.

Definition updateField {Field : Type} (args : UpdateFieldInstruction.t Field)
  (fieldBytes : bytes) : TransactionInstruction.t :=
  {| TransactionInstruction.programId := UpdateFieldInstruction.programId args;
     TransactionInstruction.keys :=
       [ writable (UpdateFieldInstruction.metadata args);
         signer (UpdateFieldInstruction.updateAuthority args) ];
     TransactionInstruction.data :=
       Discriminator.updateField ++ fieldBytes
         ++ Wire.string (UpdateFieldInstruction.value args) |}.

Definition removeKey (args : RemoveKeyInstructionArgs.t)
  : TransactionInstruction.t :=
  {| TransactionInstruction.programId := RemoveKeyInstructionArgs.programId args;
     TransactionInstruction.keys :=
       [ writable (RemoveKeyInstructionArgs.metadata args);
         signer (RemoveKeyInstructionArgs.updateAuthority args) ];
     TransactionInstruction.data :=
       Discriminator.removeKey ++ Wire.removeKey (removeKeyData args) |}.

Definition updateAuthority (args : UpdateAuthorityInstructionArgs.t)
  : TransactionInstruction.t :=
  {| TransactionInstruction.programId :=
       UpdateAuthorityInstructionArgs.programId args;
     TransactionInstruction.keys :=
       [ writable (UpdateAuthorityInstructionArgs.metadata args);
         signer (UpdateAuthorityInstructionArgs.oldAuthority args) ];
     TransactionInstruction.data :=
       Discriminator.updateAuthority
         ++ Wire.updateAuthority (updateAuthorityData args) |}.

Definition emit (args : EmitInstructionArgs.t) : TransactionInstruction.t :=
  {| TransactionInstruction.programId := EmitInstructionArgs.programId args;
     TransactionInstruction.keys :=
       [ readonly (EmitInstructionArgs.metadata args) ];
     TransactionInstruction.data :=
       Discriminator.emit ++ Wire.emit (emitData args) |}.

End Expected.

(** ** One call of any builder *)

Inductive Call (Field : Type) : Type :=
| Initialize (args : InitializeInstructionArgs.t)
| UpdateField (args : UpdateFieldInstruction.t Field)
| RemoveKey (args : RemoveKeyInstructionArgs.t)
| UpdateAuthority (args : UpdateAuthorityInstructionArgs.t)
| Emit (args : EmitInstructionArgs.t).

Arguments Initialize {Field} args.
Arguments UpdateField {Field} args.
Arguments RemoveKey {Field} args.
Arguments UpdateAuthority {Field} args.
Arguments Emit {Field} args.

Section Calls.

Variable Field : Type.
Variable FieldLayout : Type.
Variable kind : FieldLayout -> string.
Variable getFieldCodec : list (string * Encoder FieldLayout).
Variable getFieldConfig : Field + JsString -> FieldLayout.

Definition build (c : Call Field) : Result TransactionInstruction.t :=
  match c with
  | Initialize args => createInitializeInstruction args
  | UpdateField args =>
      createUpdateFieldInstruction kind getFieldCodec getFieldConfig args
  | RemoveKey args => createRemoveKeyInstruction args
  | UpdateAuthority args => createUpdateAuthorityInstruction args
  | Emit args => createEmitInstruction args
  end.

Definition discriminatorOf (c : Call Field) : bytes :=
  match c with
  | Initialize _ => Discriminator.initialize
  | UpdateField _ => Discriminator.updateField
  | RemoveKey _ => Discriminator.removeKey
  | UpdateAuthority _ => Discriminator.updateAuthority
  | Emit _ => Discriminator.emit
  end.

(** The struct encoding of the payload fields, in the wire contract's
    layout; the Field union's bytes are those of its codec. *)
Definition payloadOf (c : Call Field) : Result bytes :=
  match c with
  | Initialize args => Ok (Wire.initialize (initializeData args))
  | UpdateField args =>
      fieldBytes <-
        getDataEnumCodec kind getFieldCodec
          (getFieldConfig (UpdateFieldInstruction.field args)) ;;
      Ok (fieldBytes ++ Wire.string (UpdateFieldInstruction.value args))
  | RemoveKey args => Ok (Wire.removeKey (removeKeyData args))
  | UpdateAuthority args => Ok (Wire.updateAuthority (updateAuthorityData args))
  | Emit args => Ok (Wire.emit (emitData args))
  end.

End Calls.

(** The numbers and byte lengths of the call's payload are in the range of
    their fields: what the number encoders assert.  The Field union is not
    part of it; [payloadOf] runs its codec. *)
Definition encodable {Field : Type} (c : Call Field) : bool :=
  match c with
  | Initialize args => Accepts.initialize (initializeData args)
  | UpdateField args => Accepts.string (UpdateFieldInstruction.value args)
  | RemoveKey args => Accepts.string (RemoveKeyInstructionArgs.key args)
  | UpdateAuthority _ => true
  | Emit args => Accepts.emit (emitData args)
  end.

(** ** Comparing an encoder with the wire contract

    [Implements encoder accepts layout]: on a value it accepts the encoder
    returns exactly the layout's bytes, and on any other value it throws. *)

Definition Implements {T : Type} (encoder : Encoder T) (accepts : T -> bool)
  (layout : T -> bytes) : Prop :=
  forall v,
    (accepts v = true -> encoder v = Ok (layout v))
    /\ (accepts v = false -> exists e, encoder v = Throw e).

(** [Inverts decoder layout P]: the decoder reads a value satisfying [P] back
    from its layout, whatever bytes follow. *)
Definition Inverts {T : Type} (decoder : Decode.Decoder T) (layout : T -> bytes)
  (P : T -> Prop) : Prop :=
  forall v rest, P v -> decoder (layout v ++ rest) = Some (v, rest).

(** ** Argument records that differ in one optional property *)

Definition withCreators (creators : option (list Creator.t))
  (args : InitializeInstructionArgs.t) : InitializeInstructionArgs.t :=
  {| InitializeInstructionArgs.metadata := InitializeInstructionArgs.metadata args;
     InitializeInstructionArgs.mint := InitializeInstructionArgs.mint args;
     InitializeInstructionArgs.mintAuthority :=
       InitializeInstructionArgs.mintAuthority args;
     InitializeInstructionArgs.name := InitializeInstructionArgs.name args;
     InitializeInstructionArgs.programId :=
       InitializeInstructionArgs.programId args;
     InitializeInstructionArgs.symbol := InitializeInstructionArgs.symbol args;
     InitializeInstructionArgs.updateAuthority :=
       InitializeInstructionArgs.updateAuthority args;
     InitializeInstructionArgs.uri := InitializeInstructionArgs.uri args;
     InitializeInstructionArgs.creators := creators;
     InitializeInstructionArgs.sellerFeeBasisPoints :=
       InitializeInstructionArgs.sellerFeeBasisPoints args;
     InitializeInstructionArgs.collection :=
       InitializeInstructionArgs.collection args;
     InitializeInstructionArgs.uses := InitializeInstructionArgs.uses args |}.

Definition withSellerFeeBasisPoints (sellerFeeBasisPoints : option Z)
  (args : InitializeInstructionArgs.t) : InitializeInstructionArgs.t :=
  {| InitializeInstructionArgs.metadata := InitializeInstructionArgs.metadata args;
     InitializeInstructionArgs.mint := InitializeInstructionArgs.mint args;
     InitializeInstructionArgs.mintAuthority :=
       InitializeInstructionArgs.mintAuthority args;
     InitializeInstructionArgs.name := InitializeInstructionArgs.name args;
     InitializeInstructionArgs.programId :=
       InitializeInstructionArgs.programId args;
     InitializeInstructionArgs.symbol := InitializeInstructionArgs.symbol args;
     InitializeInstructionArgs.updateAuthority :=
       InitializeInstructionArgs.updateAuthority args;
     InitializeInstructionArgs.uri := InitializeInstructionArgs.uri args;
     InitializeInstructionArgs.creators := InitializeInstructionArgs.creators args;
     InitializeInstructionArgs.sellerFeeBasisPoints := sellerFeeBasisPoints;
     InitializeInstructionArgs.collection :=
       InitializeInstructionArgs.collection args;
     InitializeInstructionArgs.uses := InitializeInstructionArgs.uses args |}.

Definition withCollection (collection : option (option Collection.t))
  (args : InitializeInstructionArgs.t) : InitializeInstructionArgs.t :=
  {| InitializeInstructionArgs.metadata := InitializeInstructionArgs.metadata args;
     InitializeInstructionArgs.mint := InitializeInstructionArgs.mint args;
     InitializeInstructionArgs.mintAuthority :=
       InitializeInstructionArgs.mintAuthority args;
     InitializeInstructionArgs.name := InitializeInstructionArgs.name args;
     InitializeInstructionArgs.programId :=
       InitializeInstructionArgs.programId args;
     InitializeInstructionArgs.symbol := InitializeInstructionArgs.symbol args;
     InitializeInstructionArgs.updateAuthority :=
       InitializeInstructionArgs.updateAuthority args;
     InitializeInstructionArgs.uri := InitializeInstructionArgs.uri args;
     InitializeInstructionArgs.creators := InitializeInstructionArgs.creators args;
     InitializeInstructionArgs.sellerFeeBasisPoints :=
       InitializeInstructionArgs.sellerFeeBasisPoints args;
     InitializeInstructionArgs.collection := collection;
     InitializeInstructionArgs.uses := InitializeInstructionArgs.uses args |}.

Definition withUses (uses : option (option Uses.t))
  (args : InitializeInstructionArgs.t) : InitializeInstructionArgs.t :=
  {| InitializeInstructionArgs.metadata := InitializeInstructionArgs.metadata args;
     InitializeInstructionArgs.mint := InitializeInstructionArgs.mint args;
     InitializeInstructionArgs.mintAuthority :=
       InitializeInstructionArgs.mintAuthority args;
     InitializeInstructionArgs.name := InitializeInstructionArgs.name args;
     InitializeInstructionArgs.programId :=
       InitializeInstructionArgs.programId args;
     InitializeInstructionArgs.symbol := InitializeInstructionArgs.symbol args;
     InitializeInstructionArgs.updateAuthority :=
       InitializeInstructionArgs.updateAuthority args;
     InitializeInstructionArgs.uri := InitializeInstructionArgs.uri args;
     InitializeInstructionArgs.creators := InitializeInstructionArgs.creators args;
     InitializeInstructionArgs.sellerFeeBasisPoints :=
       InitializeInstructionArgs.sellerFeeBasisPoints args;
     InitializeInstructionArgs.collection :=
       InitializeInstructionArgs.collection args;
     InitializeInstructionArgs.uses := uses |}.

(** ** Concrete inputs *)

Module Sample.

(** A 32-byte key made of one repeated byte. *)
Definition key (b : Z) : PublicKey := {| toBytes := repeat b 32 |}.

(** A stand-in for what [field.ts] provides, after the specification's
    description of Field (a well-known variant or an arbitrary string key).
    It only serves to run the UpdateField builder on concrete inputs; no
    property below is about it. *)
Inductive Field : Type := WellKnown.

Inductive FieldLayout : Type :=
| LWellKnown
| LKey (value : JsString).

Definition kind (v : FieldLayout) : string :=
  match v with
  | LWellKnown => "WellKnown"
  | LKey _ => "Key"
  end.

Definition getFieldCodec : list (string * Encoder FieldLayout) :=
  [ ("WellKnown"%string, fun _ => Ok []);
    ("Key"%string,
     fun v => match v with
              | LKey s => getStringEncoder s
              | LWellKnown => Ok []
              end) ].

Definition getFieldConfig (f : Field + JsString) : FieldLayout :=
  match f with
  | inl WellKnown => LWellKnown
  | inr s => LKey s
  end.

Definition creatorA : Creator.t :=
  {| Creator.address := key 10; Creator.verified := true; Creator.share := 60 |}.
Definition creatorB : Creator.t :=
  {| Creator.address := key 11; Creator.verified := false; Creator.share := 30 |}.
Definition creatorC : Creator.t :=
  {| Creator.address := key 12; Creator.verified := true; Creator.share := 10 |}.

Definition initializeArgs : InitializeInstructionArgs.t :=
  {| InitializeInstructionArgs.metadata := key 1;
     InitializeInstructionArgs.mint := key 2;
     InitializeInstructionArgs.mintAuthority := key 3;
     InitializeInstructionArgs.name := js "Token";
     InitializeInstructionArgs.programId := key 4;
     InitializeInstructionArgs.symbol := js "TKN";
     InitializeInstructionArgs.updateAuthority := key 5;
     InitializeInstructionArgs.uri := js "https://example.org/t.json";
     InitializeInstructionArgs.creators := Some [creatorA; creatorB; creatorC];
     InitializeInstructionArgs.sellerFeeBasisPoints := Some 500;
     InitializeInstructionArgs.collection :=
       Some (Some {| Collection.key := key 20; Collection.verified := true |});
     InitializeInstructionArgs.uses :=
       Some (Some {| Uses.use_method := 1; Uses.remaining := 3;
                     Uses.total := 5 |}) |}.

Definition updateFieldArgs : UpdateFieldInstruction.t Field :=
  {| UpdateFieldInstruction.programId := key 4;
     UpdateFieldInstruction.metadata := key 1;
     UpdateFieldInstruction.updateAuthority := key 5;
     UpdateFieldInstruction.field := inr (js "colour");
     UpdateFieldInstruction.value := js "blue" |}.

Definition removeKeyArgs : RemoveKeyInstructionArgs.t :=
  {| RemoveKeyInstructionArgs.programId := key 4;
     RemoveKeyInstructionArgs.metadata := key 1;
     RemoveKeyInstructionArgs.updateAuthority := key 5;
     RemoveKeyInstructionArgs.key := js "my-key";
     RemoveKeyInstructionArgs.idempotent := true |}.

Definition removeKeyWith (s : JsString) : RemoveKeyInstructionArgs.t :=
  {| RemoveKeyInstructionArgs.programId := key 4;
     RemoveKeyInstructionArgs.metadata := key 1;
     RemoveKeyInstructionArgs.updateAuthority := key 5;
     RemoveKeyInstructionArgs.key := s;
     RemoveKeyInstructionArgs.idempotent := true |}.

Definition updateAuthorityArgs (newAuthority : option PublicKey)
  : UpdateAuthorityInstructionArgs.t :=
  {| UpdateAuthorityInstructionArgs.programId := key 4;
     UpdateAuthorityInstructionArgs.metadata := key 1;
     UpdateAuthorityInstructionArgs.oldAuthority := key 5;
     UpdateAuthorityInstructionArgs.newAuthority := newAuthority |}.

Definition emitArgs : EmitInstructionArgs.t :=
  {| EmitInstructionArgs.programId := key 4;
     EmitInstructionArgs.metadata := key 1;
     EmitInstructionArgs.start := Some 5;
     EmitInstructionArgs.end_ := None |}.

End Sample.

(** ** Values that can be read back

    The inverse layout returns the value that was encoded when strings are
    well-formed UTF-16 and public keys have exactly 32 bytes: the encoders
    replace a lone surrogate and cut or fill any other key. *)

Module Readable.

Definition publicKey (k : PublicKey) : bool :=
  (length (toBytes k) =? 32)%nat.

Definition option {T : Type} (item : T -> bool) (o : Datatypes.option T)
  : bool :=
  match o with
  | None => true
  | Some v => item v
  end.

Definition creator (c : Creator.t) : bool := publicKey (Creator.address c).

Definition collection (c : Collection.t) : bool :=
  publicKey (Collection.key c).

Definition initialize (d : InitializeData.t) : bool :=
  isWellFormed (InitializeData.name d)
    && isWellFormed (InitializeData.symbol d)
    && isWellFormed (InitializeData.uri d)
    && option (forallb creator) (InitializeData.creators d)
    && option collection (InitializeData.collection d).

End Readable.

(** ** Comparing two calls *)

(** Whether two calls are calls of the same builder. *)
Definition sameBuilder {Field : Type} (c1 c2 : Call Field) : bool :=
  match c1, c2 with
  | Initialize _, Initialize _ => true
  | UpdateField _, UpdateField _ => true
  | RemoveKey _, RemoveKey _ => true
  | UpdateAuthority _, UpdateAuthority _ => true
  | Emit _, Emit _ => true
  | _, _ => false
  end.

(** The program id a call is made with. *)
Definition programIdOf {Field : Type} (c : Call Field) : PublicKey :=
  match c with
  | Initialize args => InitializeInstructionArgs.programId args
  | UpdateField args => UpdateFieldInstruction.programId args
  | RemoveKey args => RemoveKeyInstructionArgs.programId args
  | UpdateAuthority args => UpdateAuthorityInstructionArgs.programId args
  | Emit args => EmitInstructionArgs.programId args
  end.

(** ** The codec library ([@solana/codecs]), decoders

    The decoders the library pairs with the encoders used by the builders,
    composed in the same struct layouts.  A decoder reads a value off the
    front of the bytes and returns it with the bytes that follow; [None] is
    the library's throw on too few bytes. *)

Module Decoders.

Notation "x <~ d ;; k" := (Decode.andThen d (fun x => k))
  (at level 61, d at next level, right associativity).

Definition Decoder := Decode.Decoder.

Definition transformDecoder {A B : Type} (decoder : Decoder A) (map : A -> B)
  : Decoder B :=
  a <~ decoder ;; Decode.ret (map a).

(** The number decoders read [size] little-endian bytes; [getU64Decoder]
    answers a bigint. *)
Definition getU8Decoder : Decoder Z := Decode.le 1.
Definition getU16Decoder : Decoder Z := Decode.le 2.
Definition getU32Decoder : Decoder Z := Decode.le 4.
Definition getU64Decoder : Decoder Z := Decode.le 8.

(** [Number(value) === 1]: every other byte is [false]. *)
Definition getBooleanDecoder : Decoder bool :=
  transformDecoder getU8Decoder (fun value => value =? 1).

(** [getBytesDecoder]: all the bytes that are left. *)
Definition getBytesDecoder : Decoder bytes := fun bs => Some (bs, []).

(** [fixDecoderSize]: the inner decoder sees a window of [fixedBytes] bytes. *)
Definition fixDecoderSize {T : Type} (decoder : Decoder T) (fixedBytes : nat)
  : Decoder T :=
  fun bs =>
    if (length bs <? fixedBytes)%nat then None
    else match decoder (firstn fixedBytes bs) with
         | Some (v, _) => Some (v, skipn fixedBytes bs)
         | None => None
         end.

(** The state of the UTF-8 decoder of the Encoding standard. *)
Record Utf8State : Type := {
  codePoint : Z;
  bytesSeen : Z;
  bytesNeeded : Z;
  lowerBoundary : Z;
  upperBoundary : Z
}.

Definition initialState : Utf8State :=
  {| codePoint := 0; bytesSeen := 0; bytesNeeded := 0;
     lowerBoundary := 128; upperBoundary := 191 |}.

(** A byte met when no bytes are needed: the code points it emits and the
    state after it. *)
Definition firstByte (b : Z) : list Z * Utf8State :=
  if (0 <=? b) && (b <=? 127) then ([b], initialState)
  else if (194 <=? b) && (b <=? 223) then
    ([], {| codePoint := Z.land b 31; bytesSeen := 0; bytesNeeded := 1;
            lowerBoundary := 128; upperBoundary := 191 |})
  else if (224 <=? b) && (b <=? 239) then
    ([], {| codePoint := Z.land b 15; bytesSeen := 0; bytesNeeded := 2;
            lowerBoundary := if b =? 224 then 160 else 128;
            upperBoundary := if b =? 237 then 159 else 191 |})
  else if (240 <=? b) && (b <=? 244) then
    ([], {| codePoint := Z.land b 7; bytesSeen := 0; bytesNeeded := 3;
            lowerBoundary := if b =? 240 then 144 else 128;
            upperBoundary := if b =? 244 then 143 else 191 |})
  else ([65533], initialState).

(** The decoder's loop.  A byte outside the boundaries ends the sequence in
    U+FFFD and is then read again as a first byte; so does the end of the
    input inside a sequence. *)
Fixpoint utf8CodePoints (st : Utf8State) (bs : bytes) : list Z :=
  match bs with
  | [] => if bytesNeeded st =? 0 then [] else [65533]
  | b :: rest =>
      if bytesNeeded st =? 0 then
        fst (firstByte b) ++ utf8CodePoints (snd (firstByte b)) rest
      else if (lowerBoundary st <=? b) && (b <=? upperBoundary st) then
        let cp := Z.lor (Z.shiftl (codePoint st) 6) (Z.land b 63) in
        if bytesSeen st + 1 =? bytesNeeded st
        then cp :: utf8CodePoints initialState rest
        else utf8CodePoints
               {| codePoint := cp; bytesSeen := bytesSeen st + 1;
                  bytesNeeded := bytesNeeded st;
                  lowerBoundary := 128; upperBoundary := 191 |} rest
      else
        65533 :: fst (firstByte b) ++ utf8CodePoints (snd (firstByte b)) rest
  end.

(** [new TextDecoder().decode(bytes)]: not fatal, and a byte order mark at
    the start is dropped. *)
Definition TextDecoder_decode (bs : bytes) : JsString :=
  let codePoints := utf8CodePoints initialState bs in
  flat_map Decode.utf16_of_code_point
    match codePoints with
    | first :: rest => if first =? 65279 then rest else codePoints
    | [] => []
    end.

(** [value.replace(/\u0000/g, '')]. *)
Definition removeNullCharacters (value : JsString) : JsString :=
  filter (fun c => negb (c =? 0)) value.

Definition getUtf8Decoder : Decoder JsString :=
  fun bs => Some (removeNullCharacters (TextDecoder_decode bs), []).

(** [addDecoderSizePrefix]: the prefix gives the number of bytes the inner
    decoder sees. *)
Definition addDecoderSizePrefix {T : Type} (decoder : Decoder T)
  (prefix : Decoder Z) : Decoder T :=
  size <~ prefix ;;
  fun bs =>
    if (length bs <? Z.to_nat size)%nat then None
    else match decoder (firstn (Z.to_nat size) bs) with
         | Some (v, _) => Some (v, skipn (Z.to_nat size) bs)
         | None => None
         end.

(** [getOptionDecoder] with its defaults: a boolean prefix, then the item
    when the prefix is true. *)
Definition getOptionDecoder {T : Type} (item : Decoder T) : Decoder (option T) :=
  isSome <~ getBooleanDecoder ;;
  if isSome then (v <~ item ;; Decode.ret (Some v)) else Decode.ret None.

(** [getArrayDecoder] with its default size: a u32 count, then the items. *)
Definition getArrayDecoder {T : Type} (item : Decoder T) : Decoder (list T) :=
  size <~ getU32Decoder ;; Decode.times (Z.to_nat size) item.

(** The decoders that pair with the three local encoders of
    [instruction.ts]. *)
Definition getPublicKeyDecoder : Decoder PublicKey :=
  transformDecoder (fixDecoderSize getBytesDecoder 32)
    (fun bs => {| toBytes := bs |}).

Definition getStringDecoder : Decoder JsString :=
  addDecoderSizePrefix getUtf8Decoder getU32Decoder.

(** The struct layouts of the builders, read back field by field. *)
Definition creator : Decoder Creator.t :=
  address <~ getPublicKeyDecoder ;;
  verified <~ getBooleanDecoder ;;
  share <~ getU8Decoder ;;
  Decode.ret {| Creator.address := address;
                Creator.verified := verified;
                Creator.share := share |}.

Definition collection : Decoder Collection.t :=
  key <~ getPublicKeyDecoder ;;
  verified <~ getBooleanDecoder ;;
  Decode.ret {| Collection.key := key; Collection.verified := verified |}.

Definition uses : Decoder Uses.t :=
  use_method <~ getU8Decoder ;;
  remaining <~ getU64Decoder ;;
  total <~ getU64Decoder ;;
  Decode.ret {| Uses.use_method := use_method;
                Uses.remaining := remaining;
                Uses.total := total |}.

Definition initialize : Decoder InitializeData.t :=
  name <~ getStringDecoder ;;
  symbol <~ getStringDecoder ;;
  uri <~ getStringDecoder ;;
  seller_fee_basis_points <~ getU16Decoder ;;
  creators <~ getOptionDecoder (getArrayDecoder creator) ;;
  collection <~ getOptionDecoder collection ;;
  uses <~ getOptionDecoder uses ;;
  Decode.ret
    {| InitializeData.name := name;
       InitializeData.symbol := symbol;
       InitializeData.uri := uri;
       InitializeData.seller_fee_basis_points := seller_fee_basis_points;
       InitializeData.creators := creators;
       InitializeData.collection := collection;
       InitializeData.uses := uses |}.

Definition updateField {FieldLayout : Type} (fieldDecoder : Decoder FieldLayout)
  : Decoder (UpdateFieldData.t FieldLayout) :=
  field <~ fieldDecoder ;;
  value <~ getStringDecoder ;;
  Decode.ret {| UpdateFieldData.field := field;
                UpdateFieldData.value := value |}.

Definition removeKey : Decoder RemoveKeyData.t :=
  idempotent <~ getBooleanDecoder ;;
  key <~ getStringDecoder ;;
  Decode.ret {| RemoveKeyData.idempotent := idempotent;
                RemoveKeyData.key := key |}.

Definition updateAuthority : Decoder UpdateAuthorityData.t :=
  newAuthority <~ getPublicKeyDecoder ;;
  Decode.ret {| UpdateAuthorityData.newAuthority := newAuthority |}.

Definition emit : Decoder EmitData.t :=
  start <~ getOptionDecoder getU64Decoder ;;
  end_ <~ getOptionDecoder getU64Decoder ;;
  Decode.ret {| EmitData.start := start; EmitData.end_ := end_ |}.

(** A string the string decoder gives back as it was: well-formed, with no
    U+0000 in it and no U+FEFF at its start. *)
Definition keepsString (s : JsString) : bool :=
  isWellFormed s
  && match s with
     | first :: _ => negb (first =? 65279)
     | [] => true
     end
  && forallb (fun c => negb (c =? 0)) s.

(** The strings and keys of an Initialize payload are given back as they
    were. *)
Definition keepsInitialize (d : InitializeData.t) : bool :=
  keepsString (InitializeData.name d)
  && keepsString (InitializeData.symbol d)
  && keepsString (InitializeData.uri d)
  && Readable.option (forallb Readable.creator) (InitializeData.creators d)
  && Readable.option Readable.collection (InitializeData.collection d).

End Decoders.

(** ** More concrete inputs *)

Module MoreSamples.

Definition initializeWithFee (fee : Z) : InitializeInstructionArgs.t :=
  withSellerFeeBasisPoints (Some fee) Sample.initializeArgs.

Definition emitWith (start end_ : option Z) : EmitInstructionArgs.t :=
  {| EmitInstructionArgs.programId := Sample.key 4;
     EmitInstructionArgs.metadata := Sample.key 1;
     EmitInstructionArgs.start := start;
     EmitInstructionArgs.end_ := end_ |}.

(** The stand-in Field union of [Sample] read back as the library's union
    decoder does: a u8 index into the variant table, then the variant. *)
Definition fieldDecoder : Decoders.Decoder Sample.FieldLayout :=
  Decode.andThen Decoders.getU8Decoder (fun discriminator =>
    if discriminator =? 0 then Decode.ret Sample.LWellKnown
    else if discriminator =? 1
    then Decode.andThen Decoders.getStringDecoder
           (fun s => Decode.ret (Sample.LKey s))
    else Decode.fail).

(** A variant table that lacks the ["Key"] entry. *)
Definition partialFieldCodec : list (string * Encoder Sample.FieldLayout) :=
  [ ("WellKnown"%string, fun _ => Ok []) ].

End MoreSamples.

(** The data of a builder's result, or its throw. *)
Definition dataOf (r : Result TransactionInstruction.t) : Result bytes :=
  match r with
  | Ok ix => Ok (TransactionInstruction.data ix)
  | Throw e => Throw e
  end.

(** * Properties *)

(** ** Little-endian integers *)

Lemma le_bytes_le (size : nat) :
  forall v, le_bytes size v = Wire.le size v.
Proof.
  unfold Wire.le.
  induction size as [| n IH]; intros v; [reflexivity |].
  cbn [le_bytes seq map]. f_equal.
  - change (Z.of_nat 0) with 0. rewrite Z.pow_0_r, Z.div_1_r. reflexivity.
  - rewrite IH, <- seq_shift, map_map.
    apply map_ext; intros i.
    rewrite Nat2Z.inj_succ, Z.pow_succ_r by lia.
    rewrite Z.div_div by lia. reflexivity.
Qed.

(** ** Each encoder implements its layout *)

Lemma Implements_ext {T : Type} (encoder : Encoder T) accepts accepts'
  layout layout' :
  (forall v, accepts v = accepts' v) ->
  (forall v, layout v = layout' v) ->
  Implements encoder accepts layout ->
  Implements encoder accepts' layout'.
Proof.
  intros Ha Hl HI v. rewrite <- Ha, <- Hl. apply HI.
Qed.

Lemma Implements_number name size lo hi :
  Implements (numberEncoder name size lo hi) (Accepts.range lo hi)
    (Wire.le size).
Proof.
  intros v. unfold numberEncoder, Accepts.range.
  rewrite le_bytes_le.
  destruct (Z.ltb_spec v lo), (Z.ltb_spec hi v),
    (Z.leb_spec lo v), (Z.leb_spec v hi); simpl; try lia;
    split; intros Hacc; try discriminate Hacc; eauto.
Qed.

Lemma Implements_u8 : Implements getU8Encoder Accepts.u8 Wire.u8.
Proof. apply Implements_number. Qed.

Lemma Implements_u16 : Implements getU16Encoder Accepts.u16 Wire.u16.
Proof. apply Implements_number. Qed.

Lemma Implements_u32 : Implements getU32Encoder Accepts.u32 Wire.u32.
Proof. apply Implements_number. Qed.

Lemma Implements_u64 : Implements getU64Encoder Accepts.u64 Wire.u64.
Proof. apply Implements_number. Qed.

Lemma Implements_boolean :
  Implements getBooleanEncoder (fun _ => true) Wire.bool.
Proof.
  intros [|]; split; intros H; try discriminate H; reflexivity.
Qed.

Lemma firstn_repeat_le {A : Type} (x : A) :
  forall m n, (m <= n)%nat -> firstn m (repeat x n) = repeat x m.
Proof.
  induction m as [| m IH]; intros [| n] Hle; simpl; try reflexivity; try lia.
  f_equal. apply IH. lia.
Qed.

Lemma fixEncoderSize_bytes (n : nat) (bs : bytes) :
  fixEncoderSize getBytesEncoder n bs = Ok (firstn n (bs ++ repeat 0 n)).
Proof.
  unfold fixEncoderSize, getBytesEncoder. simpl. f_equal.
  destruct (Nat.ltb_spec n (length bs)) as [Hlt | Hge].
  - rewrite firstn_app.
    replace (n - length bs)%nat with 0%nat by lia.
    simpl. rewrite app_nil_r. reflexivity.
  - rewrite firstn_app, firstn_all2 by lia. f_equal.
    symmetry. apply firstn_repeat_le. lia.
Qed.

Lemma Implements_publicKey :
  Implements getPublicKeyEncoder (fun _ => true) Wire.publicKey.
Proof.
  intros k; split; intros H; try discriminate H.
  unfold getPublicKeyEncoder, transformEncoder, Wire.publicKey.
  apply fixEncoderSize_bytes.
Qed.

Lemma Implements_string :
  Implements getStringEncoder Accepts.string Wire.string.
Proof.
  intros s. unfold getStringEncoder, addEncoderSizePrefix, getUtf8Encoder,
    Accepts.string, Wire.string, Wire.utf8. simpl.
  destruct (Implements_u32 (Z.of_nat (length (TextEncoder_encode s))))
    as [Hyes Hno].
  split; intros H.
  - rewrite (Hyes H). reflexivity.
  - destruct (Hno H) as [e He]. rewrite He. simpl. eauto.
Qed.

Lemma Implements_option {T : Type} (item : Encoder T) accepts layout :
  Implements item accepts layout ->
  Implements (getOptionEncoder item) (Accepts.option accepts)
    (Wire.option layout).
Proof.
  intros HI [v |]; simpl.
  - destruct (HI v) as [Hyes Hno].
    unfold transformEncoder, getTupleEncoder; simpl.
    split; intros H.
    + rewrite (Hyes H). reflexivity.
    + destruct (Hno H) as [e He]. rewrite He. simpl. eauto.
  - split; intros H; [reflexivity | discriminate H].
Qed.

Lemma mapM_Implements {T : Type} (item : Encoder T) accepts layout :
  Implements item accepts layout ->
  forall l,
    (forallb accepts l = true -> mapM item l = Ok (map layout l))
    /\ (forallb accepts l = false -> exists e, mapM item l = Throw e).
Proof.
  intros HI. induction l as [| a l [IHyes IHno]]; simpl.
  - split; intros H; [reflexivity | discriminate H].
  - destruct (HI a) as [Hyes Hno].
    destruct (accepts a); simpl.
    + rewrite Hyes by reflexivity. simpl. split; intros H.
      * rewrite (IHyes H). reflexivity.
      * destruct (IHno H) as [e He]. rewrite He. simpl. eauto.
    + split; intros H; [discriminate H |].
      destruct Hno as [e He]; [reflexivity |]. rewrite He. simpl. eauto.
Qed.

Lemma Implements_array {T : Type} (item : Encoder T) accepts layout :
  Implements item accepts layout ->
  Implements (getArrayEncoder item) (Accepts.array accepts)
    (Wire.array layout).
Proof.
  intros HI l. unfold getArrayEncoder, Accepts.array, Wire.array.
  destruct (Implements_u32 (Z.of_nat (length l))) as [Hyes Hno].
  destruct (mapM_Implements HI l) as [Myes Mno].
  destruct (Accepts.u32 (Z.of_nat (length l))); simpl.
  - rewrite Hyes by reflexivity. simpl. split; intros H.
    + rewrite (Myes H). reflexivity.
    + destruct (Mno H) as [e He]. rewrite He. simpl. eauto.
  - split; intros H; [discriminate H |].
    destruct Hno as [e He]; [reflexivity |]. rewrite He. simpl. eauto.
Qed.

Lemma Implements_struct_nil {T : Type} :
  Implements (@getStructEncoder T []) (fun _ => true) (fun _ => []).
Proof.
  intros v; split; intros H; [reflexivity | discriminate H].
Qed.

Lemma Implements_struct_cons {T A : Type} name (get : T -> A)
  (encoder : Encoder A) accepts layout rest acceptsRest layoutRest :
  Implements encoder accepts layout ->
  Implements (getStructEncoder rest) acceptsRest layoutRest ->
  Implements (getStructEncoder (field name get encoder :: rest))
    (fun s => accepts (get s) && acceptsRest s)
    (fun s => layout (get s) ++ layoutRest s).
Proof.
  intros HI HR s. cbn [getStructEncoder field].
  destruct (HI (get s)) as [Hyes Hno], (HR s) as [Ryes Rno].
  destruct (accepts (get s)); simpl.
  - rewrite Hyes by reflexivity. simpl. split; intros H.
    + rewrite (Ryes H). reflexivity.
    + destruct (Rno H) as [e He]. rewrite He. simpl. eauto.
  - split; intros H; [discriminate H |].
    destruct Hno as [e He]; [reflexivity |]. rewrite He. simpl. eauto.
Qed.

Ltac implements :=
  repeat first
    [ apply Implements_struct_nil
    | apply Implements_u8
    | apply Implements_u16
    | apply Implements_u32
    | apply Implements_u64
    | apply Implements_boolean
    | apply Implements_publicKey
    | apply Implements_string
    | eapply Implements_option
    | eapply Implements_array
    | eapply Implements_struct_cons ].

Lemma Implements_creator :
  Implements
    (getStructEncoder
       [ field "address" Creator.address getPublicKeyEncoder;
         field "verified" Creator.verified getBooleanEncoder;
         field "share" Creator.share getU8Encoder ])
    Accepts.creator Wire.creator.
Proof.
  eapply Implements_ext; [ | | implements ].
  - intros c. unfold Accepts.creator. simpl.
    rewrite andb_true_r. reflexivity.
  - intros c. unfold Wire.creator. rewrite app_nil_r. reflexivity.
Qed.

Lemma Implements_collection :
  Implements
    (getStructEncoder
       [ field "key" Collection.key getPublicKeyEncoder;
         field "verified" Collection.verified getBooleanEncoder ])
    (fun _ => true) Wire.collection.
Proof.
  eapply Implements_ext; [ | | implements ].
  - intros c. reflexivity.
  - intros c. unfold Wire.collection. rewrite app_nil_r. reflexivity.
Qed.

Lemma Implements_uses :
  Implements
    (getStructEncoder
       [ field "use_method" Uses.use_method getU8Encoder;
         field "remaining" Uses.remaining getU64Encoder;
         field "total" Uses.total getU64Encoder ])
    Accepts.uses Wire.uses.
Proof.
  eapply Implements_ext; [ | | implements ].
  - intros u. unfold Accepts.uses. simpl.
    rewrite andb_true_r, andb_assoc. reflexivity.
  - intros u. unfold Wire.uses. rewrite app_nil_r. reflexivity.
Qed.

Lemma Implements_initialize :
  Implements
    (getStructEncoder
       [ field "name" InitializeData.name getStringEncoder;
         field "symbol" InitializeData.symbol getStringEncoder;
         field "uri" InitializeData.uri getStringEncoder;
         field "seller_fee_basis_points"
           InitializeData.seller_fee_basis_points getU16Encoder;
         field "creators" InitializeData.creators
           (getOptionEncoder (getArrayEncoder (getStructEncoder
              [ field "address" Creator.address getPublicKeyEncoder;
                field "verified" Creator.verified getBooleanEncoder;
                field "share" Creator.share getU8Encoder ])));
         field "collection" InitializeData.collection
           (getOptionEncoder (getStructEncoder
              [ field "key" Collection.key getPublicKeyEncoder;
                field "verified" Collection.verified getBooleanEncoder ]));
         field "uses" InitializeData.uses
           (getOptionEncoder (getStructEncoder
              [ field "use_method" Uses.use_method getU8Encoder;
                field "remaining" Uses.remaining getU64Encoder;
                field "total" Uses.total getU64Encoder ])) ])
    Accepts.initialize Wire.initialize.
Proof.
  eapply Implements_ext;
    [ | | repeat first
            [ apply Implements_struct_nil
            | apply Implements_string
            | apply Implements_u16
            | apply Implements_option, Implements_array, Implements_creator
            | apply Implements_option, Implements_collection
            | apply Implements_option, Implements_uses
            | eapply Implements_struct_cons ] ].
  - intros d. unfold Accepts.initialize. simpl.
    destruct (InitializeData.collection d); simpl;
      rewrite ?andb_true_r, ?andb_assoc; reflexivity.
  - intros d. unfold Wire.initialize. rewrite app_nil_r. reflexivity.
Qed.

Lemma Implements_removeKey :
  Implements
    (getStructEncoder
       [ field "idempotent" RemoveKeyData.idempotent getBooleanEncoder;
         field "key" RemoveKeyData.key getStringEncoder ])
    (fun d => Accepts.string (RemoveKeyData.key d)) Wire.removeKey.
Proof.
  eapply Implements_ext; [ | | implements ].
  - intros d. simpl. rewrite andb_true_r. reflexivity.
  - intros d. unfold Wire.removeKey. rewrite app_nil_r. reflexivity.
Qed.

Lemma Implements_updateAuthority :
  Implements
    (getStructEncoder
       [ field "newAuthority" UpdateAuthorityData.newAuthority
           getPublicKeyEncoder ])
    (fun _ => true) Wire.updateAuthority.
Proof.
  eapply Implements_ext; [ | | implements ].
  - intros d. reflexivity.
  - intros d. unfold Wire.updateAuthority. rewrite app_nil_r. reflexivity.
Qed.

Lemma Implements_emit :
  Implements
    (getStructEncoder
       [ field "start" EmitData.start (getOptionEncoder getU64Encoder);
         field "end" EmitData.end_ (getOptionEncoder getU64Encoder) ])
    Accepts.emit Wire.emit.
Proof.
  eapply Implements_ext; [ | | implements ].
  - intros d. unfold Accepts.emit. simpl.
    rewrite andb_true_r. reflexivity.
  - intros d. unfold Wire.emit. rewrite app_nil_r. reflexivity.
Qed.

(** The framing of [getInstructionEncoder]: the discriminator, then the
    data encoder's bytes. *)
Lemma Implements_instruction {T : Type} discriminator (dataEncoder : Encoder T)
  accepts layout :
  Implements dataEncoder accepts layout ->
  Implements (getInstructionEncoder discriminator dataEncoder) accepts
    (fun data => discriminator ++ layout data).
Proof.
  intros HI data.
  unfold getInstructionEncoder, transformEncoder, getTupleEncoder,
    getBytesEncoder. simpl.
  destruct (HI data) as [Hyes Hno]. split; intros H.
  - rewrite (Hyes H). reflexivity.
  - destruct (Hno H) as [e He]. rewrite He. simpl. eauto.
Qed.

(** ** Each builder returns the expected instruction, or throws *)

Lemma build_instruction {T : Type} discriminator (dataEncoder : Encoder T)
  accepts layout (payload : T) programId keys :
  Implements dataEncoder accepts layout ->
  (accepts payload = true ->
   (data <- getInstructionEncoder discriminator dataEncoder payload ;;
    Ok {| TransactionInstruction.programId := programId;
          TransactionInstruction.keys := keys;
          TransactionInstruction.data := data |})
   = Ok {| TransactionInstruction.programId := programId;
           TransactionInstruction.keys := keys;
           TransactionInstruction.data := discriminator ++ layout payload |})
  /\ (accepts payload = false ->
      exists e,
        (data <- getInstructionEncoder discriminator dataEncoder payload ;;
         Ok {| TransactionInstruction.programId := programId;
               TransactionInstruction.keys := keys;
               TransactionInstruction.data := data |})
        = Throw e).
Proof.
  intros HI.
  destruct (Implements_instruction discriminator HI payload) as [Hyes Hno].
  split; intros H.
  - rewrite (Hyes H). reflexivity.
  - destruct (Hno H) as [e He]. rewrite He. simpl. eauto.
Qed.

Lemma initialize_payload (args : InitializeInstructionArgs.t) :
  {| InitializeData.name := InitializeInstructionArgs.name args;
     InitializeData.symbol := InitializeInstructionArgs.symbol args;
     InitializeData.uri := InitializeInstructionArgs.uri args;
     InitializeData.seller_fee_basis_points :=
       orDefault (InitializeInstructionArgs.sellerFeeBasisPoints args) 0;
     InitializeData.creators :=
       if (0 <? length (orDefault (InitializeInstructionArgs.creators args) []))%nat
       then Some (orDefault (InitializeInstructionArgs.creators args) [])
       else None;
     InitializeData.collection :=
       orDefault (InitializeInstructionArgs.collection args) None;
     InitializeData.uses := orDefault (InitializeInstructionArgs.uses args) None |}
  = initializeData args.
Proof.
  unfold initializeData, orDefault.
  destruct args as [md mt ma nm pid sy ua ur cr fee col us]; simpl.
  destruct cr as [[| c l] |], fee, col as [[c' |] |], us as [[u |] |];
    reflexivity.
Qed.

Lemma initialize_keys (args : InitializeInstructionArgs.t) :
  [ {| isSigner := false; isWritable := true;
       pubkey := InitializeInstructionArgs.metadata args |};
    {| isSigner := false; isWritable := false;
       pubkey := InitializeInstructionArgs.updateAuthority args |};
    {| isSigner := false; isWritable := false;
       pubkey := InitializeInstructionArgs.mint args |};
    {| isSigner := true; isWritable := false;
       pubkey := InitializeInstructionArgs.mintAuthority args |} ]
  ++ map (fun creator =>
            {| isSigner := true; isWritable := false;
               pubkey := Creator.address creator |})
       (filter (fun c => Creator.verified c)
          (orDefault (InitializeInstructionArgs.creators args) []))
  ++ match orDefault (InitializeInstructionArgs.collection args) None with
     | Some c =>
         if Collection.verified c
         then [{| isSigner := true; isWritable := false;
                  pubkey := Collection.key c |}]
         else []
     | None => []
     end
  = Expected.initializeKeys args.
Proof.
  unfold Expected.initializeKeys, Expected.verifiedCreators,
    Expected.verifiedCollection, Expected.creators, orDefault.
  rewrite map_map.
  destruct (InitializeInstructionArgs.collection args) as [[c |] |];
    [ destruct (Collection.verified c) | | ]; reflexivity.
Qed.

Lemma createInitializeInstruction_spec (args : InitializeInstructionArgs.t) :
  (Accepts.initialize (initializeData args) = true ->
   createInitializeInstruction args = Ok (Expected.initialize args))
  /\ (Accepts.initialize (initializeData args) = false ->
      exists e, createInitializeInstruction args = Throw e).
Proof.
  unfold createInitializeInstruction, Expected.initialize.
  cbv zeta. rewrite initialize_payload, initialize_keys.
  apply (build_instruction _ (initializeData args) _ _ Implements_initialize).
Qed.

Lemma createRemoveKeyInstruction_spec (args : RemoveKeyInstructionArgs.t) :
  (Accepts.string (RemoveKeyInstructionArgs.key args) = true ->
   createRemoveKeyInstruction args = Ok (Expected.removeKey args))
  /\ (Accepts.string (RemoveKeyInstructionArgs.key args) = false ->
      exists e, createRemoveKeyInstruction args = Throw e).
Proof.
  unfold createRemoveKeyInstruction, Expected.removeKey.
  apply (build_instruction _ (removeKeyData args) _ _ Implements_removeKey).
Qed.

Lemma createUpdateAuthorityInstruction_spec
  (args : UpdateAuthorityInstructionArgs.t) :
  createUpdateAuthorityInstruction args = Ok (Expected.updateAuthority args).
Proof.
  unfold createUpdateAuthorityInstruction, Expected.updateAuthority.
  apply (build_instruction _ (updateAuthorityData args) _ _
           Implements_updateAuthority).
  reflexivity.
Qed.

Lemma createEmitInstruction_spec (args : EmitInstructionArgs.t) :
  (Accepts.emit (emitData args) = true ->
   createEmitInstruction args = Ok (Expected.emit args))
  /\ (Accepts.emit (emitData args) = false ->
      exists e, createEmitInstruction args = Throw e).
Proof.
  unfold createEmitInstruction, Expected.emit.
  assert (Hp : {| EmitData.start := nullable (EmitInstructionArgs.start args);
                  EmitData.end_ := nullable (EmitInstructionArgs.end_ args) |}
               = emitData args).
  { unfold emitData, nullable.
    destruct (EmitInstructionArgs.start args),
      (EmitInstructionArgs.end_ args); reflexivity. }
  cbv zeta. rewrite Hp.
  apply (build_instruction _ (emitData args) _ _ Implements_emit).
Qed.

Lemma spec_Ok_inv {A : Type} (accepted : bool) (r : Result A) (expected : A) :
  (accepted = true -> r = Ok expected) ->
  (accepted = false -> exists e, r = Throw e) ->
  forall a, r = Ok a -> accepted = true /\ a = expected.
Proof.
  intros Hyes Hno a Ha. destruct accepted.
  - rewrite Hyes in Ha by reflexivity. inversion Ha. auto.
  - destruct Hno as [e He]; [reflexivity |]. congruence.
Qed.

Section UpdateFieldSpec.

Variable Field : Type.
Variable FieldLayout : Type.
Variable kind : FieldLayout -> string.
Variable getFieldCodec : list (string * Encoder FieldLayout).
Variable getFieldConfig : Field + JsString -> FieldLayout.

Lemma createUpdateFieldInstruction_accepts
  (args : UpdateFieldInstruction.t Field) (fieldBytes : bytes) :
  getDataEnumCodec kind getFieldCodec
    (getFieldConfig (UpdateFieldInstruction.field args)) = Ok fieldBytes ->
  Accepts.string (UpdateFieldInstruction.value args) = true ->
  createUpdateFieldInstruction kind getFieldCodec getFieldConfig args
  = Ok (Expected.updateField args fieldBytes).
Proof.
  intros Hfield Hvalue.
  unfold createUpdateFieldInstruction, Expected.updateField,
    getInstructionEncoder, transformEncoder, getTupleEncoder, getBytesEncoder.
  cbn [getStructEncoder field fst snd bind UpdateFieldData.field
         UpdateFieldData.value].
  rewrite Hfield.
  destruct (Implements_string (UpdateFieldInstruction.value args)) as [Hyes _].
  cbn [bind]. rewrite (Hyes Hvalue). cbn [bind].
  rewrite app_nil_r. reflexivity.
Qed.

Lemma createUpdateFieldInstruction_Ok_inv
  (args : UpdateFieldInstruction.t Field) (ix : TransactionInstruction.t) :
  createUpdateFieldInstruction kind getFieldCodec getFieldConfig args = Ok ix ->
  exists fieldBytes,
    getDataEnumCodec kind getFieldCodec
      (getFieldConfig (UpdateFieldInstruction.field args)) = Ok fieldBytes
    /\ Accepts.string (UpdateFieldInstruction.value args) = true
    /\ ix = Expected.updateField args fieldBytes.
Proof.
  intros Hix.
  destruct (getDataEnumCodec kind getFieldCodec
              (getFieldConfig (UpdateFieldInstruction.field args)))
    as [fieldBytes | e] eqn:Hfield.
  - exists fieldBytes. split; [reflexivity |].
    destruct (Accepts.string (UpdateFieldInstruction.value args)) eqn:Hvalue.
    + rewrite (createUpdateFieldInstruction_accepts args Hfield Hvalue) in Hix.
      inversion Hix. auto.
    + exfalso. revert Hix.
      unfold createUpdateFieldInstruction, getInstructionEncoder,
        transformEncoder, getTupleEncoder, getBytesEncoder.
      cbn [getStructEncoder field fst snd bind UpdateFieldData.field
             UpdateFieldData.value].
      rewrite Hfield.
      destruct (Implements_string (UpdateFieldInstruction.value args))
        as [_ Hno].
      destruct (Hno Hvalue) as [e He].
      cbn [bind]. rewrite He. cbn [bind]. discriminate.
  - exfalso. revert Hix.
    unfold createUpdateFieldInstruction, getInstructionEncoder,
      transformEncoder, getTupleEncoder, getBytesEncoder.
    cbn [getStructEncoder field fst snd bind UpdateFieldData.field
           UpdateFieldData.value].
    rewrite Hfield. cbn [bind]. discriminate.
Qed.

End UpdateFieldSpec.

(** ** UTF-8 is read back *)

Ltac decide_tests :=
  repeat (match goal with
          | |- context [?a <? ?b] =>
              destruct (Z.ltb_spec a b); try lia
          | |- context [?a <=? ?b] =>
              destruct (Z.leb_spec a b); try lia
          end; cbn [andb orb negb]).

Lemma utf8_decode_1 b0 tail :
  0 <= b0 < 128 ->
  Decode.utf8_decode (b0 :: tail)
  = option_map (cons b0) (Decode.utf8_decode tail).
Proof.
  intros H0. cbn [Decode.utf8_decode]. decide_tests. reflexivity.
Qed.

Lemma utf8_decode_2 b0 b1 tail :
  194 <= b0 < 224 -> 128 <= b1 < 192 ->
  Decode.utf8_decode (b0 :: b1 :: tail)
  = option_map (cons ((b0 - 192) * 64 + (b1 - 128)))
      (Decode.utf8_decode tail).
Proof.
  intros H0 H1. cbn [Decode.utf8_decode]. unfold Decode.is_continuation.
  decide_tests. reflexivity.
Qed.

Lemma utf8_decode_3 b0 b1 b2 tail :
  224 <= b0 < 240 -> 128 <= b1 < 192 -> 128 <= b2 < 192 ->
  2048 <= (b0 - 224) * 4096 + (b1 - 128) * 64 + (b2 - 128) ->
  ~ (55296 <= (b0 - 224) * 4096 + (b1 - 128) * 64 + (b2 - 128) < 57344) ->
  Decode.utf8_decode (b0 :: b1 :: b2 :: tail)
  = option_map (cons ((b0 - 224) * 4096 + (b1 - 128) * 64 + (b2 - 128)))
      (Decode.utf8_decode tail).
Proof.
  intros H0 H1 H2 Hlo Hsur.
  cbn [Decode.utf8_decode]. unfold Decode.is_continuation.
  cbv zeta. decide_tests; reflexivity.
Qed.

Lemma utf8_decode_4 b0 b1 b2 b3 tail :
  240 <= b0 < 245 -> 128 <= b1 < 192 -> 128 <= b2 < 192 -> 128 <= b3 < 192 ->
  65536 <= (b0 - 240) * 262144 + (b1 - 128) * 4096 + (b2 - 128) * 64
           + (b3 - 128) <= 1114111 ->
  Decode.utf8_decode (b0 :: b1 :: b2 :: b3 :: tail)
  = option_map
      (app (Decode.utf16_of_code_point
              ((b0 - 240) * 262144 + (b1 - 128) * 4096 + (b2 - 128) * 64
               + (b3 - 128))))
      (Decode.utf8_decode tail).
Proof.
  intros H0 H1 H2 H3 Hcp.
  cbn [Decode.utf8_decode]. unfold Decode.is_continuation.
  cbv zeta. decide_tests; reflexivity.
Qed.

Lemma utf8_decode_code_point c tail :
  0 <= c < 65536 -> ~ (55296 <= c < 57344) ->
  Decode.utf8_decode (utf8_of_code_point c ++ tail)
  = option_map (cons c) (Decode.utf8_decode tail).
Proof.
  intros Hc Hsur. unfold utf8_of_code_point.
  destruct (Z.ltb_spec c 128);
    [| destruct (Z.ltb_spec c 2048);
       [| destruct (Z.ltb_spec c 65536); [| exfalso; lia]]];
    cbn [app].
  - apply utf8_decode_1. lia.
  - rewrite utf8_decode_2 by (Z.div_mod_to_equations; lia).
    do 2 f_equal. Z.div_mod_to_equations. lia.
  - assert (Hcp : (224 + c / 4096 - 224) * 4096
                  + (128 + (c / 64) mod 64 - 128) * 64
                  + (128 + c mod 64 - 128) = c)
      by (Z.div_mod_to_equations; lia).
    rewrite utf8_decode_3; rewrite ?Hcp; try lia;
      try (Z.div_mod_to_equations; lia).
    reflexivity.
Qed.

Lemma utf8_decode_surrogate_pair c d tail :
  is_high_surrogate c = true -> is_low_surrogate d = true ->
  Decode.utf8_decode
    (utf8_of_code_point (65536 + (c - 55296) * 1024 + (d - 56320)) ++ tail)
  = option_map (app [c; d]) (Decode.utf8_decode tail).
Proof.
  unfold is_high_surrogate, is_low_surrogate. intros Hc Hd.
  apply andb_prop in Hc, Hd. destruct Hc as [Hc1 Hc2], Hd as [Hd1 Hd2].
  apply Z.leb_le in Hc1, Hd1. apply Z.ltb_lt in Hc2, Hd2.
  remember (65536 + (c - 55296) * 1024 + (d - 56320)) as cp eqn:Ecp.
  assert (Hrange : 65536 <= cp <= 1114111) by lia.
  unfold utf8_of_code_point.
  destruct (Z.ltb_spec cp 128); [lia |].
  destruct (Z.ltb_spec cp 2048); [lia |].
  destruct (Z.ltb_spec cp 65536); [lia |].
  cbn [app].
  assert (Hcp : (240 + cp / 262144 - 240) * 262144
                + (128 + (cp / 4096) mod 64 - 128) * 4096
                + (128 + (cp / 64) mod 64 - 128) * 64
                + (128 + cp mod 64 - 128) = cp)
    by (Z.div_mod_to_equations; lia).
  rewrite utf8_decode_4; rewrite ?Hcp; try lia;
    try (Z.div_mod_to_equations; lia).
  assert (Hunits : Decode.utf16_of_code_point cp = [c; d]).
  { unfold Decode.utf16_of_code_point.
    destruct (Z.ltb_spec cp 65536); [lia |].
    f_equal; [| f_equal]; Z.div_mod_to_equations; lia. }
  rewrite Hunits. reflexivity.
Qed.

Lemma utf8_decode_encode_step :
  forall s,
    (isWellFormed s = true ->
     Decode.utf8_decode (TextEncoder_encode s) = Some s)
    /\ (forall c, isWellFormed (c :: s) = true ->
                  Decode.utf8_decode (TextEncoder_encode (c :: s))
                  = Some (c :: s)).
Proof.
  assert (Hscalar :
            forall c rest,
              is_high_surrogate c = false ->
              (0 <=? c) && (c <? 65536) && negb (is_low_surrogate c)
              && isWellFormed rest = true ->
              Decode.utf8_decode (TextEncoder_encode rest) = Some rest ->
              Decode.utf8_decode
                (if is_low_surrogate c
                 then utf8_of_code_point 65533 ++ TextEncoder_encode rest
                 else utf8_of_code_point c ++ TextEncoder_encode rest)
              = Some (c :: rest)).
  { intros c rest Hhigh Hwf IH.
    apply andb_prop in Hwf. destruct Hwf as [Hwf _].
    apply andb_prop in Hwf. destruct Hwf as [Hwf Hlow].
    apply andb_prop in Hwf. destruct Hwf as [H0 H1].
    apply Z.leb_le in H0. apply Z.ltb_lt in H1.
    apply negb_true_iff in Hlow. rewrite Hlow.
    rewrite utf8_decode_code_point, IH; [reflexivity | lia |].
    revert Hhigh Hlow. unfold is_high_surrogate, is_low_surrogate.
    destruct (Z.leb_spec 55296 c), (Z.ltb_spec c 56320),
      (Z.leb_spec 56320 c), (Z.ltb_spec c 57344);
      cbn [andb]; intros; try discriminate; lia. }
  induction s as [| d s [IHs IHcons]].
  - split; [reflexivity |].
    intros c Hwf. cbn [isWellFormed TextEncoder_encode] in *.
    destruct (is_high_surrogate c) eqn:Hhigh; [discriminate Hwf |].
    apply (Hscalar c [] Hhigh Hwf eq_refl).
  - split; [apply IHcons |].
    intros c Hwf.
    change (isWellFormed (c :: d :: s))
      with (if is_high_surrogate c
            then is_low_surrogate d && isWellFormed s
            else (0 <=? c) && (c <? 65536) && negb (is_low_surrogate c)
                 && isWellFormed (d :: s)) in Hwf.
    change (TextEncoder_encode (c :: d :: s))
      with (if is_high_surrogate c
            then if is_low_surrogate d
                 then utf8_of_code_point
                        (65536 + (c - 55296) * 1024 + (d - 56320))
                        ++ TextEncoder_encode s
                 else utf8_of_code_point 65533
                        ++ TextEncoder_encode (d :: s)
            else if is_low_surrogate c
                 then utf8_of_code_point 65533 ++ TextEncoder_encode (d :: s)
                 else utf8_of_code_point c ++ TextEncoder_encode (d :: s)).
    destruct (is_high_surrogate c) eqn:Hhigh.
    + apply andb_prop in Hwf. destruct Hwf as [Hlow Hs].
      rewrite Hlow, (utf8_decode_surrogate_pair _ _ _ Hhigh Hlow), (IHs Hs).
      reflexivity.
    + apply (Hscalar c (d :: s) Hhigh Hwf). apply IHcons.
      apply andb_prop in Hwf. apply Hwf.
Qed.

Lemma utf8_decode_encode (s : JsString) :
  isWellFormed s = true ->
  Decode.utf8_decode (TextEncoder_encode s) = Some s.
Proof. apply utf8_decode_encode_step. Qed.

(** ** Each decoder inverts its layout *)

Lemma andThen_Inverts {A B : Type} (d : Decode.Decoder A) layout P
  (k : A -> Decode.Decoder B) v rest :
  Inverts d layout P -> P v ->
  Decode.andThen d k (layout v ++ rest) = k v rest.
Proof.
  intros HI HP. unfold Decode.andThen. rewrite (HI v rest HP). reflexivity.
Qed.

Lemma take_app (n : nat) (a rest : bytes) :
  length a = n -> Decode.take n (a ++ rest) = Some (a, rest).
Proof.
  intros <-. unfold Decode.take. rewrite length_app.
  destruct (Nat.ltb_spec (length a + length rest) (length a)); [lia |].
  rewrite firstn_app, Nat.sub_diag, firstn_all, skipn_app, Nat.sub_diag,
    skipn_all.
  cbn [firstn skipn app]. rewrite app_nil_r. reflexivity.
Qed.

Lemma length_le size v : length (Wire.le size v) = size.
Proof. unfold Wire.le. rewrite length_map, length_seq. reflexivity. Qed.

Lemma le_value_le_bytes (size : nat) :
  forall v, Decode.le_value (le_bytes size v) = v mod 256 ^ Z.of_nat size.
Proof.
  induction size as [| n IH]; intros v.
  - cbn. rewrite Z.mod_1_r. reflexivity.
  - cbn [le_bytes Decode.le_value]. rewrite IH.
    rewrite Nat2Z.inj_succ, Z.pow_succ_r by lia.
    rewrite Z.rem_mul_r by lia. reflexivity.
Qed.

Lemma Inverts_le (size : nat) :
  Inverts (Decode.le size) (Wire.le size)
    (fun v => 0 <= v < 256 ^ Z.of_nat size).
Proof.
  intros v rest Hv. unfold Decode.le, Decode.andThen.
  rewrite take_app by apply length_le.
  unfold Decode.ret. rewrite <- le_bytes_le, le_value_le_bytes.
  rewrite Z.mod_small by exact Hv. reflexivity.
Qed.

Lemma range_true lo hi v : Accepts.range lo hi v = true -> lo <= v <= hi.
Proof.
  unfold Accepts.range. intros H. apply andb_prop in H.
  destruct H as [H1 H2]. apply Z.leb_le in H1, H2. lia.
Qed.

Lemma Inverts_u8 : Inverts Decode.u8 Wire.u8 (fun v => Accepts.u8 v = true).
Proof.
  intros v rest Hv. apply Inverts_le. apply range_true in Hv.
  change (256 ^ Z.of_nat 1) with 256. lia.
Qed.

Lemma Inverts_u16 :
  Inverts Decode.u16 Wire.u16 (fun v => Accepts.u16 v = true).
Proof.
  intros v rest Hv. apply Inverts_le. apply range_true in Hv.
  change (256 ^ Z.of_nat 2) with 65536. lia.
Qed.

Lemma Inverts_u32 :
  Inverts Decode.u32 Wire.u32 (fun v => Accepts.u32 v = true).
Proof.
  intros v rest Hv. apply Inverts_le. apply range_true in Hv.
  change (256 ^ Z.of_nat 4) with 4294967296. lia.
Qed.

Lemma Inverts_u64 :
  Inverts Decode.u64 Wire.u64 (fun v => Accepts.u64 v = true).
Proof.
  intros v rest Hv. apply Inverts_le. apply range_true in Hv.
  change (256 ^ Z.of_nat 8) with 18446744073709551616. lia.
Qed.

Lemma Inverts_bool : Inverts Decode.bool Wire.bool (fun _ => True).
Proof. intros [|] rest _; reflexivity. Qed.

Lemma Inverts_publicKey :
  Inverts Decode.publicKey Wire.publicKey
    (fun k => Readable.publicKey k = true).
Proof.
  intros [bs] rest Hk. unfold Readable.publicKey in Hk. cbn [toBytes] in Hk.
  apply Nat.eqb_eq in Hk.
  unfold Decode.publicKey, Decode.andThen, Wire.publicKey. cbn [toBytes].
  rewrite firstn_app, Hk, firstn_all2 by lia.
  cbn [Nat.sub firstn]. rewrite app_nil_r.
  rewrite take_app by exact Hk. reflexivity.
Qed.

Lemma Inverts_string :
  Inverts Decode.string Wire.string
    (fun s => Accepts.string s = true /\ isWellFormed s = true).
Proof.
  intros s rest [Hlen Hwf]. unfold Decode.string, Wire.string.
  rewrite <- app_assoc.
  rewrite (andThen_Inverts _ _ _ Inverts_u32) by exact Hlen.
  unfold Decode.andThen. rewrite Nat2Z.id.
  rewrite take_app by reflexivity.
  unfold Wire.utf8. rewrite (utf8_decode_encode _ Hwf). reflexivity.
Qed.

Lemma Inverts_option {T : Type} (item : Decode.Decoder T) layout P :
  Inverts item layout P ->
  Inverts (Decode.option item) (Wire.option layout)
    (fun o => match o with Some v => P v | None => True end).
Proof.
  intros HI [v |] rest HP; unfold Decode.option, Wire.option.
  - change (1 :: layout v) with (Wire.u8 1 ++ layout v).
    rewrite <- app_assoc.
    rewrite (andThen_Inverts _ _ _ Inverts_u8) by reflexivity.
    cbn [Z.eqb Pos.eqb].
    rewrite (andThen_Inverts _ _ _ HI) by exact HP. reflexivity.
  - change [0] with (Wire.u8 0).
    rewrite (andThen_Inverts _ _ _ Inverts_u8) by reflexivity.
    reflexivity.
Qed.

Lemma times_Inverts {T : Type} (item : Decode.Decoder T) layout P :
  Inverts item layout P ->
  forall l rest,
    Forall P l ->
    Decode.times (length l) item (concat (map layout l) ++ rest)
    = Some (l, rest).
Proof.
  intros HI. induction l as [| v l IH]; intros rest Hall.
  - reflexivity.
  - inversion Hall as [| v' l' Hv Hl]; subst.
    cbn [length Decode.times map concat]. rewrite <- app_assoc.
    rewrite (andThen_Inverts _ _ _ HI) by exact Hv.
    unfold Decode.andThen. rewrite (IH rest Hl). reflexivity.
Qed.

Lemma Inverts_array {T : Type} (item : Decode.Decoder T) layout P :
  Inverts item layout P ->
  Inverts (Decode.array item) (Wire.array layout)
    (fun l => Accepts.u32 (Z.of_nat (length l)) = true /\ Forall P l).
Proof.
  intros HI l rest [Hlen Hall]. unfold Decode.array, Wire.array.
  rewrite <- app_assoc.
  rewrite (andThen_Inverts _ _ _ Inverts_u32) by exact Hlen.
  rewrite Nat2Z.id. apply (times_Inverts HI). exact Hall.
Qed.

Lemma Inverts_creator :
  Inverts Decode.creator Wire.creator
    (fun c => Accepts.creator c = true /\ Readable.creator c = true).
Proof.
  intros [address verified share] rest [Hshare Hkey].
  unfold Decode.creator, Wire.creator. rewrite <- !app_assoc.
  cbn [Creator.address Creator.verified Creator.share].
  rewrite (andThen_Inverts _ _ _ Inverts_publicKey) by exact Hkey.
  rewrite (andThen_Inverts _ _ _ Inverts_bool) by exact I.
  rewrite (andThen_Inverts _ _ _ Inverts_u8) by exact Hshare.
  reflexivity.
Qed.

Lemma Inverts_collection :
  Inverts Decode.collection Wire.collection
    (fun c => Readable.collection c = true).
Proof.
  intros [key verified] rest Hkey.
  unfold Decode.collection, Wire.collection. rewrite <- !app_assoc.
  cbn [Collection.key Collection.verified].
  rewrite (andThen_Inverts _ _ _ Inverts_publicKey) by exact Hkey.
  rewrite (andThen_Inverts _ _ _ Inverts_bool) by exact I.
  reflexivity.
Qed.

Lemma Inverts_uses :
  Inverts Decode.uses Wire.uses (fun u => Accepts.uses u = true).
Proof.
  intros [use_method remaining total] rest Hu.
  unfold Accepts.uses in Hu. cbn [Uses.use_method Uses.remaining Uses.total] in Hu.
  apply andb_prop in Hu. destruct Hu as [Hu Htotal].
  apply andb_prop in Hu. destruct Hu as [Hmethod Hremaining].
  unfold Decode.uses, Wire.uses. rewrite <- !app_assoc.
  cbn [Uses.use_method Uses.remaining Uses.total].
  rewrite (andThen_Inverts _ _ _ Inverts_u8) by exact Hmethod.
  rewrite (andThen_Inverts _ _ _ Inverts_u64) by exact Hremaining.
  rewrite (andThen_Inverts _ _ _ Inverts_u64) by exact Htotal.
  reflexivity.
Qed.

Lemma Inverts_initialize :
  Inverts Decode.initialize Wire.initialize
    (fun d => Accepts.initialize d = true /\ Readable.initialize d = true).
Proof.
  intros [name symbol uri fee creators collection uses] rest [Hacc Hread].
  unfold Accepts.initialize in Hacc. unfold Readable.initialize in Hread.
  cbn [InitializeData.name InitializeData.symbol InitializeData.uri
         InitializeData.seller_fee_basis_points InitializeData.creators
         InitializeData.collection InitializeData.uses] in Hacc, Hread.
  repeat match goal with
         | H : _ && _ = true |- _ =>
             apply andb_prop in H; destruct H
         end.
  unfold Decode.initialize, Wire.initialize. rewrite <- !app_assoc.
  cbn [InitializeData.name InitializeData.symbol InitializeData.uri
         InitializeData.seller_fee_basis_points InitializeData.creators
         InitializeData.collection InitializeData.uses].
  rewrite (andThen_Inverts _ _ _ Inverts_string) by (split; assumption).
  rewrite (andThen_Inverts _ _ _ Inverts_string) by (split; assumption).
  rewrite (andThen_Inverts _ _ _ Inverts_string) by (split; assumption).
  rewrite (andThen_Inverts _ _ _ Inverts_u16) by assumption.
  rewrite (andThen_Inverts _ _ _
             (Inverts_option (Inverts_array Inverts_creator))).
  2:{ destruct creators as [l |]; [| exact I].
      cbn [Accepts.option Readable.option] in *.
      match goal with
      | H : Accepts.array _ _ = true |- _ =>
          unfold Accepts.array in H; apply andb_prop in H;
          destruct H as [Hlen Hshares]
      end.
      split; [exact Hlen |].
      apply Forall_forall. intros c Hc. split.
      - apply (proj1 (forallb_forall _ _) Hshares c Hc).
      - match goal with
        | H : forallb Readable.creator _ = true |- _ =>
            apply (proj1 (forallb_forall _ _) H c Hc)
        end. }
  rewrite (andThen_Inverts _ _ _ (Inverts_option Inverts_collection)).
  2:{ destruct collection as [c |]; [assumption | exact I]. }
  rewrite (andThen_Inverts _ _ _ (Inverts_option Inverts_uses)).
  2:{ destruct uses as [u |]; [assumption | exact I]. }
  reflexivity.
Qed.

Lemma Inverts_removeKey :
  Inverts Decode.removeKey Wire.removeKey
    (fun d => Accepts.string (RemoveKeyData.key d) = true
              /\ isWellFormed (RemoveKeyData.key d) = true).
Proof.
  intros [idempotent key] rest Hkey.
  unfold Decode.removeKey, Wire.removeKey. rewrite <- !app_assoc.
  cbn [RemoveKeyData.idempotent RemoveKeyData.key] in *.
  rewrite (andThen_Inverts _ _ _ Inverts_bool) by exact I.
  rewrite (andThen_Inverts _ _ _ Inverts_string) by exact Hkey.
  reflexivity.
Qed.

Lemma Inverts_updateAuthority :
  Inverts Decode.updateAuthority Wire.updateAuthority
    (fun d => Readable.publicKey (UpdateAuthorityData.newAuthority d) = true).
Proof.
  intros [newAuthority] rest Hkey.
  unfold Decode.updateAuthority, Wire.updateAuthority.
  cbn [UpdateAuthorityData.newAuthority] in *.
  rewrite (andThen_Inverts _ _ _ Inverts_publicKey) by exact Hkey.
  reflexivity.
Qed.

Lemma Inverts_emit :
  Inverts Decode.emit Wire.emit (fun d => Accepts.emit d = true).
Proof.
  intros [start end_] rest Hacc.
  unfold Accepts.emit in Hacc. cbn [EmitData.start EmitData.end_] in Hacc.
  apply andb_prop in Hacc. destruct Hacc as [Hstart Hend].
  unfold Decode.emit, Wire.emit. rewrite <- !app_assoc.
  cbn [EmitData.start EmitData.end_].
  rewrite (andThen_Inverts _ _ _ (Inverts_option Inverts_u64)).
  2:{ destruct start; [exact Hstart | exact I]. }
  rewrite (andThen_Inverts _ _ _ (Inverts_option Inverts_u64)).
  2:{ destruct end_; [exact Hend | exact I]. }
  reflexivity.
Qed.

(** ** Keys made by the constructor *)











(** ** The library's UTF-8 decoder reads the encoder's bytes back *)

Lemma land_low (bits : Z) (b : Z) :
  0 <= bits -> Z.land b (2 ^ bits - 1) = b mod 2 ^ bits.
Proof.
  intros Hbits. rewrite <- Z.land_ones by exact Hbits.
  rewrite Z.ones_equiv. reflexivity.
Qed.

Lemma lor_shiftl_6 (x y : Z) :
  0 <= x -> 0 <= y < 64 -> Z.lor (Z.shiftl x 6) y = x * 64 + y.
Proof.
  intros Hx Hy.
  assert (Hland : Z.land (Z.shiftl x 6) y = 0).
  { apply Z.bits_inj'. intros n Hn.
    rewrite Z.land_spec, Z.bits_0.
    destruct (Z.ltb_spec n 6).
    - rewrite Z.shiftl_spec_low by lia. reflexivity.
    - replace y with (y mod 2 ^ 6) by (apply Z.mod_small; exact Hy).
      rewrite Z.mod_pow2_bits_high by lia. apply andb_false_r. }
  pose proof (Z.add_lor_land (Z.shiftl x 6) y) as Hadd.
  rewrite Hland in Hadd. rewrite Z.shiftl_mul_pow2 in Hadd at 2 by lia.
  change (2 ^ 6) with 64 in Hadd. lia.
Qed.

Ltac decide_eqs :=
  repeat match goal with
         | |- context [?a =? ?b] => destruct (Z.eqb_spec a b); try lia
         end.

Lemma firstByte_1 b : 0 <= b < 128 ->
  Decoders.firstByte b = ([b], Decoders.initialState).
Proof. intros Hb. unfold Decoders.firstByte. decide_tests. reflexivity. Qed.

Lemma firstByte_2 b : 194 <= b < 224 ->
  Decoders.firstByte b
  = ([], {| Decoders.codePoint := Z.land b 31;
            Decoders.bytesSeen := 0;
            Decoders.bytesNeeded := 1;
            Decoders.lowerBoundary := 128;
            Decoders.upperBoundary := 191 |}).
Proof. intros Hb. unfold Decoders.firstByte. decide_tests. reflexivity. Qed.

Lemma firstByte_3 b : 224 <= b < 240 ->
  Decoders.firstByte b
  = ([], {| Decoders.codePoint := Z.land b 15;
            Decoders.bytesSeen := 0;
            Decoders.bytesNeeded := 2;
            Decoders.lowerBoundary := if b =? 224 then 160 else 128;
            Decoders.upperBoundary := if b =? 237 then 159 else 191 |}).
Proof. intros Hb. unfold Decoders.firstByte. decide_tests. reflexivity. Qed.

Lemma firstByte_4 b : 240 <= b < 245 ->
  Decoders.firstByte b
  = ([], {| Decoders.codePoint := Z.land b 7;
            Decoders.bytesSeen := 0;
            Decoders.bytesNeeded := 3;
            Decoders.lowerBoundary := if b =? 240 then 144 else 128;
            Decoders.upperBoundary := if b =? 244 then 143 else 191 |}).
Proof. intros Hb. unfold Decoders.firstByte. decide_tests. reflexivity. Qed.

Lemma utf8CodePoints_first b tail :
  Decoders.utf8CodePoints Decoders.initialState (b :: tail)
  = fst (Decoders.firstByte b)
      ++ Decoders.utf8CodePoints (snd (Decoders.firstByte b)) tail.
Proof. reflexivity. Qed.

(** A continuation byte within the boundaries. *)
Lemma utf8CodePoints_next cp seen needed lower upper b tail :
  needed <> 0 -> lower <= b <= upper -> 0 <= cp -> 128 <= b < 192 ->
  Decoders.utf8CodePoints
    {| Decoders.codePoint := cp; Decoders.bytesSeen := seen;
       Decoders.bytesNeeded := needed; Decoders.lowerBoundary := lower;
       Decoders.upperBoundary := upper |} (b :: tail)
  = if seen + 1 =? needed
    then (cp * 64 + b mod 64)
           :: Decoders.utf8CodePoints Decoders.initialState tail
    else Decoders.utf8CodePoints
           {| Decoders.codePoint := cp * 64 + b mod 64;
              Decoders.bytesSeen := seen + 1;
              Decoders.bytesNeeded := needed;
              Decoders.lowerBoundary := 128;
              Decoders.upperBoundary := 191 |} tail.
Proof.
  intros Hneeded Hb Hcp Hcont.
  cbn [Decoders.utf8CodePoints Decoders.bytesNeeded Decoders.bytesSeen
         Decoders.lowerBoundary Decoders.upperBoundary Decoders.codePoint].
  destruct (Z.eqb_spec needed 0); [contradiction |].
  destruct (Z.leb_spec lower b); [| lia].
  destruct (Z.leb_spec b upper); [| lia].
  cbn [andb]. cbv zeta.
  change 63 with (2 ^ 6 - 1). rewrite land_low by lia.
  change (2 ^ 6) with 64.
  rewrite lor_shiftl_6 by (Z.div_mod_to_equations; lia).
  reflexivity.
Qed.

Lemma utf8CodePoints_1 b0 tail :
  0 <= b0 < 128 ->
  Decoders.utf8CodePoints Decoders.initialState (b0 :: tail)
  = b0 :: Decoders.utf8CodePoints Decoders.initialState tail.
Proof.
  intros H0. rewrite utf8CodePoints_first, firstByte_1 by exact H0.
  reflexivity.
Qed.

Lemma utf8CodePoints_2 b0 b1 tail :
  194 <= b0 < 224 -> 128 <= b1 < 192 ->
  Decoders.utf8CodePoints Decoders.initialState (b0 :: b1 :: tail)
  = (b0 mod 32 * 64 + b1 mod 64)
      :: Decoders.utf8CodePoints Decoders.initialState tail.
Proof.
  intros H0 H1. rewrite utf8CodePoints_first, firstByte_2 by exact H0.
  cbn [fst snd app].
  change 31 with (2 ^ 5 - 1). rewrite land_low by lia. change (2 ^ 5) with 32.
  rewrite utf8CodePoints_next by (Z.div_mod_to_equations; lia).
  reflexivity.
Qed.

Lemma utf8CodePoints_3 b0 b1 b2 tail :
  224 <= b0 < 240 -> 128 <= b1 < 192 -> 128 <= b2 < 192 ->
  (b0 = 224 -> 160 <= b1) -> (b0 = 237 -> b1 < 160) ->
  Decoders.utf8CodePoints Decoders.initialState (b0 :: b1 :: b2 :: tail)
  = ((b0 mod 16 * 64 + b1 mod 64) * 64 + b2 mod 64)
      :: Decoders.utf8CodePoints Decoders.initialState tail.
Proof.
  intros H0 H1 H2 Hlow Hhigh.
  rewrite utf8CodePoints_first, firstByte_3 by exact H0.
  cbn [fst snd app].
  change 15 with (2 ^ 4 - 1). rewrite land_low by lia. change (2 ^ 4) with 16.
  rewrite utf8CodePoints_next;
    [| lia | decide_eqs; lia | Z.div_mod_to_equations; lia | lia].
  change (0 + 1 =? 2) with false. cbv iota.
  rewrite utf8CodePoints_next by (Z.div_mod_to_equations; lia).
  reflexivity.
Qed.

Lemma utf8CodePoints_4 b0 b1 b2 b3 tail :
  240 <= b0 < 245 -> 128 <= b1 < 192 -> 128 <= b2 < 192 -> 128 <= b3 < 192 ->
  (b0 = 240 -> 144 <= b1) -> (b0 = 244 -> b1 < 144) ->
  Decoders.utf8CodePoints Decoders.initialState
    (b0 :: b1 :: b2 :: b3 :: tail)
  = (((b0 mod 8 * 64 + b1 mod 64) * 64 + b2 mod 64) * 64 + b3 mod 64)
      :: Decoders.utf8CodePoints Decoders.initialState tail.
Proof.
  intros H0 H1 H2 H3 Hlow Hhigh.
  rewrite utf8CodePoints_first, firstByte_4 by exact H0.
  cbn [fst snd app].
  change 7 with (2 ^ 3 - 1). rewrite land_low by lia. change (2 ^ 3) with 8.
  rewrite utf8CodePoints_next;
    [| lia | decide_eqs; lia | Z.div_mod_to_equations; lia | lia].
  change (0 + 1 =? 3) with false. cbv iota.
  rewrite utf8CodePoints_next by (Z.div_mod_to_equations; lia).
  change (0 + 1 + 1 =? 3) with false. cbv iota.
  rewrite utf8CodePoints_next by (Z.div_mod_to_equations; lia).
  reflexivity.
Qed.

(** A scalar value: a code point that is no surrogate. *)
Lemma utf8CodePoints_code_point cp tail :
  0 <= cp < 1114112 -> ~ (55296 <= cp < 57344) ->
  Decoders.utf8CodePoints Decoders.initialState (utf8_of_code_point cp ++ tail)
  = cp :: Decoders.utf8CodePoints Decoders.initialState tail.
Proof.
  intros Hcp Hsur. unfold utf8_of_code_point.
  destruct (Z.ltb_spec cp 128);
    [| destruct (Z.ltb_spec cp 2048); [| destruct (Z.ltb_spec cp 65536)]];
    cbn [app].
  - apply utf8CodePoints_1. lia.
  - rewrite utf8CodePoints_2 by (Z.div_mod_to_equations; lia).
    f_equal. Z.div_mod_to_equations. lia.
  - rewrite utf8CodePoints_3 by (Z.div_mod_to_equations; lia).
    f_equal. Z.div_mod_to_equations. lia.
  - rewrite utf8CodePoints_4 by (Z.div_mod_to_equations; lia).
    f_equal. Z.div_mod_to_equations. lia.
Qed.

Lemma surrogate_bounds c :
  is_high_surrogate c = false -> is_low_surrogate c = false ->
  ~ (55296 <= c < 57344).
Proof.
  unfold is_high_surrogate, is_low_surrogate.
  destruct (Z.leb_spec 55296 c), (Z.ltb_spec c 56320),
    (Z.leb_spec 56320 c), (Z.ltb_spec c 57344);
    cbn [andb]; intros; try discriminate; lia.
Qed.

Lemma surrogate_pair_code_point c d :
  is_high_surrogate c = true -> is_low_surrogate d = true ->
  65536 <= 65536 + (c - 55296) * 1024 + (d - 56320) < 1114112
  /\ Decode.utf16_of_code_point (65536 + (c - 55296) * 1024 + (d - 56320))
     = [c; d].
Proof.
  unfold is_high_surrogate, is_low_surrogate. intros Hc Hd.
  apply andb_prop in Hc, Hd. destruct Hc as [Hc1 Hc2], Hd as [Hd1 Hd2].
  apply Z.leb_le in Hc1, Hd1. apply Z.ltb_lt in Hc2, Hd2.
  split; [lia |].
  unfold Decode.utf16_of_code_point.
  destruct (Z.ltb_spec (65536 + (c - 55296) * 1024 + (d - 56320)) 65536);
    [lia |].
  f_equal; [| f_equal]; Z.div_mod_to_equations; lia.
Qed.

Lemma isWellFormed_cons c s :
  isWellFormed (c :: s)
  = if is_high_surrogate c
    then match s with
         | d :: s' => is_low_surrogate d && isWellFormed s'
         | [] => false
         end
    else (0 <=? c) && (c <? 65536) && negb (is_low_surrogate c)
         && isWellFormed s.
Proof. reflexivity. Qed.

Lemma TextEncoder_encode_cons c s :
  TextEncoder_encode (c :: s)
  = if is_high_surrogate c
    then match s with
         | d :: s' =>
             if is_low_surrogate d
             then utf8_of_code_point
                    (65536 + (c - 55296) * 1024 + (d - 56320))
                    ++ TextEncoder_encode s'
             else utf8_of_code_point 65533 ++ TextEncoder_encode s
         | [] => utf8_of_code_point 65533
         end
    else if is_low_surrogate c
         then utf8_of_code_point 65533 ++ TextEncoder_encode s
         else utf8_of_code_point c ++ TextEncoder_encode s.
Proof. reflexivity. Qed.

(** The first code point read from the bytes of a well-formed string, and
    the code points after it. *)
Lemma utf8CodePoints_encode_cons c s :
  isWellFormed (c :: s) = true ->
  (is_high_surrogate c = false
   /\ isWellFormed s = true
   /\ Decode.utf16_of_code_point c = [c]
   /\ Decoders.utf8CodePoints Decoders.initialState
        (TextEncoder_encode (c :: s))
      = c :: Decoders.utf8CodePoints Decoders.initialState
               (TextEncoder_encode s))
  \/ (exists d s' cp,
        s = d :: s' /\ isWellFormed s' = true /\ 65536 <= cp
        /\ Decode.utf16_of_code_point cp = [c; d]
        /\ Decoders.utf8CodePoints Decoders.initialState
             (TextEncoder_encode (c :: s))
           = cp :: Decoders.utf8CodePoints Decoders.initialState
                     (TextEncoder_encode s')).
Proof.
  rewrite isWellFormed_cons, TextEncoder_encode_cons.
  destruct (is_high_surrogate c) eqn:Hhigh.
  - destruct s as [| d s']; [discriminate |].
    intros Hwf. apply andb_prop in Hwf. destruct Hwf as [Hlow Hs'].
    right. exists d, s', (65536 + (c - 55296) * 1024 + (d - 56320)).
    destruct (surrogate_pair_code_point _ _ Hhigh Hlow) as [Hcp Hunits].
    rewrite Hlow, utf8CodePoints_code_point by lia.
    repeat split; (assumption || lia).
  - intros Hwf.
    apply andb_prop in Hwf. destruct Hwf as [Hwf Hs].
    apply andb_prop in Hwf. destruct Hwf as [Hwf Hlow].
    apply andb_prop in Hwf. destruct Hwf as [H0 H1].
    apply Z.leb_le in H0. apply Z.ltb_lt in H1.
    apply negb_true_iff in Hlow. rewrite Hlow.
    left.
    rewrite utf8CodePoints_code_point
      by (lia || exact (surrogate_bounds Hhigh Hlow)).
    repeat split; try assumption.
    unfold Decode.utf16_of_code_point.
    destruct (Z.ltb_spec c 65536); [reflexivity | lia].
Qed.

Lemma utf8CodePoints_encode_step :
  forall s,
    (isWellFormed s = true ->
     flat_map Decode.utf16_of_code_point
       (Decoders.utf8CodePoints Decoders.initialState (TextEncoder_encode s))
     = s)
    /\ (forall c, isWellFormed (c :: s) = true ->
          flat_map Decode.utf16_of_code_point
            (Decoders.utf8CodePoints Decoders.initialState
               (TextEncoder_encode (c :: s)))
          = c :: s).
Proof.
  induction s as [| d s [IHs IHcons]].
  - split; [reflexivity |].
    intros c Hwf.
    destruct (utf8CodePoints_encode_cons _ _ Hwf)
      as [(_ & _ & Hunits & ->) | (d & s' & cp & Hs & _)];
      [| discriminate Hs].
    cbn [flat_map]. rewrite Hunits. reflexivity.
  - split; [apply IHcons |].
    intros c Hwf.
    destruct (utf8CodePoints_encode_cons _ _ Hwf)
      as [(_ & Hrest & Hunits & ->)
         | (d' & s' & cp & Hs & Hrest & _ & Hunits & ->)].
    + cbn [flat_map]. rewrite Hunits, (IHcons _ Hrest). reflexivity.
    + inversion Hs; subst d' s'.
      cbn [flat_map]. rewrite Hunits, (IHs Hrest). reflexivity.
Qed.

Lemma TextDecoder_decode_encode (s : JsString) :
  isWellFormed s = true ->
  match s with
  | first :: _ => negb (first =? 65279)
  | [] => true
  end = true ->
  Decoders.TextDecoder_decode (TextEncoder_encode s) = s.
Proof.
  intros Hwf Hmark. unfold Decoders.TextDecoder_decode. cbv zeta.
  pose proof (proj1 (utf8CodePoints_encode_step s) Hwf) as Hunits.
  destruct s as [| c s]; [reflexivity |].
  apply negb_true_iff, Z.eqb_neq in Hmark.
  destruct (utf8CodePoints_encode_cons _ _ Hwf)
    as [(_ & _ & _ & Hcps) | (d & s' & cp & _ & _ & Hcp & _ & Hcps)];
    rewrite Hcps in *.
  - destruct (Z.eqb_spec c 65279); [contradiction | exact Hunits].
  - destruct (Z.eqb_spec cp 65279); [lia | exact Hunits].
Qed.

Lemma removeNullCharacters_id (s : JsString) :
  forallb (fun c => negb (c =? 0)) s = true ->
  Decoders.removeNullCharacters s = s.
Proof.
  unfold Decoders.removeNullCharacters.
  induction s as [| c s IH]; [reflexivity |].
  cbn [forallb filter]. intros H. apply andb_prop in H.
  destruct H as [Hc Hs]. rewrite Hc, (IH Hs). reflexivity.
Qed.

Lemma getUtf8Decoder_encode (s : JsString) :
  Decoders.keepsString s = true ->
  Decoders.getUtf8Decoder (TextEncoder_encode s) = Some (s, []).
Proof.
  unfold Decoders.keepsString. intros H.
  apply andb_prop in H. destruct H as [H Hnull].
  apply andb_prop in H. destruct H as [Hwf Hmark].
  unfold Decoders.getUtf8Decoder.
  rewrite (TextDecoder_decode_encode _ Hwf Hmark).
  rewrite (removeNullCharacters_id _ Hnull). reflexivity.
Qed.

(** ** Each library decoder inverts its layout *)

Lemma Inverts_getBooleanDecoder :
  Inverts Decoders.getBooleanDecoder Wire.bool (fun _ => True).
Proof. intros [|] rest _; reflexivity. Qed.

Lemma firstn_skipn_app (a rest : bytes) :
  (length (a ++ rest) <? length a)%nat = false
  /\ firstn (length a) (a ++ rest) = a
  /\ skipn (length a) (a ++ rest) = rest.
Proof.
  split; [| split].
  - rewrite length_app. apply Nat.ltb_ge. lia.
  - rewrite firstn_app, Nat.sub_diag, firstn_all. apply app_nil_r.
  - rewrite skipn_app, Nat.sub_diag, skipn_all. reflexivity.
Qed.

Lemma fixDecoderSize_app {T : Type} (decoder : Decode.Decoder T)
  (a rest : bytes) (v : T) (left : bytes) :
  decoder a = Some (v, left) ->
  Decoders.fixDecoderSize decoder (length a) (a ++ rest) = Some (v, rest).
Proof.
  intros Hv. unfold Decoders.fixDecoderSize.
  destruct (firstn_skipn_app a rest) as (-> & -> & ->).
  rewrite Hv. reflexivity.
Qed.

Lemma Inverts_getPublicKeyDecoder :
  Inverts Decoders.getPublicKeyDecoder Wire.publicKey
    (fun k => Readable.publicKey k = true).
Proof.
  intros [bs] rest Hk. unfold Readable.publicKey in Hk. cbn [toBytes] in Hk.
  apply Nat.eqb_eq in Hk.
  assert (Hwire : Wire.publicKey {| toBytes := bs |} = bs).
  { unfold Wire.publicKey. cbn [toBytes].
    rewrite firstn_app, Hk, firstn_all2 by lia.
    rewrite Nat.sub_diag. apply app_nil_r. }
  rewrite Hwire.
  unfold Decoders.getPublicKeyDecoder, Decoders.transformDecoder,
    Decode.andThen.
  rewrite <- Hk at 1.
  rewrite (fixDecoderSize_app Decoders.getBytesDecoder bs rest (v := bs)
             (left := [])) by reflexivity.
  reflexivity.
Qed.

Lemma Inverts_getStringDecoder :
  Inverts Decoders.getStringDecoder Wire.string
    (fun s => Accepts.string s = true /\ Decoders.keepsString s = true).
Proof.
  intros s rest [Hlen Hkeeps].
  unfold Decoders.getStringDecoder, Decoders.addDecoderSizePrefix,
    Wire.string.
  rewrite <- app_assoc.
  rewrite (andThen_Inverts _ _ _ Inverts_u32) by exact Hlen.
  rewrite Nat2Z.id.
  destruct (firstn_skipn_app (Wire.utf8 s) rest) as (-> & -> & ->).
  unfold Wire.utf8. rewrite (getUtf8Decoder_encode _ Hkeeps). reflexivity.
Qed.

Lemma Inverts_getOptionDecoder {T : Type} (item : Decode.Decoder T) layout P :
  Inverts item layout P ->
  Inverts (Decoders.getOptionDecoder item) (Wire.option layout)
    (fun o => match o with Some v => P v | None => True end).
Proof.
  intros HI [v |] rest HP; unfold Decoders.getOptionDecoder, Wire.option.
  - change (1 :: layout v) with (Wire.bool true ++ layout v).
    rewrite <- app_assoc.
    rewrite (andThen_Inverts _ _ _ Inverts_getBooleanDecoder) by exact I.
    rewrite (andThen_Inverts _ _ _ HI) by exact HP. reflexivity.
  - change [0] with (Wire.bool false).
    rewrite (andThen_Inverts _ _ _ Inverts_getBooleanDecoder) by exact I.
    reflexivity.
Qed.

Lemma Inverts_getArrayDecoder {T : Type} (item : Decode.Decoder T) layout P :
  Inverts item layout P ->
  Inverts (Decoders.getArrayDecoder item) (Wire.array layout)
    (fun l => Accepts.u32 (Z.of_nat (length l)) = true /\ Forall P l).
Proof. exact (@Inverts_array T item layout P). Qed.

Lemma Inverts_creator_decoder :
  Inverts Decoders.creator Wire.creator
    (fun c => Accepts.creator c = true /\ Readable.creator c = true).
Proof.
  intros [address verified share] rest [Hshare Hkey].
  unfold Decoders.creator, Wire.creator. rewrite <- !app_assoc.
  cbn [Creator.address Creator.verified Creator.share].
  rewrite (andThen_Inverts _ _ _ Inverts_getPublicKeyDecoder) by exact Hkey.
  rewrite (andThen_Inverts _ _ _ Inverts_getBooleanDecoder) by exact I.
  rewrite (andThen_Inverts _ _ _ Inverts_u8) by exact Hshare.
  reflexivity.
Qed.

Lemma Inverts_collection_decoder :
  Inverts Decoders.collection Wire.collection
    (fun c => Readable.collection c = true).
Proof.
  intros [key verified] rest Hkey.
  unfold Decoders.collection, Wire.collection. rewrite <- !app_assoc.
  cbn [Collection.key Collection.verified].
  rewrite (andThen_Inverts _ _ _ Inverts_getPublicKeyDecoder) by exact Hkey.
  rewrite (andThen_Inverts _ _ _ Inverts_getBooleanDecoder) by exact I.
  reflexivity.
Qed.

Lemma Inverts_uses_decoder :
  Inverts Decoders.uses Wire.uses (fun u => Accepts.uses u = true).
Proof. exact Inverts_uses. Qed.

Lemma Inverts_initialize_decoder :
  Inverts Decoders.initialize Wire.initialize
    (fun d => Accepts.initialize d = true
              /\ Decoders.keepsInitialize d = true).
Proof.
  intros [name symbol uri fee creators collection uses] rest [Hacc Hread].
  unfold Accepts.initialize in Hacc. unfold Decoders.keepsInitialize in Hread.
  cbn [InitializeData.name InitializeData.symbol InitializeData.uri
         InitializeData.seller_fee_basis_points InitializeData.creators
         InitializeData.collection InitializeData.uses] in Hacc, Hread.
  repeat match goal with
         | H : _ && _ = true |- _ =>
             apply andb_prop in H; destruct H
         end.
  unfold Decoders.initialize, Wire.initialize. rewrite <- !app_assoc.
  cbn [InitializeData.name InitializeData.symbol InitializeData.uri
         InitializeData.seller_fee_basis_points InitializeData.creators
         InitializeData.collection InitializeData.uses].
  rewrite (andThen_Inverts _ _ _ Inverts_getStringDecoder)
    by (split; assumption).
  rewrite (andThen_Inverts _ _ _ Inverts_getStringDecoder)
    by (split; assumption).
  rewrite (andThen_Inverts _ _ _ Inverts_getStringDecoder)
    by (split; assumption).
  rewrite (andThen_Inverts _ _ _ Inverts_u16) by assumption.
  rewrite (andThen_Inverts _ _ _
             (Inverts_getOptionDecoder
                (Inverts_getArrayDecoder Inverts_creator_decoder))).
  2:{ destruct creators as [l |]; [| exact I].
      cbn [Accepts.option Readable.option] in *.
      match goal with
      | H : Accepts.array _ _ = true |- _ =>
          unfold Accepts.array in H; apply andb_prop in H;
          destruct H as [Hlen Hshares]
      end.
      split; [exact Hlen |].
      apply Forall_forall. intros c Hc. split.
      - apply (proj1 (forallb_forall _ _) Hshares c Hc).
      - match goal with
        | H : forallb Readable.creator _ = true |- _ =>
            apply (proj1 (forallb_forall _ _) H c Hc)
        end. }
  rewrite (andThen_Inverts _ _ _
             (Inverts_getOptionDecoder Inverts_collection_decoder)).
  2:{ destruct collection as [c |]; [assumption | exact I]. }
  rewrite (andThen_Inverts _ _ _
             (Inverts_getOptionDecoder Inverts_uses_decoder)).
  2:{ destruct uses as [u |]; [assumption | exact I]. }
  reflexivity.
Qed.

Lemma Inverts_removeKey_decoder :
  Inverts Decoders.removeKey Wire.removeKey
    (fun d => Accepts.string (RemoveKeyData.key d) = true
              /\ Decoders.keepsString (RemoveKeyData.key d) = true).
Proof.
  intros [idempotent key] rest Hkey.
  unfold Decoders.removeKey, Wire.removeKey. rewrite <- !app_assoc.
  cbn [RemoveKeyData.idempotent RemoveKeyData.key] in *.
  rewrite (andThen_Inverts _ _ _ Inverts_getBooleanDecoder) by exact I.
  rewrite (andThen_Inverts _ _ _ Inverts_getStringDecoder) by exact Hkey.
  reflexivity.
Qed.

Lemma Inverts_updateAuthority_decoder :
  Inverts Decoders.updateAuthority Wire.updateAuthority
    (fun d => Readable.publicKey (UpdateAuthorityData.newAuthority d) = true).
Proof.
  intros [newAuthority] rest Hkey.
  unfold Decoders.updateAuthority, Wire.updateAuthority.
  cbn [UpdateAuthorityData.newAuthority] in *.
  rewrite (andThen_Inverts _ _ _ Inverts_getPublicKeyDecoder) by exact Hkey.
  reflexivity.
Qed.

Lemma Inverts_emit_decoder :
  Inverts Decoders.emit Wire.emit (fun d => Accepts.emit d = true).
Proof.
  intros [start end_] rest Hacc.
  unfold Accepts.emit in Hacc. cbn [EmitData.start EmitData.end_] in Hacc.
  apply andb_prop in Hacc. destruct Hacc as [Hstart Hend].
  unfold Decoders.emit, Wire.emit. rewrite <- !app_assoc.
  cbn [EmitData.start EmitData.end_].
  rewrite (andThen_Inverts _ _ _ (Inverts_getOptionDecoder Inverts_u64)).
  2:{ destruct start; [exact Hstart | exact I]. }
  rewrite (andThen_Inverts _ _ _ (Inverts_getOptionDecoder Inverts_u64)).
  2:{ destruct end_; [exact Hend | exact I]. }
  reflexivity.
Qed.

(** * The specification's claims *)

(** ** Framing *)

(** C1. For every builder and every argument record: the instruction the
    builder returns has the literal discriminator of its kind as the first 8
    bytes of its data, and the bytes after them are exactly the struct
    encoding of the payload fields, in the wire contract's layout and
    declared order.  The builder does return such an instruction whenever
    the payload can be encoded (every number and byte length of the payload
    is in the range of its field, and the Field codec returns), and it
    throws otherwise. *)
Theorem data_is_discriminator_then_payload :
  forall (Field FieldLayout : Type) (kind : FieldLayout -> string)
         (getFieldCodec : list (string * Encoder FieldLayout))
         (getFieldConfig : Field + JsString -> FieldLayout)
         (c : Call Field),
    (forall ix,
       build kind getFieldCodec getFieldConfig c = Ok ix ->
       firstn 8 (TransactionInstruction.data ix) = discriminatorOf c
       /\ payloadOf kind getFieldCodec getFieldConfig c
          = Ok (skipn 8 (TransactionInstruction.data ix))
       /\ encodable c = true)
    /\ (forall payload,
          payloadOf kind getFieldCodec getFieldConfig c = Ok payload ->
          encodable c = true ->
          exists ix,
            build kind getFieldCodec getFieldConfig c = Ok ix
            /\ TransactionInstruction.data ix = discriminatorOf c ++ payload)
    /\ (encodable c = false
        \/ (exists e, payloadOf kind getFieldCodec getFieldConfig c = Throw e) ->
        exists e, build kind getFieldCodec getFieldConfig c = Throw e).
Proof.
  intros Field FieldLayout kind getFieldCodec getFieldConfig c.
  assert (Hreturned :
            forall ix,
              build kind getFieldCodec getFieldConfig c = Ok ix ->
              firstn 8 (TransactionInstruction.data ix) = discriminatorOf c
              /\ payloadOf kind getFieldCodec getFieldConfig c
                 = Ok (skipn 8 (TransactionInstruction.data ix))
              /\ encodable c = true).
  { intros ix Hix.
    destruct c as [args | args | args | args | args]; simpl in Hix.
    - destruct (createInitializeInstruction_spec args) as [Hyes Hno].
      destruct (spec_Ok_inv Hyes Hno Hix) as [Hacc ->].
      repeat split; (reflexivity || exact Hacc).
    - destruct (createUpdateFieldInstruction_Ok_inv _ _ _ _ Hix)
        as (fieldBytes & Hfield & Hacc & ->).
      split; [reflexivity | split; [| exact Hacc]].
      simpl. rewrite Hfield. reflexivity.
    - destruct (createRemoveKeyInstruction_spec args) as [Hyes Hno].
      destruct (spec_Ok_inv Hyes Hno Hix) as [Hacc ->].
      repeat split; (reflexivity || exact Hacc).
    - rewrite createUpdateAuthorityInstruction_spec in Hix.
      inversion Hix. repeat split; reflexivity.
    - destruct (createEmitInstruction_spec args) as [Hyes Hno].
      destruct (spec_Ok_inv Hyes Hno Hix) as [Hacc ->].
      repeat split; (reflexivity || exact Hacc). }
  split; [exact Hreturned | split].
  - intros payload Hpayload Hacc.
    destruct c as [args | args | args | args | args];
      cbn [build discriminatorOf payloadOf encodable] in *.
    + inversion Hpayload; subst payload.
      exists (Expected.initialize args). split; [| reflexivity].
      apply createInitializeInstruction_spec. exact Hacc.
    + destruct (getDataEnumCodec kind getFieldCodec
                  (getFieldConfig (UpdateFieldInstruction.field args)))
        as [fieldBytes | e] eqn:Hfield; [| discriminate Hpayload].
      inversion Hpayload; subst payload.
      exists (Expected.updateField args fieldBytes). split; [| reflexivity].
      apply createUpdateFieldInstruction_accepts; assumption.
    + inversion Hpayload; subst payload.
      exists (Expected.removeKey args). split; [| reflexivity].
      apply createRemoveKeyInstruction_spec. exact Hacc.
    + inversion Hpayload; subst payload.
      exists (Expected.updateAuthority args). split; [| reflexivity].
      apply createUpdateAuthorityInstruction_spec.
    + inversion Hpayload; subst payload.
      exists (Expected.emit args). split; [| reflexivity].
      apply createEmitInstruction_spec. exact Hacc.
  - intros Hnot.
    destruct (build kind getFieldCodec getFieldConfig c) as [ix | e] eqn:Hix;
      [| exists e; reflexivity].
    destruct (Hreturned ix eq_refl) as (_ & Hpayload & Hacc).
    destruct Hnot as [Hnot | [e He]]; congruence.
Qed.

Lemma data_is_discriminator_then_payload_witness :
  (exists ix,
     createInitializeInstruction Sample.initializeArgs = Ok ix
     /\ TransactionInstruction.data ix
        = [210; 225; 30; 162; 88; 184; 77; 141]
            ++ [5; 0; 0; 0] ++ js "Token"
            ++ [3; 0; 0; 0] ++ js "TKN"
            ++ [26; 0; 0; 0] ++ js "https://example.org/t.json"
            ++ [244; 1]
            ++ [1; 3; 0; 0; 0]
            ++ repeat 10 32 ++ [1; 60]
            ++ repeat 11 32 ++ [0; 30]
            ++ repeat 12 32 ++ [1; 10]
            ++ [1] ++ repeat 20 32 ++ [1]
            ++ [1; 1; 3; 0; 0; 0; 0; 0; 0; 0; 5; 0; 0; 0; 0; 0; 0; 0])
  /\ (exists ix,
        createUpdateFieldInstruction Sample.kind Sample.getFieldCodec
          Sample.getFieldConfig Sample.updateFieldArgs = Ok ix
        /\ TransactionInstruction.data ix
           = [221; 233; 49; 45; 181; 202; 220; 200]
               ++ [1; 6; 0; 0; 0; 99; 111; 108; 111; 117; 114]
               ++ [4; 0; 0; 0; 98; 108; 117; 101])
  /\ (exists ix,
        createRemoveKeyInstruction Sample.removeKeyArgs = Ok ix
        /\ TransactionInstruction.data ix
           = [234; 18; 32; 56; 89; 141; 37; 181]
               ++ [1; 6; 0; 0; 0; 109; 121; 45; 107; 101; 121])
  /\ (exists ix,
        createUpdateAuthorityInstruction
          (Sample.updateAuthorityArgs (Some (Sample.key 9))) = Ok ix
        /\ TransactionInstruction.data ix
           = [215; 228; 166; 228; 84; 100; 86; 123] ++ repeat 9 32)
  /\ (exists ix,
        createEmitInstruction Sample.emitArgs = Ok ix
        /\ TransactionInstruction.data ix
           = [250; 166; 180; 250; 13; 12; 184; 70]
               ++ [1; 5; 0; 0; 0; 0; 0; 0; 0; 0]).
Proof.
  pose proof (@data_is_discriminator_then_payload
                Sample.Field Sample.FieldLayout Sample.kind
                Sample.getFieldCodec Sample.getFieldConfig) as Hframing.
  split; [| split; [| split; [| split]]].
  - destruct (Hframing (Initialize Sample.initializeArgs))
      as (_ & Hreturns & _).
    destruct (Hreturns (Wire.initialize (initializeData Sample.initializeArgs)))
      as (ix & Hix & Hdata); [reflexivity | vm_compute; reflexivity |].
    exists ix. split; [exact Hix |].
    rewrite Hdata. vm_compute. reflexivity.
  - destruct (Hframing (UpdateField Sample.updateFieldArgs))
      as (_ & Hreturns & _).
    destruct (Hreturns ([1; 6; 0; 0; 0; 99; 111; 108; 111; 117; 114]
                          ++ [4; 0; 0; 0; 98; 108; 117; 101]))
      as (ix & Hix & Hdata);
      [vm_compute; reflexivity | vm_compute; reflexivity |].
    exists ix. split; [exact Hix |].
    rewrite Hdata. reflexivity.
  - destruct (Hframing (RemoveKey Sample.removeKeyArgs))
      as (_ & Hreturns & _).
    destruct (Hreturns (Wire.removeKey (removeKeyData Sample.removeKeyArgs)))
      as (ix & Hix & Hdata); [reflexivity | vm_compute; reflexivity |].
    exists ix. split; [exact Hix |].
    rewrite Hdata. vm_compute. reflexivity.
  - destruct (Hframing
                (UpdateAuthority
                   (Sample.updateAuthorityArgs (Some (Sample.key 9)))))
      as (_ & Hreturns & _).
    destruct (Hreturns (repeat 9 32))
      as (ix & Hix & Hdata); [vm_compute; reflexivity | reflexivity |].
    exists ix. split; [exact Hix |].
    rewrite Hdata. reflexivity.
  - destruct (Hframing (Emit Sample.emitArgs)) as (_ & Hreturns & _).
    destruct (Hreturns [1; 5; 0; 0; 0; 0; 0; 0; 0; 0])
      as (ix & Hix & Hdata);
      [vm_compute; reflexivity | vm_compute; reflexivity |].
    exists ix. split; [exact Hix |].
    rewrite Hdata. reflexivity.
Defined.

(** ** Initialize *)

(** C2. For every Initialize argument record, the builder called with
    [creators] equal to the empty list returns what it returns with
    [creators] left out; when it returns an instruction, the creators field
    sits after the three strings and the u16 as the single absent flag 0
    (followed by the collection and uses fields), and never as a present
    array of length zero, which would be the bytes 1, 0, 0, 0, 0. *)
Theorem empty_creators_encode_as_absent :
  forall args : InitializeInstructionArgs.t,
    createInitializeInstruction (withCreators (Some []) args)
    = createInitializeInstruction (withCreators None args)
    /\ forall ix,
         createInitializeInstruction (withCreators (Some []) args) = Ok ix ->
         let d := initializeData args in
         let before :=
           Discriminator.initialize
             ++ Wire.string (InitializeData.name d)
             ++ Wire.string (InitializeData.symbol d)
             ++ Wire.string (InitializeData.uri d)
             ++ Wire.u16 (InitializeData.seller_fee_basis_points d) in
         let after :=
           Wire.option Wire.collection (InitializeData.collection d)
             ++ Wire.option Wire.uses (InitializeData.uses d) in
         TransactionInstruction.data ix = before ++ [0] ++ after
         /\ TransactionInstruction.data ix
            <> before ++ [1; 0; 0; 0; 0] ++ after.
Proof.
  intros args. split; [reflexivity |].
  intros ix Hix d before after.
  destruct (createInitializeInstruction_spec (withCreators (Some []) args))
    as [Hyes Hno].
  destruct (spec_Ok_inv Hyes Hno Hix) as [_ ->].
  assert (Hdata :
            TransactionInstruction.data
              (Expected.initialize (withCreators (Some []) args))
            = before ++ [0] ++ after).
  { subst before after d. unfold Expected.initialize, Wire.initialize.
    cbn [TransactionInstruction.data]. rewrite <- !app_assoc. reflexivity. }
  split; [exact Hdata |].
  rewrite Hdata. intros Heq.
  apply app_inv_head in Heq. discriminate Heq.
Qed.

Lemma empty_creators_encode_as_absent_witness :
  createInitializeInstruction (withCreators (Some []) Sample.initializeArgs)
  = Ok (Expected.initialize (withCreators None Sample.initializeArgs))
  /\ skipn 54
       (firstn 59
          (TransactionInstruction.data
             (Expected.initialize (withCreators None Sample.initializeArgs))))
     = [244; 1; 0; 1; 20].
Proof.
  assert (Hix :
            createInitializeInstruction
              (withCreators (Some []) Sample.initializeArgs)
            = Ok (Expected.initialize
                    (withCreators None Sample.initializeArgs)))
    by (vm_compute; reflexivity).
  split; [exact Hix |].
  destruct (proj2 (empty_creators_encode_as_absent Sample.initializeArgs)
              _ Hix) as [Hdata _].
  rewrite Hdata. vm_compute. reflexivity.
Defined.

(** C3. For every Initialize argument record on which the builder returns,
    the account list is, in order: metadata (writable, not a signer),
    updateAuthority, mint (both read-only, not signers), mintAuthority
    (signer), then one read-only signer entry per creator with
    [verified = true], in the order of the creators list, then a read-only
    signer entry for the collection key when a collection with
    [verified = true] is supplied.  Unverified creators and an unverified
    collection add no entry: the list has exactly four entries plus one per
    verified creator plus one for a verified collection. *)
Theorem initialize_account_list :
  forall (args : InitializeInstructionArgs.t) (ix : TransactionInstruction.t),
    createInitializeInstruction args = Ok ix ->
    let creators :=
      match InitializeInstructionArgs.creators args with
      | Some l => l
      | None => []
      end in
    let collectionKeys :=
      match InitializeInstructionArgs.collection args with
      | Some (Some c) =>
          if Collection.verified c then [Collection.key c] else []
      | _ => []
      end in
    TransactionInstruction.keys ix
    = [ {| isSigner := false; isWritable := true;
           pubkey := InitializeInstructionArgs.metadata args |};
        {| isSigner := false; isWritable := false;
           pubkey := InitializeInstructionArgs.updateAuthority args |};
        {| isSigner := false; isWritable := false;
           pubkey := InitializeInstructionArgs.mint args |};
        {| isSigner := true; isWritable := false;
           pubkey := InitializeInstructionArgs.mintAuthority args |} ]
      ++ map (fun c => {| isSigner := true; isWritable := false;
                          pubkey := Creator.address c |})
           (filter Creator.verified creators)
      ++ map (fun k => {| isSigner := true; isWritable := false; pubkey := k |})
           collectionKeys
    /\ Forall (fun meta => isSigner meta = true /\ isWritable meta = false)
         (skipn 4 (TransactionInstruction.keys ix))
    /\ length (TransactionInstruction.keys ix)
       = (4 + count_occ bool_dec (map Creator.verified creators) true
          + length collectionKeys)%nat.
Proof.
  intros args ix Hix creators collectionKeys.
  destruct (createInitializeInstruction_spec args) as [Hyes Hno].
  destruct (spec_Ok_inv Hyes Hno Hix) as [_ ->].
  assert (Hkeys :
            TransactionInstruction.keys (Expected.initialize args)
            = [ writable (InitializeInstructionArgs.metadata args);
                readonly (InitializeInstructionArgs.updateAuthority args);
                readonly (InitializeInstructionArgs.mint args);
                signer (InitializeInstructionArgs.mintAuthority args) ]
              ++ map (fun c => signer (Creator.address c))
                   (filter Creator.verified creators)
              ++ map signer collectionKeys).
  { unfold Expected.initialize, Expected.initializeKeys,
      Expected.verifiedCreators.
    cbn [TransactionInstruction.keys]. rewrite map_map. reflexivity. }
  split; [exact Hkeys | split].
  - rewrite Hkeys. cbn [skipn app].
    apply Forall_app. split; apply Forall_forall; intros meta Hmeta;
      apply in_map_iff in Hmeta; destruct Hmeta as (x & <- & _);
      split; reflexivity.
  - rewrite Hkeys, !length_app, !length_map. cbn [length].
    assert (Hcount :
              forall l,
                length (filter Creator.verified l)
                = count_occ bool_dec (map Creator.verified l) true).
    { induction l as [| c l IH]; [reflexivity |].
      cbn [filter map count_occ].
      destruct (Creator.verified c); cbn [length];
        destruct (bool_dec _ _) as [E | E]; try discriminate E;
        try (exfalso; apply E; reflexivity); rewrite IH; reflexivity. }
    rewrite Hcount. lia.
Qed.

Lemma initialize_account_list_witness :
  createInitializeInstruction Sample.initializeArgs
  = Ok (Expected.initialize Sample.initializeArgs)
  /\ TransactionInstruction.keys (Expected.initialize Sample.initializeArgs)
     = [ writable (Sample.key 1); readonly (Sample.key 5);
         readonly (Sample.key 2); signer (Sample.key 3);
         signer (Sample.key 10); signer (Sample.key 12);
         signer (Sample.key 20) ].
Proof.
  assert (Hix : createInitializeInstruction Sample.initializeArgs
                = Ok (Expected.initialize Sample.initializeArgs))
    by (vm_compute; reflexivity).
  split; [exact Hix |].
  destruct (initialize_account_list Sample.initializeArgs Hix) as [Hkeys _].
  rewrite Hkeys. reflexivity.
Defined.

(** C9. For every Initialize argument record, leaving out
    [sellerFeeBasisPoints], [collection] or [uses] gives the same result as
    passing 0, [null] and [null].  With all three left out the builder
    returns whenever the three strings and the creators can be encoded, the
    same instruction as with the three explicit values, and its data carry
    the fee as the u16 bytes 0, 0 and the collection and uses fields as one
    absent flag 0 each. *)
Theorem omitted_initialize_options_are_defaults :
  forall args : InitializeInstructionArgs.t,
    createInitializeInstruction (withSellerFeeBasisPoints None args)
    = createInitializeInstruction (withSellerFeeBasisPoints (Some 0) args)
    /\ createInitializeInstruction (withCollection None args)
       = createInitializeInstruction (withCollection (Some None) args)
    /\ createInitializeInstruction (withUses None args)
       = createInitializeInstruction (withUses (Some None) args)
    /\ (forall ix,
          createInitializeInstruction
            (withSellerFeeBasisPoints None
               (withCollection None (withUses None args))) = Ok ix ->
          TransactionInstruction.data ix
          = Discriminator.initialize
              ++ Wire.string (InitializeInstructionArgs.name args)
              ++ Wire.string (InitializeInstructionArgs.symbol args)
              ++ Wire.string (InitializeInstructionArgs.uri args)
              ++ [0; 0]
              ++ Wire.option (Wire.array Wire.creator)
                   (InitializeData.creators (initializeData args))
              ++ [0]
              ++ [0])
    /\ (Accepts.string (InitializeInstructionArgs.name args) = true ->
        Accepts.string (InitializeInstructionArgs.symbol args) = true ->
        Accepts.string (InitializeInstructionArgs.uri args) = true ->
        Accepts.option (Accepts.array Accepts.creator)
          (InitializeData.creators (initializeData args)) = true ->
        exists ix,
          createInitializeInstruction
            (withSellerFeeBasisPoints None
               (withCollection None (withUses None args))) = Ok ix
          /\ createInitializeInstruction
               (withSellerFeeBasisPoints (Some 0)
                  (withCollection (Some None) (withUses (Some None) args)))
             = Ok ix
          /\ TransactionInstruction.data ix
             = Discriminator.initialize
                 ++ Wire.string (InitializeInstructionArgs.name args)
                 ++ Wire.string (InitializeInstructionArgs.symbol args)
                 ++ Wire.string (InitializeInstructionArgs.uri args)
                 ++ [0; 0]
                 ++ Wire.option (Wire.array Wire.creator)
                      (InitializeData.creators (initializeData args))
                 ++ [0]
                 ++ [0]).
Proof.
  intros args.
  split; [reflexivity | split; [reflexivity | split; [reflexivity | split]]].
  - intros ix Hix.
    destruct (createInitializeInstruction_spec
                (withSellerFeeBasisPoints None
                   (withCollection None (withUses None args))))
      as [Hyes Hno].
    destruct (spec_Ok_inv Hyes Hno Hix) as [_ ->].
    reflexivity.
  - intros Hname Hsymbol Huri Hcreators.
    exists (Expected.initialize
              (withSellerFeeBasisPoints None
                 (withCollection None (withUses None args)))).
    assert (Hix :
              createInitializeInstruction
                (withSellerFeeBasisPoints None
                   (withCollection None (withUses None args)))
              = Ok (Expected.initialize
                      (withSellerFeeBasisPoints None
                         (withCollection None (withUses None args))))).
    { apply createInitializeInstruction_spec.
      unfold Accepts.initialize.
      change (InitializeData.creators
                (initializeData
                   (withSellerFeeBasisPoints None
                      (withCollection None (withUses None args)))))
        with (InitializeData.creators (initializeData args)).
      cbn [initializeData withSellerFeeBasisPoints withCollection withUses
             InitializeData.name InitializeData.symbol InitializeData.uri
             InitializeData.seller_fee_basis_points InitializeData.uses
             InitializeInstructionArgs.name InitializeInstructionArgs.symbol
             InitializeInstructionArgs.uri
             InitializeInstructionArgs.sellerFeeBasisPoints
             InitializeInstructionArgs.uses Accepts.option].
      rewrite Hname, Hsymbol, Huri, Hcreators. reflexivity. }
    split; [exact Hix | split; [exact Hix | reflexivity]].
Qed.

Lemma omitted_initialize_options_are_defaults_witness :
  exists ix,
    createInitializeInstruction
      (withSellerFeeBasisPoints None
         (withCollection None (withUses None Sample.initializeArgs)))
    = Ok ix
    /\ createInitializeInstruction
         (withSellerFeeBasisPoints (Some 0)
            (withCollection (Some None)
               (withUses (Some None) Sample.initializeArgs)))
       = Ok ix
    /\ TransactionInstruction.data ix
       = [210; 225; 30; 162; 88; 184; 77; 141]
           ++ [5; 0; 0; 0] ++ js "Token"
           ++ [3; 0; 0; 0] ++ js "TKN"
           ++ [26; 0; 0; 0] ++ js "https://example.org/t.json"
           ++ [0; 0]
           ++ [1; 3; 0; 0; 0]
           ++ repeat 10 32 ++ [1; 60]
           ++ repeat 11 32 ++ [0; 30]
           ++ repeat 12 32 ++ [1; 10]
           ++ [0]
           ++ [0].
Proof.
  destruct (omitted_initialize_options_are_defaults Sample.initializeArgs)
    as (_ & _ & _ & _ & Hreturns).
  destruct Hreturns as (ix & Hix & Hexplicit & Hdata);
    try (vm_compute; reflexivity).
  exists ix. split; [exact Hix | split; [exact Hexplicit |]].
  rewrite Hdata. vm_compute. reflexivity.
Defined.

(** ** UpdateAuthority *)

(** C4. With [newAuthority] absent, the builder returns an instruction whose
    data after the discriminator is exactly the 32 bytes of the system
    program's key, all zero, with no presence byte before them; with a
    32-byte [newAuthority] supplied, the data after the discriminator is
    exactly that key's 32 bytes. *)
Theorem update_authority_payload :
  forall programId metadata oldAuthority : PublicKey,
    createUpdateAuthorityInstruction
      {| UpdateAuthorityInstructionArgs.programId := programId;
         UpdateAuthorityInstructionArgs.metadata := metadata;
         UpdateAuthorityInstructionArgs.oldAuthority := oldAuthority;
         UpdateAuthorityInstructionArgs.newAuthority := None |}
    = Ok {| TransactionInstruction.programId := programId;
            TransactionInstruction.keys :=
              [ {| isSigner := false; isWritable := true;
                   pubkey := metadata |};
                {| isSigner := true; isWritable := false;
                   pubkey := oldAuthority |} ];
            TransactionInstruction.data :=
              [215; 228; 166; 228; 84; 100; 86; 123] ++ repeat 0 32 |}
    /\ toBytes SystemProgram.programId = repeat 0 32
    /\ forall newAuthority : PublicKey,
         length (toBytes newAuthority) = 32%nat ->
         createUpdateAuthorityInstruction
           {| UpdateAuthorityInstructionArgs.programId := programId;
              UpdateAuthorityInstructionArgs.metadata := metadata;
              UpdateAuthorityInstructionArgs.oldAuthority := oldAuthority;
              UpdateAuthorityInstructionArgs.newAuthority :=
                Some newAuthority |}
         = Ok {| TransactionInstruction.programId := programId;
                 TransactionInstruction.keys :=
                   [ {| isSigner := false; isWritable := true;
                        pubkey := metadata |};
                     {| isSigner := true; isWritable := false;
                        pubkey := oldAuthority |} ];
                 TransactionInstruction.data :=
                   [215; 228; 166; 228; 84; 100; 86; 123]
                     ++ toBytes newAuthority |}.
Proof.
  intros programId metadata oldAuthority.
  split; [reflexivity | split; [reflexivity |]].
  intros newAuthority Hlen.
  rewrite createUpdateAuthorityInstruction_spec.
  unfold Expected.updateAuthority, Wire.updateAuthority, updateAuthorityData,
    Wire.publicKey, writable, signer.
  cbn [UpdateAuthorityInstructionArgs.programId
         UpdateAuthorityInstructionArgs.metadata
         UpdateAuthorityInstructionArgs.oldAuthority
         UpdateAuthorityInstructionArgs.newAuthority
         UpdateAuthorityData.newAuthority].
  rewrite firstn_app, Hlen, firstn_all2 by lia.
  cbn [Nat.sub firstn]. rewrite app_nil_r. reflexivity.
Qed.

Lemma update_authority_payload_witness :
  createUpdateAuthorityInstruction
    (Sample.updateAuthorityArgs (Some (Sample.key 9)))
  = Ok {| TransactionInstruction.programId := Sample.key 4;
          TransactionInstruction.keys :=
            [ writable (Sample.key 1); signer (Sample.key 5) ];
          TransactionInstruction.data :=
            [215; 228; 166; 228; 84; 100; 86; 123] ++ repeat 9 32 |}.
Proof.
  apply (proj2 (proj2 (update_authority_payload
                         (Sample.key 4) (Sample.key 1) (Sample.key 5)))
           (Sample.key 9)).
  reflexivity.
Defined.

(** ** RemoveKey *)

(** C5. [createRemoveKeyInstruction] with key ["my-key"] and
    [idempotent = true] returns an instruction whose data is the RemoveKey
    discriminator, then the byte 1 (true), then 6, 0, 0, 0 (the u32
    little-endian UTF-8 byte length of the key), then the six bytes
    'm', 'y', '-', 'k', 'e', 'y'. *)
Theorem remove_key_example :
  forall programId metadata updateAuthority : PublicKey,
    createRemoveKeyInstruction
      {| RemoveKeyInstructionArgs.programId := programId;
         RemoveKeyInstructionArgs.metadata := metadata;
         RemoveKeyInstructionArgs.updateAuthority := updateAuthority;
         RemoveKeyInstructionArgs.key := js "my-key";
         RemoveKeyInstructionArgs.idempotent := true |}
    = Ok {| TransactionInstruction.programId := programId;
            TransactionInstruction.keys :=
              [ {| isSigner := false; isWritable := true;
                   pubkey := metadata |};
                {| isSigner := true; isWritable := false;
                   pubkey := updateAuthority |} ];
            TransactionInstruction.data :=
              [234; 18; 32; 56; 89; 141; 37; 181]
                ++ [1]
                ++ [6; 0; 0; 0]
                ++ [109; 121; 45; 107; 101; 121] |}
    /\ js "my-key" = [109; 121; 45; 107; 101; 121].
Proof.
  intros programId metadata updateAuthority. split; reflexivity.
Qed.

(** ** Emit *)

(** C6. [createEmitInstruction] with [start = 5] and [end] absent returns an
    instruction whose data after the Emit discriminator is exactly
    1, 5,0,0,0,0,0,0,0, 0.  In general [start] and [end] are encoded one
    after the other, each with its own presence byte: 0 alone when absent,
    1 followed by the u64 little-endian value when present; the builder
    returns whenever each supplied value fits in 64 bits. *)
Theorem emit_optional_range :
  (forall programId metadata : PublicKey,
     createEmitInstruction
       {| EmitInstructionArgs.programId := programId;
          EmitInstructionArgs.metadata := metadata;
          EmitInstructionArgs.start := Some 5;
          EmitInstructionArgs.end_ := None |}
     = Ok {| TransactionInstruction.programId := programId;
             TransactionInstruction.keys :=
               [ {| isSigner := false; isWritable := false;
                    pubkey := metadata |} ];
             TransactionInstruction.data :=
               [250; 166; 180; 250; 13; 12; 184; 70]
                 ++ [1; 5; 0; 0; 0; 0; 0; 0; 0; 0] |})
  /\ (forall (args : EmitInstructionArgs.t) (ix : TransactionInstruction.t),
        createEmitInstruction args = Ok ix ->
        TransactionInstruction.data ix
        = [250; 166; 180; 250; 13; 12; 184; 70]
            ++ match EmitInstructionArgs.start args with
               | None => [0]
               | Some v => 1 :: Wire.u64 v
               end
            ++ match EmitInstructionArgs.end_ args with
               | None => [0]
               | Some v => 1 :: Wire.u64 v
               end)
  /\ (forall args : EmitInstructionArgs.t,
        (forall v, EmitInstructionArgs.start args = Some v ->
                   0 <= v < 2 ^ 64) ->
        (forall v, EmitInstructionArgs.end_ args = Some v ->
                   0 <= v < 2 ^ 64) ->
        exists ix, createEmitInstruction args = Ok ix).
Proof.
  split; [intros; reflexivity | split].
  - intros args ix Hix.
    destruct (createEmitInstruction_spec args) as [Hyes Hno].
    destruct (spec_Ok_inv Hyes Hno Hix) as [_ ->]. reflexivity.
  - intros args Hstart Hend.
    destruct (createEmitInstruction_spec args) as [Hyes _].
    exists (Expected.emit args). apply Hyes.
    unfold Accepts.emit, emitData, Accepts.option, Accepts.u64, Accepts.range.
    cbn [EmitData.start EmitData.end_].
    apply andb_true_intro. split.
    + destruct (EmitInstructionArgs.start args) as [v |]; [| reflexivity].
      specialize (Hstart v eq_refl).
      apply andb_true_intro. split; [apply Z.leb_le | apply Z.leb_le]; lia.
    + destruct (EmitInstructionArgs.end_ args) as [v |]; [| reflexivity].
      specialize (Hend v eq_refl).
      apply andb_true_intro. split; [apply Z.leb_le | apply Z.leb_le]; lia.
Qed.

Lemma emit_optional_range_witness :
  createEmitInstruction Sample.emitArgs = Ok (Expected.emit Sample.emitArgs)
  /\ TransactionInstruction.data (Expected.emit Sample.emitArgs)
     = [250; 166; 180; 250; 13; 12; 184; 70]
         ++ [1; 5; 0; 0; 0; 0; 0; 0; 0] ++ [0].
Proof.
  assert (Hix : createEmitInstruction Sample.emitArgs
                = Ok (Expected.emit Sample.emitArgs)) by reflexivity.
  split; [exact Hix |].
  rewrite (proj1 (proj2 emit_optional_range) Sample.emitArgs _ Hix).
  reflexivity.
Defined.

(** ** Public keys *)




(** ** Reading the payload back *)

(** C7, as the code has it.  For every builder and every argument record
    with integer numbers on which the builder returns (it does whenever
    every number, string byte length and creator count is in the range of
    its field, and for UpdateField the Field codec returns), decoding the
    bytes after the discriminator with the codec library's decoders for the
    same struct layout consumes them all and gives back the values the
    builder handed to its encoder: the argument's fields, where an empty or
    omitted creators list is absent, an omitted sellerFeeBasisPoints is 0, an
    omitted or null collection, uses, start or end is absent, a null
    newAuthority is the system program's key and the field is
    [getFieldConfig(field)].  This holds when every string is well-formed
    UTF-16, holds no U+0000 and does not start with U+FEFF, when every key
    has 32 bytes, and for UpdateField when the Field decoder reads the Field
    bytes back.  Every optional value on its own is written and read back as
    it was: absent as absent, present(v) as present(v). *)
Theorem decoding_reads_back_encoded_payload :
  (forall args : InitializeInstructionArgs.t,
     Decoders.keepsInitialize (initializeData args) = true ->
     (Accepts.initialize (initializeData args) = true ->
      exists ix, createInitializeInstruction args = Ok ix)
     /\ forall ix,
          createInitializeInstruction args = Ok ix ->
          Decoders.initialize (skipn 8 (TransactionInstruction.data ix))
          = Some (initializeData args, []))
  /\ (forall (Field FieldLayout : Type) (kind : FieldLayout -> string)
             (getFieldCodec : list (string * Encoder FieldLayout))
             (getFieldConfig : Field + JsString -> FieldLayout)
             (fieldDecoder : Decoders.Decoder FieldLayout)
             (args : UpdateFieldInstruction.t Field),
        Decoders.keepsString (UpdateFieldInstruction.value args) = true ->
        (forall fieldBytes rest,
           getDataEnumCodec kind getFieldCodec
             (getFieldConfig (UpdateFieldInstruction.field args))
           = Ok fieldBytes ->
           fieldDecoder (fieldBytes ++ rest)
           = Some (getFieldConfig (UpdateFieldInstruction.field args), rest)) ->
        (forall fieldBytes,
           getDataEnumCodec kind getFieldCodec
             (getFieldConfig (UpdateFieldInstruction.field args))
           = Ok fieldBytes ->
           Accepts.string (UpdateFieldInstruction.value args) = true ->
           exists ix,
             createUpdateFieldInstruction kind getFieldCodec getFieldConfig
               args = Ok ix)
        /\ forall ix,
             createUpdateFieldInstruction kind getFieldCodec getFieldConfig
               args = Ok ix ->
             Decoders.updateField fieldDecoder
               (skipn 8 (TransactionInstruction.data ix))
             = Some ({| UpdateFieldData.field :=
                          getFieldConfig (UpdateFieldInstruction.field args);
                        UpdateFieldData.value :=
                          UpdateFieldInstruction.value args |}, []))
  /\ (forall args : RemoveKeyInstructionArgs.t,
        Decoders.keepsString (RemoveKeyInstructionArgs.key args) = true ->
        (Accepts.string (RemoveKeyInstructionArgs.key args) = true ->
         exists ix, createRemoveKeyInstruction args = Ok ix)
        /\ forall ix,
             createRemoveKeyInstruction args = Ok ix ->
             Decoders.removeKey (skipn 8 (TransactionInstruction.data ix))
             = Some ({| RemoveKeyData.idempotent :=
                          RemoveKeyInstructionArgs.idempotent args;
                        RemoveKeyData.key :=
                          RemoveKeyInstructionArgs.key args |}, []))
  /\ (forall args : UpdateAuthorityInstructionArgs.t,
        (forall k, UpdateAuthorityInstructionArgs.newAuthority args = Some k ->
                   length (toBytes k) = 32%nat) ->
        exists ix,
          createUpdateAuthorityInstruction args = Ok ix
          /\ Decoders.updateAuthority
               (skipn 8 (TransactionInstruction.data ix))
             = Some ({| UpdateAuthorityData.newAuthority :=
                          match UpdateAuthorityInstructionArgs.newAuthority
                                  args with
                          | Some k => k
                          | None => SystemProgram.programId
                          end |}, []))
  /\ (forall args : EmitInstructionArgs.t,
        (Accepts.emit (emitData args) = true ->
         exists ix, createEmitInstruction args = Ok ix)
        /\ forall ix,
             createEmitInstruction args = Ok ix ->
             Decoders.emit (skipn 8 (TransactionInstruction.data ix))
             = Some ({| EmitData.start := EmitInstructionArgs.start args;
                        EmitData.end_ := EmitInstructionArgs.end_ args |},
                     []))
  /\ (forall (T : Type) (item : Encoder T) (itemDecoder : Decoders.Decoder T),
        (forall rest,
           getOptionEncoder item None = Ok [0]
           /\ Decoders.getOptionDecoder itemDecoder ([0] ++ rest)
              = Some (None, rest))
        /\ forall v itemBytes rest,
             item v = Ok itemBytes ->
             itemDecoder (itemBytes ++ rest) = Some (v, rest) ->
             getOptionEncoder item (Some v) = Ok (1 :: itemBytes)
             /\ Decoders.getOptionDecoder itemDecoder
                  ((1 :: itemBytes) ++ rest)
                = Some (Some v, rest)).
Proof.
  split; [| split; [| split; [| split; [| split]]]].
  - intros args Hkeeps.
    destruct (createInitializeInstruction_spec args) as [Hyes Hno].
    split; [intros Hacc; eexists; exact (Hyes Hacc) |].
    intros ix Hix.
    destruct (spec_Ok_inv Hyes Hno Hix) as [Hacc ->].
    cbn [Expected.initialize TransactionInstruction.data
           Discriminator.initialize skipn app].
    rewrite <- (app_nil_r (Wire.initialize (initializeData args))).
    apply Inverts_initialize_decoder. split; assumption.
  - intros Field FieldLayout kind getFieldCodec getFieldConfig fieldDecoder
      args Hkeeps Hfield.
    split.
    { intros fieldBytes Henc Hacc. eexists.
      apply createUpdateFieldInstruction_accepts; eassumption. }
    intros ix Hix.
    destruct (createUpdateFieldInstruction_Ok_inv _ _ _ _ Hix)
      as (fieldBytes & Henc & Hacc & ->).
    cbn [Expected.updateField TransactionInstruction.data
           Discriminator.updateField skipn app].
    unfold Decoders.updateField. unfold Decode.andThen at 1.
    rewrite (Hfield fieldBytes _ Henc).
    rewrite <- (app_nil_r (Wire.string (UpdateFieldInstruction.value args))).
    rewrite (andThen_Inverts _ _ _ Inverts_getStringDecoder)
      by (split; assumption).
    reflexivity.
  - intros args Hkeeps.
    destruct (createRemoveKeyInstruction_spec args) as [Hyes Hno].
    split; [intros Hacc; eexists; exact (Hyes Hacc) |].
    intros ix Hix.
    destruct (spec_Ok_inv Hyes Hno Hix) as [Hacc ->].
    cbn [Expected.removeKey TransactionInstruction.data
           Discriminator.removeKey skipn app].
    rewrite <- (app_nil_r (Wire.removeKey (removeKeyData args))).
    apply Inverts_removeKey_decoder. split; assumption.
  - intros args Hkey.
    exists (Expected.updateAuthority args).
    split; [apply createUpdateAuthorityInstruction_spec |].
    cbn [Expected.updateAuthority TransactionInstruction.data
           Discriminator.updateAuthority skipn app].
    rewrite <- (app_nil_r (Wire.updateAuthority (updateAuthorityData args))).
    apply Inverts_updateAuthority_decoder.
    unfold updateAuthorityData, Readable.publicKey.
    cbn [UpdateAuthorityData.newAuthority].
    destruct (UpdateAuthorityInstructionArgs.newAuthority args) as [k |].
    + rewrite (Hkey k eq_refl). reflexivity.
    + reflexivity.
  - intros args.
    destruct (createEmitInstruction_spec args) as [Hyes Hno].
    split; [intros Hacc; eexists; exact (Hyes Hacc) |].
    intros ix Hix.
    destruct (spec_Ok_inv Hyes Hno Hix) as [Hacc ->].
    cbn [Expected.emit TransactionInstruction.data Discriminator.emit
           skipn app].
    rewrite <- (app_nil_r (Wire.emit (emitData args))).
    apply Inverts_emit_decoder. exact Hacc.
  - intros T item itemDecoder. split.
    + intros rest. split; reflexivity.
    + intros v itemBytes rest Hitem Hdecoder. split.
      * unfold getOptionEncoder, transformEncoder, getTupleEncoder.
        cbn [fst snd].
        change (getBooleanEncoder true) with (@Ok bytes [1]).
        cbn [bind]. rewrite Hitem. reflexivity.
      * unfold Decoders.getOptionDecoder.
        change ((1 :: itemBytes) ++ rest)
          with (Wire.bool true ++ itemBytes ++ rest).
        rewrite (andThen_Inverts _ _ _ Inverts_getBooleanDecoder) by exact I.
        unfold Decode.andThen. rewrite Hdecoder. reflexivity.
Qed.

Lemma decoding_reads_back_encoded_payload_witness :
  (exists ix,
     createInitializeInstruction Sample.initializeArgs = Ok ix
     /\ Decoders.initialize (skipn 8 (TransactionInstruction.data ix))
        = Some ({| InitializeData.name := js "Token";
                   InitializeData.symbol := js "TKN";
                   InitializeData.uri := js "https://example.org/t.json";
                   InitializeData.seller_fee_basis_points := 500;
                   InitializeData.creators :=
                     Some [Sample.creatorA; Sample.creatorB; Sample.creatorC];
                   InitializeData.collection :=
                     Some {| Collection.key := Sample.key 20;
                             Collection.verified := true |};
                   InitializeData.uses :=
                     Some {| Uses.use_method := 1; Uses.remaining := 3;
                             Uses.total := 5 |} |}, []))
  /\ (exists ix,
        createUpdateFieldInstruction Sample.kind Sample.getFieldCodec
          Sample.getFieldConfig Sample.updateFieldArgs = Ok ix
        /\ Decoders.updateField MoreSamples.fieldDecoder
             (skipn 8 (TransactionInstruction.data ix))
           = Some ({| UpdateFieldData.field := Sample.LKey (js "colour");
                      UpdateFieldData.value := js "blue" |}, []))
  /\ (exists ix,
        createRemoveKeyInstruction Sample.removeKeyArgs = Ok ix
        /\ Decoders.removeKey (skipn 8 (TransactionInstruction.data ix))
           = Some ({| RemoveKeyData.idempotent := true;
                      RemoveKeyData.key := js "my-key" |}, []))
  /\ (exists ix,
        createUpdateAuthorityInstruction (Sample.updateAuthorityArgs None)
        = Ok ix
        /\ Decoders.updateAuthority (skipn 8 (TransactionInstruction.data ix))
           = Some ({| UpdateAuthorityData.newAuthority :=
                        SystemProgram.programId |}, []))
  /\ (exists ix,
        createEmitInstruction Sample.emitArgs = Ok ix
        /\ Decoders.emit (skipn 8 (TransactionInstruction.data ix))
           = Some ({| EmitData.start := Some 5; EmitData.end_ := None |}, [])).
Proof.
  destruct decoding_reads_back_encoded_payload
    as (Hinitialize & HupdateField & HremoveKey & HupdateAuthority & Hemit
        & _).
  split; [| split; [| split; [| split]]].
  - destruct (Hinitialize Sample.initializeArgs) as [Hreturns Hreads];
      [vm_compute; reflexivity |].
    destruct Hreturns as [ix Hix]; [vm_compute; reflexivity |].
    exists ix. split; [exact Hix | exact (Hreads ix Hix)].
  - destruct (HupdateField Sample.Field Sample.FieldLayout Sample.kind
                Sample.getFieldCodec Sample.getFieldConfig
                MoreSamples.fieldDecoder Sample.updateFieldArgs)
      as [Hreturns Hreads].
    + vm_compute. reflexivity.
    + intros fieldBytes rest Henc.
      assert (Hbytes : fieldBytes = [1; 6; 0; 0; 0; 99; 111; 108; 111; 117; 114]).
      { assert (Hrun : getDataEnumCodec Sample.kind Sample.getFieldCodec
                         (Sample.getFieldConfig
                            (UpdateFieldInstruction.field
                               Sample.updateFieldArgs))
                       = Ok [1; 6; 0; 0; 0; 99; 111; 108; 111; 117; 114])
          by (vm_compute; reflexivity).
        rewrite Hrun in Henc. inversion Henc. reflexivity. }
      rewrite Hbytes. vm_compute. reflexivity.
    + destruct (Hreturns [1; 6; 0; 0; 0; 99; 111; 108; 111; 117; 114])
        as [ix Hix]; [vm_compute; reflexivity | vm_compute; reflexivity |].
      exists ix. split; [exact Hix | exact (Hreads ix Hix)].
  - destruct (HremoveKey Sample.removeKeyArgs) as [Hreturns Hreads];
      [vm_compute; reflexivity |].
    destruct Hreturns as [ix Hix]; [vm_compute; reflexivity |].
    exists ix. split; [exact Hix | exact (Hreads ix Hix)].
  - destruct (HupdateAuthority (Sample.updateAuthorityArgs None))
      as (ix & Hix & Hreads); [intros k Hk; discriminate Hk |].
    exists ix. split; [exact Hix | exact Hreads].
  - destruct (Hemit Sample.emitArgs) as [Hreturns Hreads].
    destruct Hreturns as [ix Hix]; [vm_compute; reflexivity |].
    exists ix. split; [exact Hix | exact (Hreads ix Hix)].
Defined.

(** C7, as stated, fails: the argument record cannot be recovered from the
    bytes.  An absent [newAuthority] and the system program's key give the
    same instruction, and the decoder answers the key; an empty creators
    list and an omitted one give the same instruction; so no decoder at all
    returns the original [newAuthority], or the original [creators], for
    every argument record.  Nor is every string read back: a key string made
    of a lone surrogate and one made of U+FFFD give the same instruction,
    and the decoder answers U+FFFD; the library's string decoder drops every
    U+0000 and a U+FEFF at the start. *)
Lemma arguments_are_not_read_back :
  createUpdateAuthorityInstruction (Sample.updateAuthorityArgs None)
  = createUpdateAuthorityInstruction
      (Sample.updateAuthorityArgs (Some SystemProgram.programId))
  /\ (exists ix,
        createUpdateAuthorityInstruction (Sample.updateAuthorityArgs None)
        = Ok ix
        /\ Decoders.updateAuthority (skipn 8 (TransactionInstruction.data ix))
           = Some ({| UpdateAuthorityData.newAuthority :=
                        SystemProgram.programId |}, []))
  /\ createRemoveKeyInstruction (Sample.removeKeyWith [55296])
     = createRemoveKeyInstruction (Sample.removeKeyWith [65533])
  /\ (exists ix,
        createRemoveKeyInstruction (Sample.removeKeyWith [55296]) = Ok ix
        /\ Decoders.removeKey (skipn 8 (TransactionInstruction.data ix))
           = Some ({| RemoveKeyData.idempotent := true;
                      RemoveKeyData.key := [65533] |}, []))
  /\ (exists ix,
        createRemoveKeyInstruction (Sample.removeKeyWith [97; 0; 98]) = Ok ix
        /\ Decoders.removeKey (skipn 8 (TransactionInstruction.data ix))
           = Some ({| RemoveKeyData.idempotent := true;
                      RemoveKeyData.key := [97; 98] |}, []))
  /\ (exists ix,
        createRemoveKeyInstruction (Sample.removeKeyWith [65279; 97]) = Ok ix
        /\ Decoders.removeKey (skipn 8 (TransactionInstruction.data ix))
           = Some ({| RemoveKeyData.idempotent := true;
                      RemoveKeyData.key := [97] |}, []))
  /\ ~ (exists decoder : bytes -> option (option PublicKey),
          forall args ix,
            createUpdateAuthorityInstruction args = Ok ix ->
            decoder (skipn 8 (TransactionInstruction.data ix))
            = Some (UpdateAuthorityInstructionArgs.newAuthority args))
  /\ ~ (exists decoder : bytes -> option (option (list Creator.t)),
          forall args ix,
            createInitializeInstruction args = Ok ix ->
            decoder (skipn 8 (TransactionInstruction.data ix))
            = Some (InitializeInstructionArgs.creators args))
  /\ ~ (exists decoder : bytes -> option JsString,
          forall args ix,
            createRemoveKeyInstruction args = Ok ix ->
            decoder (skipn 8 (TransactionInstruction.data ix))
            = Some (RemoveKeyInstructionArgs.key args)).
Proof.
  split; [reflexivity |].
  split; [eexists; split; [reflexivity | vm_compute; reflexivity] |].
  split; [reflexivity |].
  split; [eexists; split; [reflexivity | vm_compute; reflexivity] |].
  split; [eexists; split; [reflexivity | vm_compute; reflexivity] |].
  split; [eexists; split; [reflexivity | vm_compute; reflexivity] |].
  split; [| split].
  - intros [decoder Hdecoder].
    pose proof (Hdecoder (Sample.updateAuthorityArgs None) _
                  (createUpdateAuthorityInstruction_spec _)) as Hnone.
    pose proof (Hdecoder
                  (Sample.updateAuthorityArgs (Some SystemProgram.programId))
                  _ (createUpdateAuthorityInstruction_spec _)) as Hsome.
    cbn in Hnone, Hsome. rewrite Hnone in Hsome. discriminate Hsome.
  - intros [decoder Hdecoder].
    assert (Hempty :
              createInitializeInstruction
                (withCreators (Some []) Sample.initializeArgs)
              = Ok (Expected.initialize
                      (withCreators None Sample.initializeArgs)))
      by (vm_compute; reflexivity).
    assert (Habsent :
              createInitializeInstruction
                (withCreators None Sample.initializeArgs)
              = Ok (Expected.initialize
                      (withCreators None Sample.initializeArgs)))
      by (vm_compute; reflexivity).
    apply Hdecoder in Hempty, Habsent.
    rewrite Hempty in Habsent. discriminate Habsent.
  - intros [decoder Hdecoder].
    assert (Hlone :
              createRemoveKeyInstruction (Sample.removeKeyWith [55296])
              = Ok (Expected.removeKey (Sample.removeKeyWith [65533])))
      by (vm_compute; reflexivity).
    assert (Hmark :
              createRemoveKeyInstruction (Sample.removeKeyWith [65533])
              = Ok (Expected.removeKey (Sample.removeKeyWith [65533])))
      by (vm_compute; reflexivity).
    apply Hdecoder in Hlone, Hmark.
    rewrite Hlone in Hmark. discriminate Hmark.
Qed.

(** * Further properties of the builders *)

(** ** When a builder returns *)

Lemma returns_iff {A : Type} (accepted : bool) (r : Result A) (expected : A) :
  (accepted = true -> r = Ok expected) ->
  (accepted = false -> exists e, r = Throw e) ->
  ((exists a, r = Ok a) <-> accepted = true).
Proof.
  intros Hyes Hno. split.
  - intros [a Ha]. apply (spec_Ok_inv Hyes Hno Ha).
  - intros Hacc. exists expected. apply Hyes, Hacc.
Qed.

Lemma range_iff lo hi v : Accepts.range lo hi v = true <-> lo <= v <= hi.
Proof.
  unfold Accepts.range. rewrite andb_true_iff, !Z.leb_le. reflexivity.
Qed.

Lemma Accepts_creators_iff (l : list Creator.t) :
  forallb Accepts.creator l = true
  <-> Forall (fun c => 0 <= Creator.share c <= 255) l.
Proof.
  rewrite forallb_forall, Forall_forall.
  split; intros H c Hc; apply (range_iff 0 255), H, Hc.
Qed.

Lemma Accepts_uses_iff (u : Uses.t) :
  Accepts.uses u = true
  <-> 0 <= Uses.use_method u <= 255
      /\ 0 <= Uses.remaining u <= 18446744073709551615
      /\ 0 <= Uses.total u <= 18446744073709551615.
Proof.
  unfold Accepts.uses, Accepts.u8, Accepts.u64.
  rewrite !andb_true_iff, !range_iff. tauto.
Qed.

(** X1. On an argument record whose numbers are integers,
    [createInitializeInstruction] returns an instruction exactly when every
    number is in the range of its field: the UTF-8 byte length of each
    of the three strings and the number of creators fit in 32 bits, the
    seller fee (0 when left out) is within 0..65535, every creator's share is
    within 0..255, and a supplied [uses] has [use_method] within 0..255 and
    [remaining] and [total] within 64 bits. *)
Theorem initialize_returns_iff_in_range :
  forall args : InitializeInstructionArgs.t,
    let creators :=
      match InitializeInstructionArgs.creators args with
      | Some l => l
      | None => []
      end in
    let fee :=
      match InitializeInstructionArgs.sellerFeeBasisPoints args with
      | Some f => f
      | None => 0
      end in
    (exists ix, createInitializeInstruction args = Ok ix)
    <-> Z.of_nat (length (TextEncoder_encode
                             (InitializeInstructionArgs.name args)))
         <= 4294967295
         /\ Z.of_nat (length (TextEncoder_encode
                                (InitializeInstructionArgs.symbol args)))
            <= 4294967295
         /\ Z.of_nat (length (TextEncoder_encode
                                (InitializeInstructionArgs.uri args)))
            <= 4294967295
         /\ 0 <= fee <= 65535
         /\ Z.of_nat (length creators) <= 4294967295
         /\ Forall (fun c => 0 <= Creator.share c <= 255) creators
         /\ (forall u,
               InitializeInstructionArgs.uses args = Some (Some u) ->
               0 <= Uses.use_method u <= 255
               /\ 0 <= Uses.remaining u <= 18446744073709551615
               /\ 0 <= Uses.total u <= 18446744073709551615).
Proof.
  intros args creators fee.
  destruct (createInitializeInstruction_spec args) as [Hyes Hno].
  { rewrite (returns_iff Hyes Hno).
    unfold Accepts.initialize, initializeData, Accepts.string, Accepts.u16,
      Accepts.u32.
    cbn [InitializeData.name InitializeData.symbol InitializeData.uri
           InitializeData.seller_fee_basis_points InitializeData.creators
           InitializeData.uses].
    rewrite !andb_true_iff, !range_iff. fold fee. unfold Wire.utf8.
    assert (Hcreators :
              Accepts.option (Accepts.array Accepts.creator)
                match InitializeInstructionArgs.creators args with
                | Some (c :: l) => Some (c :: l)
                | _ => None
                end = true
              <-> Z.of_nat (length creators) <= 4294967295
                  /\ Forall (fun c => 0 <= Creator.share c <= 255) creators).
    { subst creators.
      destruct (InitializeInstructionArgs.creators args) as [[| c l] |];
        cbn [Accepts.option].
      - split; [intros _; split; [cbn; lia | constructor] | reflexivity].
      - unfold Accepts.array, Accepts.u32.
        rewrite andb_true_iff, range_iff, Accepts_creators_iff.
        split; intros [H1 H2]; (split; [lia | exact H2]).
      - split; [intros _; split; [cbn; lia | constructor] | reflexivity]. }
    assert (Huses :
              Accepts.option Accepts.uses
                match InitializeInstructionArgs.uses args with
                | Some (Some u) => Some u
                | _ => None
                end = true
              <-> forall u,
                    InitializeInstructionArgs.uses args = Some (Some u) ->
                    0 <= Uses.use_method u <= 255
                    /\ 0 <= Uses.remaining u <= 18446744073709551615
                    /\ 0 <= Uses.total u <= 18446744073709551615).
    { destruct (InitializeInstructionArgs.uses args) as [[u |] |];
        cbn [Accepts.option].
      - rewrite Accepts_uses_iff. split.
        + intros H u' Hu'. inversion Hu'. subst u'. exact H.
        + intros H. apply H. reflexivity.
      - split; [intros _ u Hu; discriminate Hu | reflexivity].
      - split; [intros _ u Hu; discriminate Hu | reflexivity]. }
    rewrite Hcreators, Huses.
    pose proof (Nat2Z.is_nonneg
                  (length (TextEncoder_encode
                             (InitializeInstructionArgs.name args)))).
    pose proof (Nat2Z.is_nonneg
                  (length (TextEncoder_encode
                             (InitializeInstructionArgs.symbol args)))).
    pose proof (Nat2Z.is_nonneg
                  (length (TextEncoder_encode
                             (InitializeInstructionArgs.uri args)))).
    tauto. }
Qed.

(** X2. When the three strings fit, a supplied [sellerFeeBasisPoints] outside
    0..65535 makes [createInitializeInstruction] throw the u16 encoder's
    range error carrying that value, whatever the later fields hold. *)
Theorem initialize_fee_out_of_range_throws :
  forall (args : InitializeInstructionArgs.t) (fee : Z),
    InitializeInstructionArgs.sellerFeeBasisPoints args = Some fee ->
    fee < 0 \/ 65535 < fee ->
    Accepts.string (InitializeInstructionArgs.name args) = true ->
    Accepts.string (InitializeInstructionArgs.symbol args) = true ->
    Accepts.string (InitializeInstructionArgs.uri args) = true ->
    createInitializeInstruction args
    = Throw (NumberOutOfRange "u16" 0 65535 fee).
Proof.
  intros args fee Hfee Hrange Hname Hsymbol Huri.
  unfold createInitializeInstruction. cbv zeta. rewrite initialize_payload.
  unfold getInstructionEncoder, transformEncoder, getTupleEncoder,
    getBytesEncoder.
  cbn [fst snd bind].
  cbn [getStructEncoder field].
  unfold initializeData at 1 2 3 4.
  cbn [InitializeData.name InitializeData.symbol InitializeData.uri
         InitializeData.seller_fee_basis_points].
  rewrite (proj1 (Implements_string _) Hname). cbn [bind].
  rewrite (proj1 (Implements_string _) Hsymbol). cbn [bind].
  rewrite (proj1 (Implements_string _) Huri). cbn [bind].
  rewrite Hfee. unfold getU16Encoder, numberEncoder.
  destruct (Z.ltb_spec fee 0), (Z.ltb_spec 65535 fee);
    try (exfalso; lia); reflexivity.
Qed.

Lemma initialize_fee_out_of_range_throws_witness :
  createInitializeInstruction (MoreSamples.initializeWithFee 70000)
  = Throw (NumberOutOfRange "u16" 0 65535 70000).
Proof.
  apply (initialize_fee_out_of_range_throws
           (MoreSamples.initializeWithFee 70000) (fee := 70000)).
  - reflexivity.
  - right. lia.
  - reflexivity.
  - reflexivity.
  - reflexivity.
Defined.

(** X3. [createEmitInstruction] returns an instruction exactly when each
    supplied bound is within 0..2^64-1.  A [start] outside that range
    throws the u64 encoder's range error carrying [start]; with [start]
    absent or in range, an [end] outside it throws the error carrying
    [end]. *)
Theorem emit_returns_iff_in_range :
  forall args : EmitInstructionArgs.t,
    ((exists ix, createEmitInstruction args = Ok ix)
     <-> (forall v, EmitInstructionArgs.start args = Some v ->
                    0 <= v <= 18446744073709551615)
         /\ (forall v, EmitInstructionArgs.end_ args = Some v ->
                       0 <= v <= 18446744073709551615))
    /\ (forall v,
          EmitInstructionArgs.start args = Some v ->
          v < 0 \/ 18446744073709551615 < v ->
          createEmitInstruction args
          = Throw (NumberOutOfRange "u64" 0 18446744073709551615 v))
    /\ (forall v,
          (forall s, EmitInstructionArgs.start args = Some s ->
                     0 <= s <= 18446744073709551615) ->
          EmitInstructionArgs.end_ args = Some v ->
          v < 0 \/ 18446744073709551615 < v ->
          createEmitInstruction args
          = Throw (NumberOutOfRange "u64" 0 18446744073709551615 v)).
Proof.
  intros args. split; [| split].
  - destruct (createEmitInstruction_spec args) as [Hyes Hno].
    rewrite (returns_iff Hyes Hno).
    unfold Accepts.emit, emitData, Accepts.u64.
    cbn [EmitData.start EmitData.end_].
    rewrite andb_true_iff.
    destruct (EmitInstructionArgs.start args) as [s |],
      (EmitInstructionArgs.end_ args) as [e |];
      cbn [Accepts.option]; rewrite ?range_iff;
      split; intros H;
      repeat match goal with
             | H : _ /\ _ |- _ => destruct H
             | |- _ /\ _ => split
             | |- forall v, Some _ = Some v -> _ =>
                 let v := fresh "v" in
                 let E := fresh "E" in
                 intros v E; inversion E; subst v
             | |- forall v, None = Some v -> _ =>
                 intros ? E; discriminate E
             | H : forall v, Some ?x = Some v -> _ |- _ =>
                 specialize (H x eq_refl)
             end; try reflexivity; try assumption; try lia.
  - intros v Hstart Hrange.
    unfold createEmitInstruction, getInstructionEncoder, transformEncoder,
      getTupleEncoder, getBytesEncoder.
    cbn [fst snd bind getStructEncoder field EmitData.start EmitData.end_].
    rewrite Hstart.
    cbn [nullable getOptionEncoder transformEncoder getTupleEncoder
           getBooleanEncoder getU8Encoder numberEncoder fst snd bind].
    unfold transformEncoder, getTupleEncoder.
    cbn [fst snd getBooleanEncoder transformEncoder].
    unfold getBooleanEncoder, transformEncoder, getU8Encoder, getU64Encoder,
      numberEncoder.
    cbn [Z.ltb Z.compare orb bind Pos.compare Pos.compare_cont].
    destruct (Z.ltb_spec v 0), (Z.ltb_spec 18446744073709551615 v);
      try (exfalso; lia); reflexivity.
  - intros v Hstart Hend Hrange.
    unfold createEmitInstruction, getInstructionEncoder, transformEncoder,
      getTupleEncoder, getBytesEncoder.
    cbn [fst snd bind getStructEncoder field EmitData.start EmitData.end_].
    rewrite Hend.
    assert (Hs : exists bs,
               getOptionEncoder getU64Encoder
                 (nullable (EmitInstructionArgs.start args)) = Ok bs).
    { destruct (Implements_option Implements_u64
                  (nullable (EmitInstructionArgs.start args))) as [Hyes _].
      eexists. apply Hyes.
      destruct (EmitInstructionArgs.start args) as [s |];
        cbn [nullable Accepts.option]; [| reflexivity].
      apply range_iff. apply Hstart. reflexivity. }
    destruct Hs as [bs Hbs]. rewrite Hbs. cbn [bind].
    cbn [nullable getOptionEncoder].
    unfold transformEncoder, getTupleEncoder.
    cbn [fst snd].
    unfold getBooleanEncoder, transformEncoder, getU8Encoder, getU64Encoder,
      numberEncoder.
    cbn [Z.ltb Z.compare orb bind Pos.compare Pos.compare_cont].
    destruct (Z.ltb_spec v 0), (Z.ltb_spec 18446744073709551615 v);
      try (exfalso; lia); reflexivity.
Qed.

Lemma emit_returns_iff_in_range_witness :
  createEmitInstruction (MoreSamples.emitWith (Some (-1)) None)
  = Throw (NumberOutOfRange "u64" 0 18446744073709551615 (-1))
  /\ createEmitInstruction (MoreSamples.emitWith None (Some (2 ^ 64)))
     = Throw (NumberOutOfRange "u64" 0 18446744073709551615 (2 ^ 64)).
Proof.
  split.
  - apply (proj1 (proj2 (emit_returns_iff_in_range
                           (MoreSamples.emitWith (Some (-1)) None)))
             (-1)).
    + reflexivity.
    + left. lia.
  - apply (proj2 (proj2 (emit_returns_iff_in_range
                           (MoreSamples.emitWith None (Some (2 ^ 64)))))
             (2 ^ 64)).
    + intros s Hs. discriminate Hs.
    + reflexivity.
    + right. lia.
Defined.

(** ** Strings *)

Lemma length_utf8_of_code_point (cp : Z) :
  (1 <= length (utf8_of_code_point cp) <= 4)%nat
  /\ (cp < 65536 -> (length (utf8_of_code_point cp) <= 3)%nat).
Proof.
  unfold utf8_of_code_point.
  destruct (Z.ltb_spec cp 128); [cbn; lia |].
  destruct (Z.ltb_spec cp 2048); [cbn; lia |].
  destruct (Z.ltb_spec cp 65536); cbn; lia.
Qed.

Lemma TextEncoder_encode_cons2 (c d : Z) (s : JsString) :
  TextEncoder_encode (c :: d :: s)
  = if is_high_surrogate c
    then if is_low_surrogate d
         then utf8_of_code_point (65536 + (c - 55296) * 1024 + (d - 56320))
                ++ TextEncoder_encode s
         else utf8_of_code_point 65533 ++ TextEncoder_encode (d :: s)
    else if is_low_surrogate c
         then utf8_of_code_point 65533 ++ TextEncoder_encode (d :: s)
         else utf8_of_code_point c ++ TextEncoder_encode (d :: s).
Proof. reflexivity. Qed.

Lemma TextEncoder_encode_cons1 (c : Z) :
  TextEncoder_encode [c]
  = if is_high_surrogate c then utf8_of_code_point 65533
    else if is_low_surrogate c then utf8_of_code_point 65533 ++ []
    else utf8_of_code_point c ++ [].
Proof. reflexivity. Qed.

Lemma length_TextEncoder_encode_step :
  forall s,
    (Forall (fun c => c < 65536) s ->
     (length s <= length (TextEncoder_encode s) <= 3 * length s)%nat)
    /\ (forall c,
          Forall (fun c => c < 65536) (c :: s) ->
          (length (c :: s) <= length (TextEncoder_encode (c :: s))
           <= 3 * length (c :: s))%nat).
Proof.
  induction s as [| d s [IHs IHcons]].
  - split; [intros _; cbn; lia |].
    intros c Hall. inversion Hall as [| c' l Hc _]; subst.
    rewrite TextEncoder_encode_cons1.
    destruct (length_utf8_of_code_point c) as [Hc4 Hc3].
    specialize (Hc3 Hc).
    destruct (is_high_surrogate c); [cbn; lia |].
    destruct (is_low_surrogate c); [cbn; lia |].
    rewrite app_nil_r. cbn [length]. lia.
  - split; [apply IHcons |].
    intros c Hall. inversion Hall as [| c' l Hc Hrest]; subst.
    specialize (IHcons d Hrest).
    assert (Hs : Forall (fun c => c < 65536) s)
      by (inversion Hrest; assumption).
    specialize (IHs Hs).
    rewrite TextEncoder_encode_cons2.
    destruct (length_utf8_of_code_point c) as [Hc4 Hc3].
    specialize (Hc3 Hc).
    assert (Hreplacement : length (utf8_of_code_point 65533) = 3%nat)
      by reflexivity.
    cbn [length] in *.
    destruct (is_high_surrogate c) eqn:Hhigh;
      [destruct (is_low_surrogate d) eqn:Hlow | destruct (is_low_surrogate c)];
      rewrite length_app; try lia.
    assert (Hpair :
              length (utf8_of_code_point
                        (65536 + (c - 55296) * 1024 + (d - 56320))) = 4%nat).
    { unfold is_high_surrogate in Hhigh. unfold is_low_surrogate in Hlow.
      apply andb_prop in Hhigh, Hlow.
      destruct Hhigh as [Hh1 Hh2], Hlow as [Hl1 Hl2].
      apply Z.leb_le in Hh1, Hl1. apply Z.ltb_lt in Hh2, Hl2.
      unfold utf8_of_code_point.
      destruct (Z.ltb_spec (65536 + (c - 55296) * 1024 + (d - 56320)) 128);
        [lia |].
      destruct (Z.ltb_spec (65536 + (c - 55296) * 1024 + (d - 56320)) 2048);
        [lia |].
      destruct (Z.ltb_spec (65536 + (c - 55296) * 1024 + (d - 56320)) 65536);
        [lia |].
      reflexivity. }
    lia.
Qed.

Lemma length_TextEncoder_encode (s : JsString) :
  Forall (fun c => c < 65536) s ->
  (length s <= length (TextEncoder_encode s) <= 3 * length s)%nat.
Proof. apply length_TextEncoder_encode_step. Qed.

Lemma TextEncoder_encode_ascii (s : JsString) :
  Forall (fun c => 0 <= c < 128) s -> TextEncoder_encode s = s.
Proof.
  induction s as [| c s IH]; intros Hall; [reflexivity |].
  inversion Hall as [| c' l Hc Hs]; subst.
  assert (Hhigh : is_high_surrogate c = false).
  { unfold is_high_surrogate. destruct (Z.leb_spec 55296 c); [lia |].
    reflexivity. }
  assert (Hlow : is_low_surrogate c = false).
  { unfold is_low_surrogate. destruct (Z.leb_spec 56320 c); [lia |].
    reflexivity. }
  assert (Hone : utf8_of_code_point c = [c]).
  { unfold utf8_of_code_point. destruct (Z.ltb_spec c 128); [| lia].
    reflexivity. }
  destruct s as [| d s].
  - rewrite TextEncoder_encode_cons1, Hhigh, Hlow, Hone. reflexivity.
  - rewrite TextEncoder_encode_cons2, Hhigh, Hlow, Hone, (IH Hs).
    reflexivity.
Qed.

(** X4. [getStringEncoder] on a string of ASCII characters (code units
    0..127) shorter than 2^32 returns the four little-endian bytes of the
    string's length followed by the code units themselves, one byte each. *)
Theorem string_encoder_on_ascii :
  forall s : JsString,
    Forall (fun c => 0 <= c < 128) s ->
    Z.of_nat (length s) <= 4294967295 ->
    let n := Z.of_nat (length s) in
    getStringEncoder s
    = Ok ([n mod 256; (n / 256) mod 256; (n / 65536) mod 256;
           (n / 16777216) mod 256] ++ s).
Proof.
  intros s Hascii Hlen n.
  destruct (Implements_string s) as [Hyes _].
  rewrite Hyes.
  - unfold Wire.string, Wire.utf8. rewrite (TextEncoder_encode_ascii Hascii).
    fold n. f_equal. f_equal.
    unfold Wire.u32, Wire.le. cbn [seq map Z.of_nat Pos.of_succ_nat Pos.succ].
    rewrite Z.div_1_r. reflexivity.
  - unfold Accepts.string, Wire.utf8.
    rewrite (TextEncoder_encode_ascii Hascii).
    apply range_iff. lia.
Qed.

Lemma string_encoder_on_ascii_witness :
  getStringEncoder (js "my-key")
  = Ok ([6; 0; 0; 0] ++ [109; 121; 45; 107; 101; 121]).
Proof.
  apply (string_encoder_on_ascii (s := js "my-key")).
  - repeat constructor; lia.
  - cbn. lia.
Defined.

(** X5. [createRemoveKeyInstruction] returns an instruction for every key of
    at most 1431655765 UTF-16 code units: UTF-8 takes between one and three
    bytes per code unit, so the length always fits the u32 prefix, and the
    data has between 13 + n and 13 + 3n bytes for a key of n code units. *)
Theorem remove_key_returns_for_practical_keys :
  forall args : RemoveKeyInstructionArgs.t,
    Forall (fun c => c < 65536) (RemoveKeyInstructionArgs.key args) ->
    Z.of_nat (length (RemoveKeyInstructionArgs.key args)) <= 1431655765 ->
    exists ix,
      createRemoveKeyInstruction args = Ok ix
      /\ (13 + length (RemoveKeyInstructionArgs.key args)
          <= length (TransactionInstruction.data ix)
          <= 13 + 3 * length (RemoveKeyInstructionArgs.key args))%nat.
Proof.
  intros args Hunits Hlen.
  pose proof (length_TextEncoder_encode Hunits) as Hbytes.
  destruct (createRemoveKeyInstruction_spec args) as [Hyes _].
  exists (Expected.removeKey args). split.
  - apply Hyes. unfold Accepts.string, Wire.utf8. apply range_iff. lia.
  - unfold Expected.removeKey, Wire.removeKey, Wire.string, Wire.utf8,
      removeKeyData.
    cbn [TransactionInstruction.data RemoveKeyData.idempotent
           RemoveKeyData.key].
    rewrite !length_app. unfold Wire.u32. rewrite length_le.
    destruct (RemoveKeyInstructionArgs.idempotent args); cbn [Wire.bool length
      Discriminator.removeKey]; lia.
Qed.

Lemma remove_key_returns_for_practical_keys_witness :
  exists ix,
    createRemoveKeyInstruction Sample.removeKeyArgs = Ok ix
    /\ (13 + 6 <= length (TransactionInstruction.data ix) <= 13 + 3 * 6)%nat.
Proof.
  apply (remove_key_returns_for_practical_keys Sample.removeKeyArgs).
  - repeat constructor; lia.
  - cbn. lia.
Defined.

(** ** Accounts, program id and sizes *)

Lemma length_publicKey (k : PublicKey) : length (Wire.publicKey k) = 32%nat.
Proof.
  unfold Wire.publicKey.
  rewrite length_firstn, length_app, repeat_length. lia.
Qed.

(** X6. [createUpdateAuthorityInstruction] never throws: for every argument
    record it returns an instruction, and the data of that instruction has
    exactly 40 bytes, the 8 of the discriminator and 32 for the key. *)
Theorem update_authority_always_returns :
  forall args : UpdateAuthorityInstructionArgs.t,
    exists ix,
      createUpdateAuthorityInstruction args = Ok ix
      /\ length (TransactionInstruction.data ix) = 40%nat
      /\ firstn 8 (TransactionInstruction.data ix)
         = [215; 228; 166; 228; 84; 100; 86; 123].
Proof.
  intros args. exists (Expected.updateAuthority args).
  split; [apply createUpdateAuthorityInstruction_spec | split].
  - unfold Expected.updateAuthority, Wire.updateAuthority.
    cbn [TransactionInstruction.data].
    rewrite length_app, length_publicKey. reflexivity.
  - reflexivity.
Qed.

(** X7. Every returned instruction carries the [programId] it was called
    with, and the account list is fixed by the builder: UpdateField,
    RemoveKey and UpdateAuthority list the metadata account (writable, not a
    signer) and then the update authority, respectively the old authority
    (signer, read-only); Emit lists the metadata account alone, read-only
    and not a signer; Initialize starts with its four fixed accounts. *)
Theorem program_id_and_accounts :
  forall (Field FieldLayout : Type) (kind : FieldLayout -> string)
         (getFieldCodec : list (string * Encoder FieldLayout))
         (getFieldConfig : Field + JsString -> FieldLayout)
         (c : Call Field) (ix : TransactionInstruction.t),
    build kind getFieldCodec getFieldConfig c = Ok ix ->
    TransactionInstruction.programId ix = programIdOf c
    /\ match c with
       | Initialize args =>
           firstn 4 (TransactionInstruction.keys ix)
           = [ {| isSigner := false; isWritable := true;
                  pubkey := InitializeInstructionArgs.metadata args |};
               {| isSigner := false; isWritable := false;
                  pubkey := InitializeInstructionArgs.updateAuthority args |};
               {| isSigner := false; isWritable := false;
                  pubkey := InitializeInstructionArgs.mint args |};
               {| isSigner := true; isWritable := false;
                  pubkey := InitializeInstructionArgs.mintAuthority args |} ]
       | UpdateField args =>
           TransactionInstruction.keys ix
           = [ {| isSigner := false; isWritable := true;
                  pubkey := UpdateFieldInstruction.metadata args |};
               {| isSigner := true; isWritable := false;
                  pubkey := UpdateFieldInstruction.updateAuthority args |} ]
       | RemoveKey args =>
           TransactionInstruction.keys ix
           = [ {| isSigner := false; isWritable := true;
                  pubkey := RemoveKeyInstructionArgs.metadata args |};
               {| isSigner := true; isWritable := false;
                  pubkey := RemoveKeyInstructionArgs.updateAuthority args |} ]
       | UpdateAuthority args =>
           TransactionInstruction.keys ix
           = [ {| isSigner := false; isWritable := true;
                  pubkey := UpdateAuthorityInstructionArgs.metadata args |};
               {| isSigner := true; isWritable := false;
                  pubkey :=
                    UpdateAuthorityInstructionArgs.oldAuthority args |} ]
       | Emit args =>
           TransactionInstruction.keys ix
           = [ {| isSigner := false; isWritable := false;
                  pubkey := EmitInstructionArgs.metadata args |} ]
       end.
Proof.
  intros Field FieldLayout kind getFieldCodec getFieldConfig c ix Hix.
  destruct c as [args | args | args | args | args]; cbn [build] in Hix.
  - destruct (createInitializeInstruction_spec args) as [Hyes Hno].
    destruct (spec_Ok_inv Hyes Hno Hix) as [_ ->]. split; reflexivity.
  - destruct (createUpdateFieldInstruction_Ok_inv _ _ _ _ Hix)
      as (fieldBytes & _ & _ & ->).
    split; reflexivity.
  - destruct (createRemoveKeyInstruction_spec args) as [Hyes Hno].
    destruct (spec_Ok_inv Hyes Hno Hix) as [_ ->]. split; reflexivity.
  - rewrite createUpdateAuthorityInstruction_spec in Hix.
    inversion Hix. split; reflexivity.
  - destruct (createEmitInstruction_spec args) as [Hyes Hno].
    destruct (spec_Ok_inv Hyes Hno Hix) as [_ ->]. split; reflexivity.
Qed.

Lemma program_id_and_accounts_witness :
  TransactionInstruction.programId (Expected.emit Sample.emitArgs)
  = Sample.key 4
  /\ TransactionInstruction.keys (Expected.emit Sample.emitArgs)
     = [ {| isSigner := false; isWritable := false;
            pubkey := Sample.key 1 |} ].
Proof.
  apply (@program_id_and_accounts
           Sample.Field Sample.FieldLayout Sample.kind Sample.getFieldCodec
           Sample.getFieldConfig (Emit Sample.emitArgs)).
  reflexivity.
Defined.

Lemma build_data {Field FieldLayout : Type} (kind : FieldLayout -> string)
  (getFieldCodec : list (string * Encoder FieldLayout))
  (getFieldConfig : Field + JsString -> FieldLayout)
  (c : Call Field) (ix : TransactionInstruction.t) :
  build kind getFieldCodec getFieldConfig c = Ok ix ->
  exists payload,
    TransactionInstruction.data ix = discriminatorOf c ++ payload.
Proof.
  intros Hix.
  destruct c as [args | args | args | args | args]; cbn [build] in Hix.
  - destruct (createInitializeInstruction_spec args) as [Hyes Hno].
    destruct (spec_Ok_inv Hyes Hno Hix) as [_ ->]. eexists. reflexivity.
  - destruct (createUpdateFieldInstruction_Ok_inv _ _ _ _ Hix)
      as (fieldBytes & _ & _ & ->).
    eexists. reflexivity.
  - destruct (createRemoveKeyInstruction_spec args) as [Hyes Hno].
    destruct (spec_Ok_inv Hyes Hno Hix) as [_ ->]. eexists. reflexivity.
  - rewrite createUpdateAuthorityInstruction_spec in Hix.
    inversion Hix. eexists. reflexivity.
  - destruct (createEmitInstruction_spec args) as [Hyes Hno].
    destruct (spec_Ok_inv Hyes Hno Hix) as [_ ->]. eexists. reflexivity.
Qed.

(** X8. Instructions of different builders never share their data: when two
    builder calls return instructions with equal data, they are calls of the
    same builder.  The five discriminators are pairwise different. *)
Theorem equal_data_same_builder :
  forall (Field FieldLayout : Type) (kind : FieldLayout -> string)
         (getFieldCodec : list (string * Encoder FieldLayout))
         (getFieldConfig : Field + JsString -> FieldLayout)
         (c1 c2 : Call Field) (ix1 ix2 : TransactionInstruction.t),
    build kind getFieldCodec getFieldConfig c1 = Ok ix1 ->
    build kind getFieldCodec getFieldConfig c2 = Ok ix2 ->
    TransactionInstruction.data ix1 = TransactionInstruction.data ix2 ->
    sameBuilder c1 c2 = true.
Proof.
  intros Field FieldLayout kind getFieldCodec getFieldConfig c1 c2 ix1 ix2
    H1 H2 Hdata.
  destruct (build_data _ _ _ _ H1) as [p1 E1].
  destruct (build_data _ _ _ _ H2) as [p2 E2].
  rewrite E1, E2 in Hdata.
  destruct c1, c2; cbn [sameBuilder]; try reflexivity;
    cbn [discriminatorOf] in Hdata; discriminate Hdata.
Qed.

Lemma equal_data_same_builder_witness :
  sameBuilder (Field := Sample.Field)
    (RemoveKey Sample.removeKeyArgs) (RemoveKey Sample.removeKeyArgs) = true.
Proof.
  apply (@equal_data_same_builder
           Sample.Field Sample.FieldLayout Sample.kind Sample.getFieldCodec
           Sample.getFieldConfig
           (RemoveKey Sample.removeKeyArgs) (RemoveKey Sample.removeKeyArgs)
           (Expected.removeKey Sample.removeKeyArgs)
           (Expected.removeKey Sample.removeKeyArgs));
    reflexivity.
Defined.

(** ** The data determines the payload *)

Lemma Inverts_injective {T : Type} (decoder : Decode.Decoder T) layout
  (P : T -> Prop) :
  Inverts decoder layout P ->
  forall v1 v2, P v1 -> P v2 -> layout v1 = layout v2 -> v1 = v2.
Proof.
  intros HI v1 v2 H1 H2 Heq.
  pose proof (HI v1 [] H1) as D1. pose proof (HI v2 [] H2) as D2.
  rewrite Heq in D1. rewrite D1 in D2. inversion D2. reflexivity.
Qed.

(** X9. The Emit data determines the range: two argument records on which
    [createEmitInstruction] returns instructions with equal data have the
    same [start] and the same [end], absent or present alike. *)
Theorem emit_data_determines_range :
  forall (args1 args2 : EmitInstructionArgs.t)
         (ix1 ix2 : TransactionInstruction.t),
    createEmitInstruction args1 = Ok ix1 ->
    createEmitInstruction args2 = Ok ix2 ->
    TransactionInstruction.data ix1 = TransactionInstruction.data ix2 ->
    EmitInstructionArgs.start args1 = EmitInstructionArgs.start args2
    /\ EmitInstructionArgs.end_ args1 = EmitInstructionArgs.end_ args2.
Proof.
  intros args1 args2 ix1 ix2 H1 H2 Hdata.
  destruct (createEmitInstruction_spec args1) as [Hyes1 Hno1].
  destruct (createEmitInstruction_spec args2) as [Hyes2 Hno2].
  destruct (spec_Ok_inv Hyes1 Hno1 H1) as [Hacc1 ->].
  destruct (spec_Ok_inv Hyes2 Hno2 H2) as [Hacc2 ->].
  cbn [Expected.emit TransactionInstruction.data] in Hdata.
  apply app_inv_head in Hdata.
  pose proof (Inverts_injective Inverts_emit _ _ Hacc1 Hacc2 Hdata) as Heq.
  unfold emitData in Heq. inversion Heq. split; reflexivity.
Qed.

Lemma emit_data_determines_range_witness :
  EmitInstructionArgs.start Sample.emitArgs
  = EmitInstructionArgs.start (MoreSamples.emitWith (Some 5) None)
  /\ EmitInstructionArgs.end_ Sample.emitArgs
     = EmitInstructionArgs.end_ (MoreSamples.emitWith (Some 5) None).
Proof.
  apply (emit_data_determines_range
           Sample.emitArgs (MoreSamples.emitWith (Some 5) None)
           (ix1 := Expected.emit Sample.emitArgs)
           (ix2 := Expected.emit Sample.emitArgs));
    reflexivity.
Defined.

(** X10. The RemoveKey data determines the payload: two argument records
    with well-formed keys on which [createRemoveKeyInstruction] returns
    instructions with equal data have the same [idempotent] flag and the
    same key. *)
Theorem remove_key_data_determines_payload :
  forall (args1 args2 : RemoveKeyInstructionArgs.t)
         (ix1 ix2 : TransactionInstruction.t),
    createRemoveKeyInstruction args1 = Ok ix1 ->
    createRemoveKeyInstruction args2 = Ok ix2 ->
    isWellFormed (RemoveKeyInstructionArgs.key args1) = true ->
    isWellFormed (RemoveKeyInstructionArgs.key args2) = true ->
    TransactionInstruction.data ix1 = TransactionInstruction.data ix2 ->
    RemoveKeyInstructionArgs.idempotent args1
    = RemoveKeyInstructionArgs.idempotent args2
    /\ RemoveKeyInstructionArgs.key args1 = RemoveKeyInstructionArgs.key args2.
Proof.
  intros args1 args2 ix1 ix2 H1 H2 Hwf1 Hwf2 Hdata.
  destruct (createRemoveKeyInstruction_spec args1) as [Hyes1 Hno1].
  destruct (createRemoveKeyInstruction_spec args2) as [Hyes2 Hno2].
  destruct (spec_Ok_inv Hyes1 Hno1 H1) as [Hacc1 ->].
  destruct (spec_Ok_inv Hyes2 Hno2 H2) as [Hacc2 ->].
  cbn [Expected.removeKey TransactionInstruction.data] in Hdata.
  apply app_inv_head in Hdata.
  pose proof (Inverts_injective Inverts_removeKey
                (removeKeyData args1) (removeKeyData args2)
                (conj Hacc1 Hwf1) (conj Hacc2 Hwf2) Hdata) as Heq.
  unfold removeKeyData in Heq. inversion Heq. split; reflexivity.
Qed.

Lemma remove_key_data_determines_payload_witness :
  RemoveKeyInstructionArgs.idempotent Sample.removeKeyArgs
  = RemoveKeyInstructionArgs.idempotent (Sample.removeKeyWith (js "my-key"))
  /\ RemoveKeyInstructionArgs.key Sample.removeKeyArgs
     = RemoveKeyInstructionArgs.key (Sample.removeKeyWith (js "my-key")).
Proof.
  apply (remove_key_data_determines_payload
           Sample.removeKeyArgs (Sample.removeKeyWith (js "my-key"))
           (ix1 := Expected.removeKey Sample.removeKeyArgs)
           (ix2 := Expected.removeKey Sample.removeKeyArgs));
    reflexivity.
Defined.

(** X11. The Initialize data determines the payload and the signers: for two
    argument records with integer numbers, well-formed strings and 32-byte
    creator and collection keys on which [createInitializeInstruction] returns
    instructions with equal data, the name, symbol, uri, seller fee (0 when
    left out), creators (absent when empty or left out), collection and uses
    agree, and so do the accounts after the four fixed ones. *)
Theorem initialize_data_determines_payload_and_signers :
  forall (args1 args2 : InitializeInstructionArgs.t)
         (ix1 ix2 : TransactionInstruction.t),
    createInitializeInstruction args1 = Ok ix1 ->
    createInitializeInstruction args2 = Ok ix2 ->
    Readable.initialize (initializeData args1) = true ->
    Readable.initialize (initializeData args2) = true ->
    TransactionInstruction.data ix1 = TransactionInstruction.data ix2 ->
    initializeData args1 = initializeData args2
    /\ skipn 4 (TransactionInstruction.keys ix1)
       = skipn 4 (TransactionInstruction.keys ix2).
Proof.
  intros args1 args2 ix1 ix2 H1 H2 Hread1 Hread2 Hdata.
  destruct (createInitializeInstruction_spec args1) as [Hyes1 Hno1].
  destruct (createInitializeInstruction_spec args2) as [Hyes2 Hno2].
  destruct (spec_Ok_inv Hyes1 Hno1 H1) as [Hacc1 ->].
  destruct (spec_Ok_inv Hyes2 Hno2 H2) as [Hacc2 ->].
  cbn [Expected.initialize TransactionInstruction.data] in Hdata.
  apply app_inv_head in Hdata.
  pose proof (Inverts_injective Inverts_initialize
                (initializeData args1) (initializeData args2)
                (conj Hacc1 Hread1) (conj Hacc2 Hread2) Hdata) as Heq.
  split; [exact Heq |].
  unfold Expected.initialize, Expected.initializeKeys.
  cbn [TransactionInstruction.keys skipn app].
  pose proof (f_equal InitializeData.creators Heq) as Hcreators.
  pose proof (f_equal InitializeData.collection Heq) as Hcoll.
  unfold initializeData in Hcreators, Hcoll.
  cbn [InitializeData.creators InitializeData.collection] in Hcreators, Hcoll.
  f_equal; f_equal.
  - unfold Expected.verifiedCreators, Expected.creators.
    destruct (InitializeInstructionArgs.creators args1) as [[| c1 l1] |],
      (InitializeInstructionArgs.creators args2) as [[| c2 l2] |];
      try discriminate Hcreators; try reflexivity.
    inversion Hcreators. reflexivity.
  - unfold Expected.verifiedCollection.
    destruct (InitializeInstructionArgs.collection args1) as [[c1 |] |],
      (InitializeInstructionArgs.collection args2) as [[c2 |] |];
      try discriminate Hcoll; try reflexivity.
    inversion Hcoll. reflexivity.
Qed.

Lemma initialize_data_determines_payload_and_signers_witness :
  initializeData (withCreators (Some []) Sample.initializeArgs)
  = initializeData (withCreators None Sample.initializeArgs)
  /\ skipn 4
       (TransactionInstruction.keys
          (Expected.initialize (withCreators None Sample.initializeArgs)))
     = skipn 4
         (TransactionInstruction.keys
            (Expected.initialize (withCreators None Sample.initializeArgs))).
Proof.
  apply (initialize_data_determines_payload_and_signers
           (withCreators (Some []) Sample.initializeArgs)
           (withCreators None Sample.initializeArgs));
    vm_compute; reflexivity.
Defined.

(** ** Sizes *)

Lemma length_bool (b : bool) : length (Wire.bool b) = 1%nat.
Proof. destruct b; reflexivity. Qed.

Lemma length_creator (c : Creator.t) : length (Wire.creator c) = 34%nat.
Proof.
  unfold Wire.creator, Wire.u8.
  rewrite !length_app, length_publicKey, length_bool, length_le. reflexivity.
Qed.

Lemma length_creators (l : list Creator.t) :
  length (concat (map Wire.creator l)) = (34 * length l)%nat.
Proof.
  induction l as [| c l IH]; [reflexivity |].
  cbn [map concat length]. rewrite length_app, length_creator, IH. lia.
Qed.

Lemma length_collection (c : Collection.t) :
  length (Wire.collection c) = 33%nat.
Proof.
  unfold Wire.collection.
  rewrite length_app, length_publicKey, length_bool. reflexivity.
Qed.

Lemma length_uses (u : Uses.t) : length (Wire.uses u) = 17%nat.
Proof.
  unfold Wire.uses, Wire.u8, Wire.u64.
  rewrite !length_app, !length_le. reflexivity.
Qed.

Lemma length_string (s : JsString) :
  length (Wire.string s) = (4 + length (TextEncoder_encode s))%nat.
Proof.
  unfold Wire.string, Wire.u32, Wire.utf8.
  rewrite length_app, length_le. reflexivity.
Qed.

(** X12. The size of the Initialize data.  A returned instruction's data has
    22 bytes (discriminator, three length prefixes, seller fee) plus the
    UTF-8 bytes of name, symbol and uri, plus 1 byte for absent creators (an
    empty or omitted list) or 5 + 34 per creator, plus 1 byte for an absent
    collection or 34 for a supplied one, plus 1 byte for absent uses or 18
    for supplied ones. *)
Theorem initialize_data_size :
  forall (args : InitializeInstructionArgs.t) (ix : TransactionInstruction.t),
    createInitializeInstruction args = Ok ix ->
    length (TransactionInstruction.data ix)
    = (22
       + length (TextEncoder_encode (InitializeInstructionArgs.name args))
       + length (TextEncoder_encode (InitializeInstructionArgs.symbol args))
       + length (TextEncoder_encode (InitializeInstructionArgs.uri args))
       + match InitializeInstructionArgs.creators args with
         | Some (c :: l) => 5 + 34 * length (c :: l)
         | _ => 1
         end
       + match InitializeInstructionArgs.collection args with
         | Some (Some _) => 34
         | _ => 1
         end
       + match InitializeInstructionArgs.uses args with
         | Some (Some _) => 18
         | _ => 1
         end)%nat.
Proof.
  intros args ix Hix.
  destruct (createInitializeInstruction_spec args) as [Hyes Hno].
  destruct (spec_Ok_inv Hyes Hno Hix) as [_ ->].
  unfold Expected.initialize, Wire.initialize, initializeData.
  cbn [TransactionInstruction.data InitializeData.name InitializeData.symbol
         InitializeData.uri InitializeData.seller_fee_basis_points
         InitializeData.creators InitializeData.collection
         InitializeData.uses].
  rewrite !length_app, !length_string.
  unfold Wire.u16. rewrite length_le.
  assert (Hcreators :
            length (Wire.option (Wire.array Wire.creator)
                      match InitializeInstructionArgs.creators args with
                      | Some (c :: l) => Some (c :: l)
                      | _ => None
                      end)
            = match InitializeInstructionArgs.creators args with
              | Some (c :: l) => 5 + 34 * length (c :: l)
              | _ => 1
              end%nat).
  { destruct (InitializeInstructionArgs.creators args) as [[| c l] |];
      try reflexivity.
    cbn [Wire.option]. unfold Wire.array, Wire.u32.
    cbn [length]. rewrite length_app, length_le, length_creators.
    cbn [length]. lia. }
  assert (Hcollection :
            length (Wire.option Wire.collection
                      match InitializeInstructionArgs.collection args with
                      | Some (Some c) => Some c
                      | _ => None
                      end)
            = match InitializeInstructionArgs.collection args with
              | Some (Some _) => 34
              | _ => 1
              end%nat).
  { destruct (InitializeInstructionArgs.collection args) as [[c |] |];
      cbn [Wire.option length]; rewrite ?length_collection; reflexivity. }
  assert (Huses :
            length (Wire.option Wire.uses
                      match InitializeInstructionArgs.uses args with
                      | Some (Some u) => Some u
                      | _ => None
                      end)
            = match InitializeInstructionArgs.uses args with
              | Some (Some _) => 18
              | _ => 1
              end%nat).
  { destruct (InitializeInstructionArgs.uses args) as [[u |] |];
      cbn [Wire.option length]; rewrite ?length_uses; reflexivity. }
  rewrite Hcreators, Hcollection, Huses.
  cbn [Discriminator.initialize length]. lia.
Qed.

Lemma initialize_data_size_witness :
  length (TransactionInstruction.data
            (Expected.initialize Sample.initializeArgs))
  = (22 + 5 + 3 + 26 + (5 + 34 * 3) + 34 + 18)%nat.
Proof.
  rewrite (initialize_data_size Sample.initializeArgs
             (ix := Expected.initialize Sample.initializeArgs)).
  - vm_compute. reflexivity.
  - vm_compute. reflexivity.
Defined.

(** X13. The size of the Emit data: 10 bytes when neither bound is
    supplied, 18 when exactly one is, 26 when both are. *)
Theorem emit_data_size :
  forall (args : EmitInstructionArgs.t) (ix : TransactionInstruction.t),
    createEmitInstruction args = Ok ix ->
    length (TransactionInstruction.data ix)
    = (10
       + match EmitInstructionArgs.start args with
         | Some _ => 8
         | None => 0
         end
       + match EmitInstructionArgs.end_ args with
         | Some _ => 8
         | None => 0
         end)%nat.
Proof.
  intros args ix Hix.
  destruct (createEmitInstruction_spec args) as [Hyes Hno].
  destruct (spec_Ok_inv Hyes Hno Hix) as [_ ->].
  unfold Expected.emit, Wire.emit, emitData.
  cbn [TransactionInstruction.data EmitData.start EmitData.end_].
  rewrite !length_app.
  destruct (EmitInstructionArgs.start args), (EmitInstructionArgs.end_ args);
    cbn [Wire.option length Discriminator.emit]; unfold Wire.u64;
    rewrite ?length_le; reflexivity.
Qed.

Lemma emit_data_size_witness :
  length (TransactionInstruction.data (Expected.emit Sample.emitArgs))
  = 18%nat.
Proof.
  apply (emit_data_size Sample.emitArgs
           (ix := Expected.emit Sample.emitArgs)).
  vm_compute. reflexivity.
Defined.

(** ** UpdateField and the variant table *)

(** X14. [createUpdateFieldInstruction] looks the [__kind] of
    [getFieldConfig(field)] up in the variant table.  When the table has no
    entry of that name the builder throws the invalid-variant error naming
    the kind.  When it returns an instruction, the kind is in the table at
    an index of at most 255, and the data is the discriminator, one byte
    holding that index, the bytes the entry's encoder gives for the variant,
    and the value as a length-prefixed string. *)
Theorem update_field_variant_index :
  forall (Field FieldLayout : Type) (kind : FieldLayout -> string)
         (getFieldCodec : list (string * Encoder FieldLayout))
         (getFieldConfig : Field + JsString -> FieldLayout)
         (args : UpdateFieldInstruction.t Field),
    let variant := getFieldConfig (UpdateFieldInstruction.field args) in
    (findVariant (kind variant) getFieldCodec = None ->
     createUpdateFieldInstruction kind getFieldCodec getFieldConfig args
     = Throw (InvalidDiscriminatedUnionVariant (kind variant)))
    /\ (forall ix,
          createUpdateFieldInstruction kind getFieldCodec getFieldConfig args
          = Ok ix ->
          exists index variantEncoder payload,
            findVariant (kind variant) getFieldCodec
            = Some (index, variantEncoder)
            /\ (index <= 255)%nat
            /\ variantEncoder variant = Ok payload
            /\ TransactionInstruction.data ix
               = [221; 233; 49; 45; 181; 202; 220; 200]
                   ++ [Z.of_nat index]
                   ++ payload
                   ++ Wire.string (UpdateFieldInstruction.value args)).
Proof.
  intros Field FieldLayout kind getFieldCodec getFieldConfig args variant.
  split.
  - intros Hnone.
    unfold createUpdateFieldInstruction, getInstructionEncoder,
      transformEncoder, getTupleEncoder, getBytesEncoder.
    cbn [getStructEncoder field fst snd bind UpdateFieldData.field
           UpdateFieldData.value].
    unfold getDataEnumCodec. fold variant. rewrite Hnone. reflexivity.
  - intros ix Hix.
    destruct (createUpdateFieldInstruction_Ok_inv _ _ _ _ Hix)
      as (fieldBytes & Henc & _ & ->).
    unfold getDataEnumCodec in Henc. fold variant in Henc.
    destruct (findVariant (kind variant) getFieldCodec)
      as [[index variantEncoder] |]; [| discriminate Henc].
    destruct (Implements_u8 (Z.of_nat index)) as [Hyes Hno].
    destruct (Accepts.u8 (Z.of_nat index)) eqn:Hacc.
    + rewrite Hyes in Henc by reflexivity. cbn [bind] in Henc.
      destruct (variantEncoder variant) as [payload | e] eqn:Hpayload;
        [| discriminate Henc].
      cbn [bind] in Henc. inversion Henc; subst fieldBytes.
      apply (range_iff 0 255) in Hacc.
      exists index, variantEncoder, payload.
      split; [reflexivity | split; [lia | split; [exact Hpayload |]]].
      cbn [Expected.updateField TransactionInstruction.data
             Discriminator.updateField].
      rewrite Z.div_1_r, Z.mod_small by lia. reflexivity.
    + destruct Hno as [e He]; [reflexivity |].
      rewrite He in Henc. discriminate Henc.
Qed.

Lemma update_field_variant_index_witness :
  createUpdateFieldInstruction Sample.kind MoreSamples.partialFieldCodec
    Sample.getFieldConfig Sample.updateFieldArgs
  = Throw (InvalidDiscriminatedUnionVariant "Key")
  /\ exists index variantEncoder payload,
       findVariant
         (Sample.kind
            (Sample.getFieldConfig
               (UpdateFieldInstruction.field Sample.updateFieldArgs)))
         Sample.getFieldCodec
       = Some (index, variantEncoder)
       /\ (index <= 255)%nat
       /\ variantEncoder
            (Sample.getFieldConfig
               (UpdateFieldInstruction.field Sample.updateFieldArgs))
          = Ok payload
       /\ TransactionInstruction.data
            (Expected.updateField Sample.updateFieldArgs
               [1; 6; 0; 0; 0; 99; 111; 108; 111; 117; 114])
          = [221; 233; 49; 45; 181; 202; 220; 200]
              ++ [Z.of_nat index]
              ++ payload
              ++ Wire.string (UpdateFieldInstruction.value
                                Sample.updateFieldArgs).
Proof.
  split.
  - assert (Hnone :
              findVariant
                (Sample.kind
                   (Sample.getFieldConfig
                      (UpdateFieldInstruction.field Sample.updateFieldArgs)))
                MoreSamples.partialFieldCodec = None)
      by (vm_compute; reflexivity).
    exact (proj1 (@update_field_variant_index
                    Sample.Field Sample.FieldLayout Sample.kind
                    MoreSamples.partialFieldCodec Sample.getFieldConfig
                    Sample.updateFieldArgs) Hnone).
  - assert (Hix :
              createUpdateFieldInstruction Sample.kind Sample.getFieldCodec
                Sample.getFieldConfig Sample.updateFieldArgs
              = Ok (Expected.updateField Sample.updateFieldArgs
                      [1; 6; 0; 0; 0; 99; 111; 108; 111; 117; 114]))
      by (vm_compute; reflexivity).
    exact (proj2 (@update_field_variant_index
                    Sample.Field Sample.FieldLayout Sample.kind
                    Sample.getFieldCodec Sample.getFieldConfig
                    Sample.updateFieldArgs) _ Hix).
Defined.

(** ** The data depends on the payload alone *)

Lemma dataOf_bind (r : Result bytes) programId keys :
  dataOf (data <- r ;;
          Ok {| TransactionInstruction.programId := programId;
                TransactionInstruction.keys := keys;
                TransactionInstruction.data := data |})
  = r.
Proof. destruct r; reflexivity. Qed.

(** X15. The accounts and the program id never reach the data: two calls of
    a builder whose payload fields agree (for Initialize after the defaults
    and the empty-creators rule, for UpdateAuthority after the null
    substitution, for UpdateField through [getFieldConfig]) give the same
    data, or throw the same error, whatever [programId], [metadata], mint
    and authorities they are made with. *)
Theorem data_depends_on_payload_only :
  (forall args1 args2 : InitializeInstructionArgs.t,
     initializeData args1 = initializeData args2 ->
     dataOf (createInitializeInstruction args1)
     = dataOf (createInitializeInstruction args2))
  /\ (forall (Field FieldLayout : Type) (kind : FieldLayout -> string)
             (getFieldCodec : list (string * Encoder FieldLayout))
             (getFieldConfig : Field + JsString -> FieldLayout)
             (args1 args2 : UpdateFieldInstruction.t Field),
        getFieldConfig (UpdateFieldInstruction.field args1)
        = getFieldConfig (UpdateFieldInstruction.field args2) ->
        UpdateFieldInstruction.value args1
        = UpdateFieldInstruction.value args2 ->
        dataOf (createUpdateFieldInstruction kind getFieldCodec
                  getFieldConfig args1)
        = dataOf (createUpdateFieldInstruction kind getFieldCodec
                    getFieldConfig args2))
  /\ (forall args1 args2 : RemoveKeyInstructionArgs.t,
        RemoveKeyInstructionArgs.key args1
        = RemoveKeyInstructionArgs.key args2 ->
        RemoveKeyInstructionArgs.idempotent args1
        = RemoveKeyInstructionArgs.idempotent args2 ->
        dataOf (createRemoveKeyInstruction args1)
        = dataOf (createRemoveKeyInstruction args2))
  /\ (forall args1 args2 : UpdateAuthorityInstructionArgs.t,
        updateAuthorityData args1 = updateAuthorityData args2 ->
        dataOf (createUpdateAuthorityInstruction args1)
        = dataOf (createUpdateAuthorityInstruction args2))
  /\ (forall args1 args2 : EmitInstructionArgs.t,
        EmitInstructionArgs.start args1 = EmitInstructionArgs.start args2 ->
        EmitInstructionArgs.end_ args1 = EmitInstructionArgs.end_ args2 ->
        dataOf (createEmitInstruction args1)
        = dataOf (createEmitInstruction args2)).
Proof.
  split; [| split; [| split; [| split]]].
  - intros args1 args2 Heq.
    unfold createInitializeInstruction. cbv zeta.
    rewrite !initialize_payload, !dataOf_bind, Heq. reflexivity.
  - intros Field FieldLayout kind getFieldCodec getFieldConfig args1 args2
      Hfield Hvalue.
    unfold createUpdateFieldInstruction. cbv zeta.
    rewrite !dataOf_bind, Hfield, Hvalue. reflexivity.
  - intros args1 args2 Hkey Hflag.
    unfold createRemoveKeyInstruction. cbv zeta.
    rewrite !dataOf_bind, Hkey, Hflag. reflexivity.
  - intros args1 args2 Heq.
    unfold createUpdateAuthorityInstruction. cbv zeta.
    rewrite !dataOf_bind.
    change {| UpdateAuthorityData.newAuthority :=
                nullish (UpdateAuthorityInstructionArgs.newAuthority args1)
                  SystemProgram.programId |}
      with (updateAuthorityData args1).
    change {| UpdateAuthorityData.newAuthority :=
                nullish (UpdateAuthorityInstructionArgs.newAuthority args2)
                  SystemProgram.programId |}
      with (updateAuthorityData args2).
    rewrite Heq. reflexivity.
  - intros args1 args2 Hstart Hend.
    unfold createEmitInstruction. cbv zeta.
    rewrite !dataOf_bind, Hstart, Hend. reflexivity.
Qed.

Lemma data_depends_on_payload_only_witness :
  dataOf (createInitializeInstruction
            (withCreators (Some []) Sample.initializeArgs))
  = dataOf (createInitializeInstruction
              (withCreators None Sample.initializeArgs))
  /\ dataOf (createUpdateAuthorityInstruction
               (Sample.updateAuthorityArgs None))
     = dataOf (createUpdateAuthorityInstruction
                 (Sample.updateAuthorityArgs (Some SystemProgram.programId))).
Proof.
  split.
  - apply (proj1 data_depends_on_payload_only). reflexivity.
  - apply (proj1 (proj2 (proj2 (proj2 data_depends_on_payload_only)))).
    reflexivity.
Defined.
